(** * onlineQuiz: the quiz session engine of [src/index.tsx]

    A shallow embedding of class [QuizApp]: its fields become the record
    [App], its methods become functions on [App], and the browser objects
    the methods talk to (localStorage, the document's listeners, the part of
    the page the session reads back) are fields of the same record.

    Conventions.
    - A JavaScript number that the code only uses as an integer is a [Z].
    - [Date.now()] is an argument of the function that reads it.
    - A method that can raise (a property read on [undefined]) returns a
      [Completion]: [Normal st] or [Thrown st], [st] being the state at the
      point where it stopped, since assignments made before a raise stay.
    - The page elements the code looks up by id are taken to exist
      (the HTML file is not part of the sources); of the page only the
      parts the session reads or that show a result are kept, CSS classes
      and the timer text are left out.
    - [JSON.stringify] and [JSON.parse] are the platform's: the model keeps
      the JSON value a text denotes ([json]) in place of the text.
    - The HTML parser is the browser's. The model follows it where the
      code reads back what it wrote as markup: the [value] attribute of
      the radio inputs of a question ([attributeValue]). *)

From stdpp Require Import base option list gmap strings.
From Stdlib Require Import ZArith Ascii Lia.

Local Open Scope string_scope.
Local Open Scope list_scope.

(** ** JavaScript values used by the code *)

(** [type Option = string] *)
Abbreviation Option := string.

(** One cell of [(Option | null)[]]: [None] is [null]. *)
Abbreviation Answer := (option string).

(** [arr[i]] for a number [i]: [None] is [undefined]. *)
Definition at_index {A : Type} (l : list A) (i : Z) : option A :=
  if decide (0 ≤ i)%Z then l !! Z.to_nat i else None.

(** [arr[i] = v] on an array of answers. Within the array it replaces the
    cell; past the end JavaScript extends the array, the cells in between
    being holes (read back as [undefined], written by [JSON.stringify] as
    [null]: [None] here). A negative [i] makes a property that is no array
    element: the cells stay as they are. *)
Definition set_index (l : list Answer) (i : Z) (v : Answer) : list Answer :=
  if decide (0 ≤ i)%Z then
    if decide (Z.to_nat i < length l)
    then <[Z.to_nat i := v]> l
    else l ++ replicate (Z.to_nat i - length l) None ++ [v]
  else l.

(** [a === c] where [a] was read from an answers array and [c] is a string:
    [undefined] and [null] equal no string. *)
Definition strict_eq (a : option Answer) (c : Option) : bool :=
  match a with
  | Some (Some s) => String.eqb s c
  | _ => false
  end.

(** [s.toUpperCase()], on ASCII text. *)
Definition upper_ascii (c : ascii) : ascii :=
  let n := nat_of_ascii c in
  if (97 <=? n)%nat && (n <=? 122)%nat then ascii_of_nat (n - 32) else c.

Fixpoint toUpperCase (s : string) : string :=
  match s with
  | EmptyString => EmptyString
  | String c s' => String (upper_ascii c) (toUpperCase s')
  end.

(** [s.substring(from, to)] for [from <= to]: both ends are clamped to the
    length of [s], as [String.substring] does. *)
Definition js_substring (from to : nat) (s : string) : string :=
  String.substring from (to - from) s.

(** ** Data model (the interfaces of the source) *)

Record MCQ := {
  question : string;
  options : list Option;
  correctAnswer : Option;
  explanation : option string      (* [explanation?: string] *)
}.

Record Quiz := {
  id : string;
  title : string;
  questions : list MCQ;
  duration : Z                     (* minutes *)
}.

(** [studentName], [studentRoll] and [studentEmail] are read from a parsed
    object, [None] is [undefined] (the property was absent). *)
Record StudentResult := {
  quizId : string;
  studentName : option string;
  studentRoll : option string;
  studentEmail : option string;
  score : Z;
  total : Z;
  answers : list Answer
}.

(** ** JSON values and the persisted layout *)

Unset Elimination Schemes.
Inductive json :=
| JNull
| JBool (b : bool)
| JNum (n : Z)
| JStr (s : string)
| JArr (l : list json)
| JObj (l : list (string * json)).
Set Elimination Schemes.

(** [o[k]] on a parsed object: of a key written twice the last one counts. *)
Fixpoint get_field (k : string) (l : list (string * json)) : option json :=
  match l with
  | [] => None
  | (k', v) :: l' =>
      match get_field k l' with
      | Some w => Some w
      | None => if String.eqb k k' then Some v else None
      end
  end.

Definition as_string (j : option json) : option string :=
  match j with Some (JStr s) => Some s | _ => None end.

Definition as_number (j : option json) : option Z :=
  match j with Some (JNum n) => Some n | _ => None end.

Definition as_array (j : option json) : option (list json) :=
  match j with Some (JArr l) => Some l | _ => None end.

(** [JSON.stringify] leaves out a property whose value is [undefined]. *)
Definition optional_field (k : string) (v : option string) : list (string * json) :=
  match v with Some s => [(k, JStr s)] | None => [] end.

Definition answer_to_json (a : Answer) : json :=
  match a with Some s => JStr s | None => JNull end.

Definition mcq_to_json (q : MCQ) : json :=
  JObj ([("question", JStr (question q));
         ("options", JArr (JStr <$> options q));
         ("correctAnswer", JStr (correctAnswer q))]
        ++ optional_field "explanation" (explanation q)).

Definition quiz_to_json (q : Quiz) : json :=
  JObj [("id", JStr (id q));
        ("title", JStr (title q));
        ("questions", JArr (mcq_to_json <$> questions q));
        ("duration", JNum (duration q))].

Definition result_to_json (r : StudentResult) : json :=
  JObj ([("quizId", JStr (quizId r))]
        ++ optional_field "studentName" (studentName r)
        ++ optional_field "studentRoll" (studentRoll r)
        ++ optional_field "studentEmail" (studentEmail r)
        ++ [("score", JNum (score r));
            ("total", JNum (total r));
            ("answers", JArr (answer_to_json <$> answers r))]).

Definition professors_to_json (m : gmap string string) : json :=
  JObj (prod_map (λ k, k) JStr <$> map_to_list m).

Definition quizzes_to_json (m : gmap string Quiz) : json :=
  JObj (prod_map (λ k, k) quiz_to_json <$> map_to_list m).

Definition results_to_json (l : list StudentResult) : json :=
  JArr (result_to_json <$> l).

(** Reading a parsed value at a declared interface. TypeScript's types are
    erased, so the code assigns whatever [JSON.parse] returns; a value that
    does not have the declared shape has no counterpart in the typed model
    and the readers below answer [None] for it. *)

Definition json_string (j : json) : option string :=
  match j with JStr s => Some s | _ => None end.

Definition json_answer (j : json) : option Answer :=
  match j with JStr s => Some (Some s) | JNull => Some None | _ => None end.

(** An optional string property: absent, or a string. *)
Definition optional_string (j : option json) : option (option string) :=
  match j with
  | None => Some None
  | Some (JStr s) => Some (Some s)
  | Some _ => None
  end.

Definition json_mcq (j : json) : option MCQ :=
  match j with
  | JObj l =>
      q ← as_string (get_field "question" l);
      os ← as_array (get_field "options" l) ≫= mapM json_string;
      c ← as_string (get_field "correctAnswer" l);
      e ← optional_string (get_field "explanation" l);
      Some {| question := q; options := os; correctAnswer := c; explanation := e |}
  | _ => None
  end.

Definition json_quiz (j : json) : option Quiz :=
  match j with
  | JObj l =>
      i ← as_string (get_field "id" l);
      t ← as_string (get_field "title" l);
      qs ← as_array (get_field "questions" l) ≫= mapM json_mcq;
      d ← as_number (get_field "duration" l);
      Some {| id := i; title := t; questions := qs; duration := d |}
  | _ => None
  end.

Definition json_result (j : json) : option StudentResult :=
  match j with
  | JObj l =>
      q ← as_string (get_field "quizId" l);
      n ← optional_string (get_field "studentName" l);
      r ← optional_string (get_field "studentRoll" l);
      e ← optional_string (get_field "studentEmail" l);
      s ← as_number (get_field "score" l);
      t ← as_number (get_field "total" l);
      a ← as_array (get_field "answers" l) ≫= mapM json_answer;
      Some {| quizId := q; studentName := n; studentRoll := r; studentEmail := e;
              score := s; total := t; answers := a |}
  | _ => None
  end.

(** A parsed object used as a map: the properties in the order of the text,
    a later one replacing an earlier one of the same key. *)
Definition json_map {A : Type} (f : json → option A) (j : json) : option (gmap string A) :=
  match j with
  | JObj l =>
      kvs ← mapM (λ kv, v ← f kv.2; Some (kv.1, v)) l;
      Some (list_to_map (reverse kvs))
  | _ => None
  end.

Definition json_professors : json → option (gmap string string) := json_map json_string.
Definition json_quizzes : json → option (gmap string Quiz) := json_map json_quiz.

Definition json_results (j : json) : option (list StudentResult) :=
  match j with
  | JArr l => mapM json_result l
  | _ => None
  end.

(** ** The application state *)

(** How a result is announced on the results page: the branch that
    [renderStudentResult] takes on its flags [cheated] and [timedOut]. *)
Inductive TerminationReason := Manual | Timeout | IntegrityViolation.

(** What is in [#quiz-container]: the radio inputs written by
    [renderQuestion] (the [value] attribute and whether [checked] was
    written), or the items written by [renderReviewQuestion] (the text and
    the classes [correct], [selected], [incorrect]). *)
Record ReviewItem := {
  item_text : string;
  item_correct : bool;
  item_selected : bool;
  item_incorrect : bool
}.

Inductive Container :=
| NoContent
| QuestionView (radios : list (string * bool))
| ReviewView (items : list ReviewItem).

(** What is in [#results-section]: nothing yet, or the card written by
    [renderStudentResult] with the flags it was called with. *)
Inductive ResultsSection :=
| NoResult
| ResultCard (result : StudentResult) (cheated timedOut : bool).

Record Page := {
  currentView : string;
  quizContainer : Container;
  resultsSection : ResultsSection;
  confirmationModal : bool;        (* shown, i.e. not [hidden] *)
  loginError : option string
}.

Record App := {
  currentProfessor : option string;
  professors : gmap string string;
  quizzes : gmap string Quiz;
  results : list StudentResult;
  activeQuiz : option Quiz;
  studentAnswers : list Answer;
  currentQuestionIndex : Z;
  (* The interval armed by [startTimer], if any; it runs [updateTimer],
     whose closure holds [endTime]. *)
  quizTimerInterval : option Z;
  reviewingResult : option StudentResult;
  (* [localStorage] *)
  storage : gmap string json;
  (* whether the document carries the listeners of [installAntiCheating] *)
  antiCheating : bool;
  page : Page
}.

Inductive Completion :=
| Normal (st : App)
| Thrown (st : App).

Definition andThen (c : Completion) (k : App → Completion) : Completion :=
  match c with
  | Normal st => k st
  | Thrown st => Thrown st
  end.

Notation "c ;;; k" := (andThen c k) (at level 61, left associativity).

(** The state an event handler leaves behind, raised or not. *)
Definition stateOf (c : Completion) : App :=
  match c with Normal st | Thrown st => st end.

(** *** Field updates *)

Definition with_currentView (v : string) (p : Page) : Page :=
  {| currentView := v; quizContainer := quizContainer p;
     resultsSection := resultsSection p; confirmationModal := confirmationModal p;
     loginError := loginError p |}.

Definition with_quizContainer (c : Container) (p : Page) : Page :=
  {| currentView := currentView p; quizContainer := c;
     resultsSection := resultsSection p; confirmationModal := confirmationModal p;
     loginError := loginError p |}.

Definition with_resultsSection (r : ResultsSection) (p : Page) : Page :=
  {| currentView := currentView p; quizContainer := quizContainer p;
     resultsSection := r; confirmationModal := confirmationModal p;
     loginError := loginError p |}.

Definition with_confirmationModal (b : bool) (p : Page) : Page :=
  {| currentView := currentView p; quizContainer := quizContainer p;
     resultsSection := resultsSection p; confirmationModal := b;
     loginError := loginError p |}.

Definition with_loginError (e : option string) (p : Page) : Page :=
  {| currentView := currentView p; quizContainer := quizContainer p;
     resultsSection := resultsSection p; confirmationModal := confirmationModal p;
     loginError := e |}.

Definition with_page (f : Page → Page) (st : App) : App :=
  {| currentProfessor := currentProfessor st; professors := professors st;
     quizzes := quizzes st; results := results st; activeQuiz := activeQuiz st;
     studentAnswers := studentAnswers st;
     currentQuestionIndex := currentQuestionIndex st;
     quizTimerInterval := quizTimerInterval st;
     reviewingResult := reviewingResult st; storage := storage st;
     antiCheating := antiCheating st; page := f (page st) |}.

Definition with_professors (m : gmap string string) (st : App) : App :=
  {| currentProfessor := currentProfessor st; professors := m;
     quizzes := quizzes st; results := results st; activeQuiz := activeQuiz st;
     studentAnswers := studentAnswers st;
     currentQuestionIndex := currentQuestionIndex st;
     quizTimerInterval := quizTimerInterval st;
     reviewingResult := reviewingResult st; storage := storage st;
     antiCheating := antiCheating st; page := page st |}.

Definition with_quizzes (m : gmap string Quiz) (st : App) : App :=
  {| currentProfessor := currentProfessor st; professors := professors st;
     quizzes := m; results := results st; activeQuiz := activeQuiz st;
     studentAnswers := studentAnswers st;
     currentQuestionIndex := currentQuestionIndex st;
     quizTimerInterval := quizTimerInterval st;
     reviewingResult := reviewingResult st; storage := storage st;
     antiCheating := antiCheating st; page := page st |}.

Definition with_results (l : list StudentResult) (st : App) : App :=
  {| currentProfessor := currentProfessor st; professors := professors st;
     quizzes := quizzes st; results := l; activeQuiz := activeQuiz st;
     studentAnswers := studentAnswers st;
     currentQuestionIndex := currentQuestionIndex st;
     quizTimerInterval := quizTimerInterval st;
     reviewingResult := reviewingResult st; storage := storage st;
     antiCheating := antiCheating st; page := page st |}.

Definition with_activeQuiz (q : option Quiz) (st : App) : App :=
  {| currentProfessor := currentProfessor st; professors := professors st;
     quizzes := quizzes st; results := results st; activeQuiz := q;
     studentAnswers := studentAnswers st;
     currentQuestionIndex := currentQuestionIndex st;
     quizTimerInterval := quizTimerInterval st;
     reviewingResult := reviewingResult st; storage := storage st;
     antiCheating := antiCheating st; page := page st |}.

Definition with_studentAnswers (a : list Answer) (st : App) : App :=
  {| currentProfessor := currentProfessor st; professors := professors st;
     quizzes := quizzes st; results := results st; activeQuiz := activeQuiz st;
     studentAnswers := a;
     currentQuestionIndex := currentQuestionIndex st;
     quizTimerInterval := quizTimerInterval st;
     reviewingResult := reviewingResult st; storage := storage st;
     antiCheating := antiCheating st; page := page st |}.

Definition with_currentQuestionIndex (i : Z) (st : App) : App :=
  {| currentProfessor := currentProfessor st; professors := professors st;
     quizzes := quizzes st; results := results st; activeQuiz := activeQuiz st;
     studentAnswers := studentAnswers st;
     currentQuestionIndex := i;
     quizTimerInterval := quizTimerInterval st;
     reviewingResult := reviewingResult st; storage := storage st;
     antiCheating := antiCheating st; page := page st |}.

Definition with_quizTimerInterval (t : option Z) (st : App) : App :=
  {| currentProfessor := currentProfessor st; professors := professors st;
     quizzes := quizzes st; results := results st; activeQuiz := activeQuiz st;
     studentAnswers := studentAnswers st;
     currentQuestionIndex := currentQuestionIndex st;
     quizTimerInterval := t;
     reviewingResult := reviewingResult st; storage := storage st;
     antiCheating := antiCheating st; page := page st |}.

Definition with_reviewingResult (r : option StudentResult) (st : App) : App :=
  {| currentProfessor := currentProfessor st; professors := professors st;
     quizzes := quizzes st; results := results st; activeQuiz := activeQuiz st;
     studentAnswers := studentAnswers st;
     currentQuestionIndex := currentQuestionIndex st;
     quizTimerInterval := quizTimerInterval st;
     reviewingResult := r; storage := storage st;
     antiCheating := antiCheating st; page := page st |}.

Definition with_storage (s : gmap string json) (st : App) : App :=
  {| currentProfessor := currentProfessor st; professors := professors st;
     quizzes := quizzes st; results := results st; activeQuiz := activeQuiz st;
     studentAnswers := studentAnswers st;
     currentQuestionIndex := currentQuestionIndex st;
     quizTimerInterval := quizTimerInterval st;
     reviewingResult := reviewingResult st; storage := s;
     antiCheating := antiCheating st; page := page st |}.

Definition with_antiCheating (b : bool) (st : App) : App :=
  {| currentProfessor := currentProfessor st; professors := professors st;
     quizzes := quizzes st; results := results st; activeQuiz := activeQuiz st;
     studentAnswers := studentAnswers st;
     currentQuestionIndex := currentQuestionIndex st;
     quizTimerInterval := quizTimerInterval st;
     reviewingResult := reviewingResult st; storage := storage st;
     antiCheating := b; page := page st |}.

(** ** Methods of [QuizApp] *)

Definition showView (viewId : string) (st : App) : App :=
  with_page (with_currentView viewId) st.

(** [showError('login-error', message)] *)
Definition showLoginError (message : string) (st : App) : App :=
  with_page (with_loginError (Some message)) st.

(** *** Persistence *)

Definition saveDataToStorage (st : App) : App :=
  with_storage
    (<["quizAppResults" := results_to_json (results st)]>
       (<["quizAppQuizzes" := quizzes_to_json (quizzes st)]>
          (<["quizAppProfessors" := professors_to_json (professors st)]>
             (storage st))))
    st.

Definition defaultProfessors : gmap string string :=
  {["professor@test.com" := "password"]}.

Definition loadProfessors (st : App) : option App :=
  match storage st !! "quizAppProfessors" with
  | Some storedProfessors =>
      m ← json_professors storedProfessors;
      if decide (0 < size m)
      then Some (with_professors m st)
      else Some (saveDataToStorage (with_professors defaultProfessors st))
  | None => Some (saveDataToStorage (with_professors defaultProfessors st))
  end.

Definition loadQuizzes (st : App) : option App :=
  match storage st !! "quizAppQuizzes" with
  | Some storedQuizzes => m ← json_quizzes storedQuizzes; Some (with_quizzes m st)
  | None => Some st
  end.

Definition loadResults (st : App) : option App :=
  match storage st !! "quizAppResults" with
  | Some storedResults => l ← json_results storedResults; Some (with_results l st)
  | None => Some st
  end.

(** The three parts of [loadDataFromStorage], in its order. [None]: a stored
    value is not of the declared interface. *)
Definition loadDataFromStorage (st : App) : option App :=
  st1 ← loadProfessors st;
  st2 ← loadQuizzes st1;
  loadResults st2.

(** The fields as the class declares them, over a given [localStorage]. *)
Definition freshApp (s : gmap string json) : App :=
  {| currentProfessor := None; professors := ∅; quizzes := ∅; results := [];
     activeQuiz := None; studentAnswers := []; currentQuestionIndex := 0;
     quizTimerInterval := None; reviewingResult := None; storage := s;
     antiCheating := false;
     page := {| currentView := "login-section"; quizContainer := NoContent;
                resultsSection := NoResult; confirmationModal := false;
                loginError := None |} |}.

(** *** Quiz creation *)

(** The [do ... while] of [createAndSaveQuiz]. [draws] are the successive
    values of [Math.random().toString(36)], texts such as [0.4fzyo82mvyr];
    the loop uses one per round and [None] stands for a list used up before
    a free id came. *)
Fixpoint newQuizIdLoop (draws : list string) (quizzes : gmap string Quiz) : option string :=
  match draws with
  | [] => None
  | r :: rest =>
      let newQuizId := toUpperCase (js_substring 2 8 r) in
      match quizzes !! newQuizId with
      | Some _ => newQuizIdLoop rest quizzes
      | None => Some newQuizId
      end
  end.

Definition createAndSaveQuiz (draws : list string) (title : string)
    (questions : list MCQ) (duration : Z) (st : App) : option App :=
  newQuizId ← newQuizIdLoop draws (quizzes st);
  Some (saveDataToStorage
          (with_quizzes
             (<[newQuizId := {| id := newQuizId; title := title;
                                questions := questions; duration := duration |}]>
                (quizzes st))
             st)).

(** *** Timer and anti-cheating *)

Definition stopTimer (st : App) : App :=
  with_quizTimerInterval None st.

Definition installAntiCheating (st : App) : App := with_antiCheating true st.
Definition uninstallAntiCheating (st : App) : App := with_antiCheating false st.

(** *** Results *)

Definition announced (cheated timedOut : bool) : TerminationReason :=
  if cheated then IntegrityViolation
  else if timedOut then Timeout
  else Manual.

Definition renderStudentResult (result : StudentResult) (cheated timedOut : bool)
    (st : App) : App :=
  showView "results-section"
    (with_page (with_resultsSection (ResultCard result cheated timedOut)) st).

(** The [forEach] of [submitQuiz], from index [i] on. *)
Fixpoint scoreFrom (i : nat) (qs : list MCQ) (studentAnswers : list Answer)
    (score : Z) : Z :=
  match qs with
  | [] => score
  | q :: qs' =>
      scoreFrom (S i) qs' studentAnswers
        (if strict_eq (studentAnswers !! i) (correctAnswer q)
         then (score + 1)%Z else score)
  end.

Definition computeScore (quiz : Quiz) (studentAnswers : list Answer) : Z :=
  scoreFrom 0 (questions quiz) studentAnswers 0.

(** [JSON.parse(localStorage.getItem('currentStudentInfo') || '{}')]: the
    properties of the stored object. Only [handleStudentLogin] writes the
    key, and it writes an object. *)
Definition studentInfo (st : App) : list (string * json) :=
  match storage st !! "currentStudentInfo" with
  | Some (JObj l) => l
  | _ => []
  end.

Definition submitQuiz (cheated timedOut : bool) (st : App) : App :=
  match activeQuiz st with
  | None => st
  | Some quiz =>
      let st := uninstallAntiCheating (stopTimer st) in
      let score := computeScore quiz (studentAnswers st) in
      let info := studentInfo st in
      let result :=
        {| quizId := id quiz;
           studentName := as_string (get_field "name" info);
           studentRoll := as_string (get_field "roll" info);
           studentEmail := as_string (get_field "email" info);
           score := if cheated then 0%Z else score;
           total := Z.of_nat (length (questions quiz));
           answers := studentAnswers st |} in
      let st := with_results (results st ++ [result]) st in
      let st := saveDataToStorage st in
      let st := renderStudentResult result cheated timedOut st in
      let st := with_activeQuiz None st in
      let st := with_studentAnswers [] st in
      let st := with_currentQuestionIndex 0 st in
      with_storage (delete "currentStudentInfo" (storage st)) st
  end.

(** [updateTimer], the closure of [startTimer] over [endTime]; [now] is the
    value of [Date.now()] when it runs. *)
Definition updateTimer (endTime now : Z) (st : App) : App :=
  let remainingMs := (endTime - now)%Z in
  if decide (remainingMs ≤ 0)%Z then submitQuiz false true st else st.

(** [startTimer]: [now0] is [Date.now()] where [endTime] is computed, [now1]
    where the first [updateTimer()] runs. *)
Definition startTimer (now0 now1 : Z) (durationInMinutes : Z) (st : App) : App :=
  let st := stopTimer st in
  let endTime := (now0 + durationInMinutes * 60 * 1000)%Z in
  let st := updateTimer endTime now1 st in
  with_quizTimerInterval (Some endTime) st.

(** One firing of the interval, if one is armed. *)
Definition tick (now : Z) (st : App) : App :=
  match quizTimerInterval st with
  | Some endTime => updateTimer endTime now st
  | None => st
  end.

(** [visibilityChangeHandler]; [hidden] is
    [document.visibilityState === 'hidden']. *)
Definition visibilityChangeHandler (hidden : bool) (st : App) : App :=
  if hidden then submitQuiz true false st else st.

(** A [visibilitychange] event of the document: the handler runs while it
    is installed. *)
Definition visibilitychange (hidden : bool) (st : App) : App :=
  if antiCheating st then visibilityChangeHandler hidden st else st.

(** *** What the HTML parser reads

    [renderQuestion] writes each option into its markup as
    [value="${option}"] and assigns the markup to [innerHTML]; the [change]
    listener later reads [e.target.value], which is the value the HTML
    parser gave the attribute, not the text the template wrote. The
    functions below follow the parser on the text between the two quotes
    of the template: the newline normalisation of the input stream, the
    tokenizer's attribute value (double-quoted) state and its character
    reference states. Strings are taken as UTF-8. *)

Definition char_quote : ascii := "034"%char.
Definition char_nul : ascii := "000"%char.
Definition char_cr : ascii := "013"%char.
Definition char_lf : ascii := "010"%char.

(** The input stream has no carriage return: CR LF and a lone CR both
    become LF. *)
Fixpoint normalizeNewlines (s : string) : string :=
  match s with
  | EmptyString => EmptyString
  | String c rest =>
      if Ascii.eqb c char_cr then
        match rest with
        | String c' rest' =>
            if Ascii.eqb c' char_lf
            then String char_lf (normalizeNewlines rest')
            else String char_lf (normalizeNewlines rest)
        | EmptyString => String char_lf EmptyString
        end
      else String c (normalizeNewlines rest)
  end.

Definition utf8_byte (n : Z) : ascii := ascii_of_N (Z.to_N n).

(** The character of a code point. *)
Definition utf8 (code : Z) : string :=
  if (code <? 128)%Z then String (utf8_byte code) EmptyString
  else if (code <? 2048)%Z then
    String (utf8_byte (192 + code / 64))
      (String (utf8_byte (128 + code mod 64)) EmptyString)
  else if (code <? 65536)%Z then
    String (utf8_byte (224 + code / 4096))
      (String (utf8_byte (128 + code / 64 mod 64))
         (String (utf8_byte (128 + code mod 64)) EmptyString))
  else
    String (utf8_byte (240 + code / 262144))
      (String (utf8_byte (128 + code / 4096 mod 64))
         (String (utf8_byte (128 + code / 64 mod 64))
            (String (utf8_byte (128 + code mod 64)) EmptyString))).

(** The numbers of the range 128 to 159 that a numeric character reference
    reads as Windows-1252. *)
Definition windows1252 : list (Z * Z) :=
  [(128, 8364); (130, 8218); (131, 402); (132, 8222); (133, 8230); (134, 8224);
   (135, 8225); (136, 710); (137, 8240); (138, 352); (139, 8249); (140, 338);
   (142, 381); (145, 8216); (146, 8217); (147, 8220); (148, 8221); (149, 8226);
   (150, 8211); (151, 8212); (152, 732); (153, 8482); (154, 353); (155, 8250);
   (156, 339); (158, 382); (159, 376)]%Z.

(** The numeric character reference end state: 0, a number past the last
    code point and a surrogate give U+FFFD. *)
Definition referencedCodePoint (code : Z) : Z :=
  if (code =? 0)%Z then 65533%Z
  else if (1114111 <? code)%Z then 65533%Z
  else if (55296 <=? code)%Z && (code <=? 57343)%Z then 65533%Z
  else
    match list_find (λ p, p.1 = code) windows1252 with
    | Some (_, (_, replacement)) => replacement
    | None => code
    end.

Definition decimalValue (c : ascii) : option Z :=
  let n := Z.of_nat (nat_of_ascii c) in
  if (48 <=? n)%Z && (n <=? 57)%Z then Some (n - 48)%Z else None.

Definition hexValue (c : ascii) : option Z :=
  let n := Z.of_nat (nat_of_ascii c) in
  if (48 <=? n)%Z && (n <=? 57)%Z then Some (n - 48)%Z
  else if (65 <=? n)%Z && (n <=? 70)%Z then Some (n - 55)%Z
  else if (97 <=? n)%Z && (n <=? 102)%Z then Some (n - 87)%Z
  else None.

(** The digits at the head of [s], read onto [code], and what follows
    them. *)
Fixpoint readDigits (value : ascii → option Z) (base : Z) (s : string) (code : Z)
    : Z * string :=
  match s with
  | EmptyString => (code, s)
  | String c rest =>
      match value c with
      | Some d => readDigits value base rest (code * base + d)%Z
      | None => (code, s)
      end
  end.

Definition skipSemicolon (s : string) : string :=
  match s with
  | String ";" rest => rest
  | _ => s
  end.

(** A character reference read at the head of a text is the characters it
    stands for and the text after it; [None]: there is no reference, and
    the ampersand stays as written. *)
Definition readNumber (value : ascii → option Z) (base : Z) (digits : string)
    : option (string * string) :=
  match digits with
  | EmptyString => None
  | String c _ =>
      match value c with
      | Some _ =>
          let '(code, rest) := readDigits value base digits 0 in
          Some (utf8 (referencedCodePoint code), skipSemicolon rest)
      | None => None
      end
  end.

(** The text after [&#]. *)
Definition numericReference (s : string) : option (string * string) :=
  match s with
  | String "x" digits | String "X" digits => readNumber hexValue 16 digits
  | _ => readNumber decimalValue 10 s
  end.

(** Named character references. The table is the HTML standard's (some two
    thousand names) and no part of the sources: listed here are the names
    XML shares with it, in the spellings the standard's table has. A text
    that holds an ampersand followed by another name of the standard's
    table is read by the browser in a way this list does not give. *)
Definition namedReferences : list (string * string) :=
  [("amp;", "&"); ("amp", "&"); ("AMP;", "&"); ("AMP", "&");
   ("lt;", "<"); ("lt", "<"); ("LT;", "<"); ("LT", "<");
   ("gt;", ">"); ("gt", ">"); ("GT;", ">"); ("GT", ">");
   ("quot;", String char_quote EmptyString); ("quot", String char_quote EmptyString);
   ("QUOT;", String char_quote EmptyString); ("QUOT", String char_quote EmptyString);
   ("apos;", "'")].

(** The longest name of the table that [s] starts with. *)
Definition longestNamed (s : string) : option (string * string) :=
  foldr (λ entry best,
           if String.prefix entry.1 s
              && match best with
                 | Some found => (String.length found.1 <? String.length entry.1)%nat
                 | None => true
                 end
           then Some entry else best)
    None namedReferences.

Fixpoint dropChars (n : nat) (s : string) : string :=
  match n, s with
  | S n', String _ rest => dropChars n' rest
  | _, _ => s
  end.

Definition is_alphanumeric (c : ascii) : bool :=
  let n := nat_of_ascii c in
  (48 <=? n)%nat && (n <=? 57)%nat || (65 <=? n)%nat && (n <=? 90)%nat
  || (97 <=? n)%nat && (n <=? 122)%nat.

Fixpoint lastChar (s : string) : option ascii :=
  match s with
  | EmptyString => None
  | String c EmptyString => Some c
  | String _ rest => lastChar rest
  end.

(** The text after [&]: inside an attribute a name without its semicolon
    is no reference when [=] or a letter or digit follows it. *)
Definition namedReference (s : string) : option (string * string) :=
  match longestNamed s with
  | Some (name, chars) =>
      let rest := dropChars (String.length name) s in
      let closed := match lastChar name with Some ";"%char => true | _ => false end in
      let goes_on :=
        match rest with
        | String c _ => Ascii.eqb c "=" || is_alphanumeric c
        | EmptyString => false
        end in
      if negb closed && goes_on then None else Some (chars, rest)
  | None => None
  end.

Definition characterReference (s : string) : option (string * string) :=
  match s with
  | String "#" rest => numericReference rest
  | _ => namedReference s
  end.

(** The attribute value (double-quoted) state: the value ends at the first
    double quote, an ampersand may start a character reference, a NUL
    becomes U+FFFD. The end of the text is where the closing quote of the
    template stands. [fuel] bounds the characters read. *)
Fixpoint attributeValueState (fuel : nat) (s : string) : string :=
  match fuel, s with
  | S fuel', String c rest =>
      if Ascii.eqb c char_quote then EmptyString
      else if Ascii.eqb c "&" then
        match characterReference rest with
        | Some (chars, rest') => chars +:+ attributeValueState fuel' rest'
        | None => String c (attributeValueState fuel' rest)
        end
      else if Ascii.eqb c char_nul then utf8 65533 +:+ attributeValueState fuel' rest
      else String c (attributeValueState fuel' rest)
  | _, _ => EmptyString
  end.

(** The value the parser gives the attribute written as [value="${text}"]. *)
Definition attributeValue (text : string) : string :=
  let input := normalizeNewlines text in
  attributeValueState (String.length input) input.

(** *** Taking a quiz *)

(** [renderQuestion]. The template writes one radio input per option: its
    [value] attribute is what the parser reads of the option's text
    ([attributeValue]), and [checked] is written when the recorded answer
    of the question is that text. Reading [options] of a question that is
    [undefined] raises.

    Of the markup the model follows the [value] attributes only. A text
    that holds a double quote or [<] can moreover add elements to the
    container or take some away; the model keeps one input per option, in
    the order of the options, which is what the page holds for the
    questions of [plain_question] below. *)
Definition renderQuestion (st : App) : Completion :=
  match activeQuiz st with
  | None => Normal st
  | Some quiz =>
      match at_index (questions quiz) (currentQuestionIndex st) with
      | None => Thrown st
      | Some question =>
          let recorded := at_index (studentAnswers st) (currentQuestionIndex st) in
          Normal (with_page
                    (with_quizContainer
                       (QuestionView
                          ((λ option, (attributeValue option, strict_eq recorded option))
                             <$> options question)))
                    st)
      end
  end.

(** The [change] listener of a radio input, [value] being
    [e.target.value]. *)
Definition optionChanged (value : string) (st : App) : App :=
  with_studentAnswers
    (set_index (studentAnswers st) (currentQuestionIndex st) (Some value)) st.

(** The taker picks the radio input at position [index] of the question
    shown; without such an input there is no event. *)
Definition selectOption (index : nat) (st : App) : App :=
  match quizContainer (page st) with
  | QuestionView radios =>
      match radios !! index with
      | Some (value, _) => optionChanged value st
      | None => st
      end
  | _ => st
  end.

Definition startQuiz (now0 now1 : Z) (quiz : Quiz) (st : App) : Completion :=
  let st := with_activeQuiz (Some quiz) st in
  let st := with_studentAnswers (replicate (length (questions quiz)) None) st in
  let st := with_currentQuestionIndex 0 st in
  let st := installAntiCheating st in
  let st := startTimer now0 now1 (duration quiz) st in
  renderQuestion st ;;; λ st,
  Normal (showView "student-quiz-section" st).

(** [renderReviewQuestion]: the classes of each option's list item. *)
Definition reviewItem (correctAnswer : Option) (studentAnswer : option Answer)
    (option : Option) : ReviewItem :=
  {| item_text := option;
     item_correct := String.eqb option correctAnswer;
     item_selected := strict_eq studentAnswer option;
     item_incorrect :=
       strict_eq studentAnswer option && negb (String.eqb option correctAnswer) |}.

Definition renderReviewQuestion (st : App) : Completion :=
  match activeQuiz st, reviewingResult st with
  | Some quiz, Some result =>
      match at_index (questions quiz) (currentQuestionIndex st) with
      | None => Thrown st
      | Some question =>
          let studentAnswer := at_index (answers result) (currentQuestionIndex st) in
          Normal (with_page
                    (with_quizContainer
                       (ReviewView
                          (reviewItem (correctAnswer question) studentAnswer
                             <$> options question)))
                    st)
      end
  | _, _ => Normal st
  end.

Definition navigateQuestion (direction : Z) (st : App) : Completion :=
  let newIndex := (currentQuestionIndex st + direction)%Z in
  match activeQuiz st with
  | Some quiz =>
      if (0 <=? newIndex)%Z && (newIndex <? Z.of_nat (length (questions quiz)))%Z
      then
        let st := with_currentQuestionIndex newIndex st in
        match reviewingResult st with
        | Some _ => renderReviewQuestion st
        | None => renderQuestion st
        end
      else Normal st
  | None => Normal st
  end.

Definition showConfirmationModal (st : App) : App :=
  with_page (with_confirmationModal true) st.

Definition closeConfirmationModal (st : App) : App :=
  with_page (with_confirmationModal false) st.

Definition startReviewMode (result : StudentResult) (st : App) : Completion :=
  match quizzes st !! quizId result with
  | None => Normal st
  | Some quiz =>
      let st := with_activeQuiz (Some quiz) st in
      let st := with_reviewingResult (Some result) st in
      let st := with_currentQuestionIndex 0 st in
      renderReviewQuestion st ;;; λ st,
      Normal (showView "student-quiz-section" st)
  end.

Definition endReviewMode (st : App) : App :=
  match reviewingResult st with
  | None => st
  | Some result =>
      let st := with_activeQuiz None st in
      let st := with_reviewingResult None st in
      let st := with_currentQuestionIndex 0 st in
      renderStudentResult result false false st
  end.

(** The listeners of [addEventListeners] for the three submission
    buttons. *)
Definition submitQuizBtnClicked (st : App) : App :=
  match reviewingResult st with
  | Some _ => endReviewMode st
  | None => showConfirmationModal st
  end.

Definition confirmSubmissionBtnClicked (st : App) : App :=
  submitQuiz false false (closeConfirmationModal st).

Definition cancelSubmissionBtnClicked (st : App) : App :=
  closeConfirmationModal st.

Definition is_empty_string (s : string) : bool :=
  match s with EmptyString => true | _ => false end.

Definition handleStudentLogin (now0 now1 : Z) (codeInput name roll email : string)
    (st : App) : Completion :=
  let code := toUpperCase codeInput in
  if is_empty_string code || is_empty_string name
     || is_empty_string roll || is_empty_string email
  then Normal (showLoginError "Please fill in all fields." st)
  else
    match quizzes st !! code with
    | Some quiz =>
        let st :=
          with_storage
            (<["currentStudentInfo" :=
                 JObj [("name", JStr name); ("roll", JStr roll); ("email", JStr email)]]>
               (storage st))
            st in
        startQuiz now0 now1 quiz st
    | None => Normal (showLoginError "Invalid quiz code." st)
    end.

(** The listener that [renderStudentResult] puts on [#review-answers-btn]:
    its closure holds the result of the card. *)
Definition reviewAnswersBtnClicked (st : App) : Completion :=
  match resultsSection (page st) with
  | ResultCard result _ _ => startReviewMode result st
  | NoResult => Normal st
  end.

(** ** The events of a session *)

(** What the page and the browser can send to a session: a firing of the
    interval, a [visibilitychange], a click on a navigation button, a pick
    of a radio input, and clicks on the three submission buttons. *)
Inductive SessionEvent :=
| Tick (now : Z)
| VisibilityChange (hidden : bool)
| Navigate (direction : Z)
| SelectOption (index : nat)
| SubmitBtn
| ConfirmBtn
| CancelBtn.

Definition handle (e : SessionEvent) (st : App) : App :=
  match e with
  | Tick now => tick now st
  | VisibilityChange hidden => visibilitychange hidden st
  | Navigate direction => stateOf (navigateQuestion direction st)
  | SelectOption index => selectOption index st
  | SubmitBtn => submitQuizBtnClicked st
  | ConfirmBtn => confirmSubmissionBtnClicked st
  | CancelBtn => cancelSubmissionBtnClicked st
  end.

Definition run (es : list SessionEvent) (st : App) : App :=
  foldl (λ st e, handle e st) st es.

(** No quiz is active or under review, and neither the interval nor the
    anti-cheating listeners are in place. *)
Definition idle (st : App) : Prop :=
  activeQuiz st = None ∧ reviewingResult st = None
  ∧ quizTimerInterval st = None ∧ antiCheating st = false.

(** What holds of a session from its start to its end: no review is under
    way and, while the quiz is active, the anti-cheating listeners are
    installed, the interval is armed, the index is that of a question and
    there is one answer cell per question. *)
Definition session_ok (st : App) : Prop :=
  reviewingResult st = None
  ∧ match activeQuiz st with
    | Some quiz =>
        antiCheating st = true
        ∧ is_Some (quizTimerInterval st)
        ∧ (0 ≤ currentQuestionIndex st < Z.of_nat (length (questions quiz)))%Z
        ∧ length (studentAnswers st) = length (questions quiz)
    | None => True
    end.

(** ** The score as the specification words it *)

(** Position [i] is an exact match: [answers[i]] is the string
    [questions[i].correctAnswer]. *)
Definition matches_at (qs : list MCQ) (answers : list Answer) (i : nat) : Prop :=
  match qs !! i with
  | Some q => answers !! i = Some (Some (correctAnswer q))
  | None => False
  end.

#[global] Instance matches_at_dec qs answers i : Decision (matches_at qs answers i).
Proof. unfold matches_at. destruct (qs !! i); apply _. Defined.

(** The number of exact-match positions. *)
Definition exactMatches (qs : list MCQ) (answers : list Answer) : nat :=
  length (filter (matches_at qs answers) (seq 0 (length qs))).

(** ** The shape of a quiz code *)

Fixpoint string_forall (p : ascii → bool) (s : string) : bool :=
  match s with
  | EmptyString => true
  | String c s' => p c && string_forall p s'
  end.

(** A digit of radix 36 as [toString(36)] writes it: [0-9a-z]. *)
Definition is_radix36_digit (c : ascii) : bool :=
  let n := nat_of_ascii c in
  (48 <=? n)%nat && (n <=? 57)%nat || (97 <=? n)%nat && (n <=? 122)%nat.

(** A character of a quiz code: [0-9A-Z]. *)
Definition is_code_char (c : ascii) : bool :=
  let n := nat_of_ascii c in
  (48 <=? n)%nat && (n <=? 57)%nat || (65 <=? n)%nat && (n <=? 90)%nat.

(** The texts [toString(36)] gives for a number of [0, 1): [0] itself, or
    [0.] followed by at least one digit of radix 36. How many digits it
    writes is up to the number: [0.5] is written [0.i]. *)
Definition is_radix36_text (r : string) : bool :=
  match r with
  | String "0" EmptyString => true
  | String "0" (String "." ds) =>
      negb (String.length ds =? 0)%nat && string_forall is_radix36_digit ds
  | _ => false
  end.

(** ** Texts that the markup holds as written *)

(** The characters for which the parser gives an attribute or a label
    another text than the template wrote, or other elements: NUL, CR, the
    double quote, [&] and [<]. *)
Definition is_plain_char (c : ascii) : bool :=
  negb (Ascii.eqb c char_nul || Ascii.eqb c char_cr || Ascii.eqb c char_quote
        || Ascii.eqb c "&" || Ascii.eqb c "<").

Definition html_plain (s : string) : bool := string_forall is_plain_char s.

(** A question whose markup, as [renderQuestion] writes it, holds one
    radio input per option with the option's text for value: no option has
    one of the characters above, and the question's text, which stands in
    the heading before the options, opens no tag. *)
Definition plain_question (q : MCQ) : bool :=
  string_forall (λ c, negb (Ascii.eqb c "<")) (question q)
  && forallb html_plain (options q).

(** ** Sample data *)

Definition mcqParis : MCQ :=
  {| question := "Capital of France?";
     options := ["Rome"; "Paris"; "Oslo"; "Bern"];
     correctAnswer := "Paris";
     explanation := None |}.

Definition mcq42 : MCQ :=
  {| question := "Six times seven?";
     options := ["40"; "41"; "42"; "43"];
     correctAnswer := "42";
     explanation := Some "6 * 7 = 42" |}.

Definition quizA : Quiz :=
  {| id := "ABC123"; title := "Sample"; questions := [mcqParis; mcq42]; duration := 1 |}.

(** A repository holding [quizA], and a taker who has just started it at
    time [0]. *)
Definition appA : App :=
  with_quizzes {["ABC123" := quizA]}
    (with_professors defaultProfessors (freshApp ∅)).

Definition sessionA : App :=
  stateOf (handleStudentLogin 0 0 "abc123" "Ann" "17" "ann@example.org" appA).

(** The taker answers both questions of [quizA]: the second option of the
    first question ("Paris"), then, one question on, the second option
    ("41") or the third ("42"). *)
Definition sessionA_first : App := selectOption 1 sessionA.

Definition sessionA_wrong : App :=
  selectOption 1 (stateOf (navigateQuestion 1 sessionA_first)).

Definition sessionA_right : App :=
  selectOption 2 (stateOf (navigateQuestion 1 sessionA_first)).

(** A question that lists the text of its correct answer twice, and a
    session on a quiz made of it. *)
Definition mcqDup : MCQ :=
  {| question := "Is water wet?";
     options := ["Yes"; "No"; "Yes"; "Maybe"];
     correctAnswer := "Yes";
     explanation := None |}.

Definition quizDup : Quiz :=
  {| id := "DUP001"; title := "Duplicates"; questions := [mcqDup]; duration := 5 |}.

Definition sessionDup : App :=
  with_currentQuestionIndex 0
    (with_studentAnswers [None]
       (with_activeQuiz (Some quizDup)
          (with_quizzes {["DUP001" := quizDup]} (freshApp ∅)))).

(** A run of clicks on the two navigation buttons, [ds] being the
    directions in turn; a raise ends the run. *)
Fixpoint navigateAll (ds : list Z) (st : App) : Completion :=
  match ds with
  | [] => Normal st
  | d :: ds' => navigateQuestion d st ;;; navigateAll ds'
  end.

(** The result with its score set to 0 and nothing else touched. *)
Definition zeroed (r : StudentResult) : StudentResult :=
  {| quizId := quizId r; studentName := studentName r; studentRoll := studentRoll r;
     studentEmail := studentEmail r; score := 0; total := total r;
     answers := answers r |}.

(** ** Accounts *)

Definition with_currentProfessor (e : option string) (st : App) : App :=
  {| currentProfessor := e; professors := professors st;
     quizzes := quizzes st; results := results st; activeQuiz := activeQuiz st;
     studentAnswers := studentAnswers st;
     currentQuestionIndex := currentQuestionIndex st;
     quizTimerInterval := quizTimerInterval st;
     reviewingResult := reviewingResult st; storage := storage st;
     antiCheating := antiCheating st; page := page st |}.

(** The property names that every object made by an object literal or by
    [JSON.parse] inherits from [Object.prototype]. *)
Definition objectPrototypeKeys : list string :=
  ["constructor"; "hasOwnProperty"; "isPrototypeOf"; "propertyIsEnumerable";
   "toLocaleString"; "toString"; "valueOf"; "__proto__";
   "__defineGetter__"; "__defineSetter__"; "__lookupGetter__"; "__lookupSetter__"].

(** What [this.professors[email]] reads: the password stored under the
    key, else a function or object inherited from the prototype, else
    [undefined]. *)
Inductive Looked :=
| OwnValue (v : string)
| InheritedValue
| NoValue.

Definition professorAt (m : gmap string string) (email : string) : Looked :=
  match m !! email with
  | Some password => OwnValue password
  | None =>
      if bool_decide (email ∈ objectPrototypeKeys) then InheritedValue else NoValue
  end.

(** The value in a condition: an empty string and [undefined] count as
    false, a function or object as true. *)
Definition truthy (v : Looked) : bool :=
  match v with
  | OwnValue s => negb (is_empty_string s)
  | InheritedValue => true
  | NoValue => false
  end.

(** [loginAsProfessor]; the list of quizzes it renders is not kept. *)
Definition loginAsProfessor (email : string) (st : App) : App :=
  showView "professor-dashboard" (with_currentProfessor (Some email) st).

Definition logout (st : App) : App :=
  showView "login-section" (with_currentProfessor None st).

Definition handleProfessorRegister (email password : string) (st : App) : App :=
  if is_empty_string email || is_empty_string password
  then showLoginError "Please enter both email and password." st
  else if truthy (professorAt (professors st) email)
  then showLoginError "An account with this email already exists." st
  else
    loginAsProfessor email
      (saveDataToStorage (with_professors (<[email := password]> (professors st)) st)).

Definition handleProfessorLogin (email password : string) (st : App) : App :=
  match professorAt (professors st) email with
  | OwnValue stored =>
      if negb (is_empty_string stored) && String.eqb stored password
      then loginAsProfessor email st
      else showLoginError "Invalid email or password." st
  | InheritedValue | NoValue => showLoginError "Invalid email or password." st
  end.

(** ** Writing a quiz by hand *)

(** One block of the form as [addManualQuestionField] builds it: the
    question text, four option inputs, and four radio inputs of values 0
    to 3 of which at most one is checked. *)
Inductive Radio := Radio0 | Radio1 | Radio2 | Radio3.

Record ManualQuestion := {
  manual_text : string;
  manual_option0 : string;
  manual_option1 : string;
  manual_option2 : string;
  manual_option3 : string;
  manual_checked : option Radio
}.

(** The form: [manual_duration] is what [parseInt] reads from the duration
    input, [None] being [NaN]. *)
Record ManualForm := {
  manual_title : string;
  manual_duration : option Z;
  manual_questions : list ManualQuestion
}.

Definition manualOptions (f : ManualQuestion) : list Option :=
  [manual_option0 f; manual_option1 f; manual_option2 f; manual_option3 f].

(** [options[parseInt(correctIndex)]] *)
Definition manualCorrect (f : ManualQuestion) (r : Radio) : Option :=
  match r with
  | Radio0 => manual_option0 f
  | Radio1 => manual_option1 f
  | Radio2 => manual_option2 f
  | Radio3 => manual_option3 f
  end.

(** The loop of [saveManualQuiz] over the blocks: [None] when a block has
    an empty text, an empty option or no radio checked, at which the
    function shows an error and returns. *)
Fixpoint manualMCQs (fs : list ManualQuestion) : option (list MCQ) :=
  match fs with
  | [] => Some []
  | f :: fs' =>
      match manual_checked f with
      | Some r =>
          if is_empty_string (manual_text f)
             || existsb is_empty_string (manualOptions f)
          then None
          else
            qs ← manualMCQs fs';
            Some ({| question := manual_text f; options := manualOptions f;
                     correctAnswer := manualCorrect f r; explanation := None |}
                    :: qs)
      | None => None
      end
  end.

(** How a creation ends: with an error shown in the dialog and nothing
    else done, with the quiz saved, or, in the model only, with the list of
    draws used up. *)
Inductive Creation :=
| CreationError (message : string)
| Created (st : App)
| OutOfDraws.

Definition saveManualQuiz (draws : list string) (form : ManualForm) (st : App)
    : Creation :=
  match manualMCQs (manual_questions form) with
  | None => CreationError "Please fill all fields for every question."
  | Some questions =>
      match manual_duration form with
      | Some duration =>
          if is_empty_string (manual_title form)
             || (length questions =? 0)%nat
             || (duration =? 0)%Z || (duration <? 1)%Z
          then CreationError
                 "Please provide a title, a valid duration, and at least one question."
          else
            match createAndSaveQuiz draws (manual_title form) questions duration st with
            | Some st' => Created st'
            | None => OutOfDraws
            end
      | None =>
          CreationError
            "Please provide a title, a valid duration, and at least one question."
      end
  end.

(** A question that passes the checks of the loop. *)
Definition well_formed_manual (q : MCQ) : Prop :=
  question q ≠ ""
  ∧ length (options q) = 4
  ∧ Forall (λ o, o ≠ "") (options q)
  ∧ correctAnswer q ∈ options q
  ∧ explanation q = None.

(** ** The professor's views *)

(** [arr.indexOf(x)]: the first position of [x], or -1. *)
Fixpoint indexOf (x : string) (l : list string) : Z :=
  match l with
  | [] => (-1)%Z
  | y :: l' =>
      if String.eqb y x then 0%Z
      else
        let i := indexOf x l' in
        if (i <? 0)%Z then (-1)%Z else (i + 1)%Z
  end.

(** A row of the table of [renderProfessorResults]. *)
Record ResultRow := {
  row_roll : option string;
  row_name : option string;
  row_email : option string;
  row_score : Z;
  row_total : Z
}.

Definition resultRow (r : StudentResult) : ResultRow :=
  {| row_roll := studentRoll r; row_name := studentName r;
     row_email := studentEmail r; row_score := score r; row_total := total r |}.

(** What [renderProfessorResults] writes to the results section: the title
    of the quiz and the rows of its table, no row standing for the notice
    that no student has taken the quiz. [None]: the quiz is unknown and
    the function returns before writing. *)
Definition renderProfessorResults (shownId : string) (st : App)
    : option (string * list ResultRow) :=
  quiz ← quizzes st !! shownId;
  Some (title quiz, resultRow <$> filter (λ r, quizId r = shownId) (results st)).

(** An option as [renderProfessorQuizReview] lists it: its text, whether it
    carries the class [correct], and the character code of its letter,
    [65 + q.options.indexOf(option)]. *)
Record ListedOption := {
  listed_text : string;
  listed_correct : bool;
  listed_letter : Z
}.

Definition listedOption (q : MCQ) (option : Option) : ListedOption :=
  {| listed_text := option;
     listed_correct := String.eqb option (correctAnswer q);
     listed_letter := (65 + indexOf option (options q))%Z |}.

(** A card of the review: the question, its options, and the explanation
    when there is one that is not empty. *)
Record ReviewCard := {
  card_question : string;
  card_options : list ListedOption;
  card_explanation : option string
}.

Definition shownExplanation (e : option string) : option string :=
  match e with
  | Some s => if is_empty_string s then None else Some s
  | None => None
  end.

Definition reviewCard (q : MCQ) : ReviewCard :=
  {| card_question := question q;
     card_options := listedOption q <$> options q;
     card_explanation := shownExplanation (explanation q) |}.

(** What [renderProfessorQuizReview] writes: the title and one card per
    question; [None] when the quiz is unknown. *)
Definition renderProfessorQuizReview (shownId : string) (st : App)
    : option (string * list ReviewCard) :=
  quiz ← quizzes st !! shownId;
  Some (title quiz, reviewCard <$> questions quiz).

(** ** Events of the whole page *)

(** The events of a session and a click on the review button of the
    results page. *)
Inductive PageEvent :=
| OfSession (e : SessionEvent)
| ReviewAnswersBtn.

Definition handlePage (e : PageEvent) (st : App) : App :=
  match e with
  | OfSession e => handle e st
  | ReviewAnswersBtn => stateOf (reviewAnswersBtnClicked st)
  end.

Definition runPage (es : list PageEvent) (st : App) : App :=
  foldl (λ st e, handlePage e st) st es.

(** The events that do not end a session whose interval was armed for
    [endTime]: all but a click on the confirmation button, a firing of the
    interval at or after [endTime], and the document becoming hidden. *)
Definition keeps_session (endTime : Z) (e : SessionEvent) : bool :=
  match e with
  | Tick now => (now <? endTime)%Z
  | VisibilityChange hidden => negb hidden
  | ConfirmBtn => false
  | Navigate _ | SelectOption _ | SubmitBtn | CancelBtn => true
  end.

(** Nothing of a session is in place: no interval, no anti-cheating
    listener, and a quiz is active only for a review, of the result that
    the results page shows. *)
Definition at_rest (st : App) : Prop :=
  quizTimerInterval st = None
  ∧ antiCheating st = false
  ∧ match reviewingResult st with
    | Some r => ∃ c t, resultsSection (page st) = ResultCard r c t
    | None => activeQuiz st = None
    end.

(** The result on the results page, if one is shown. *)
Definition shownResult (st : App) : option StudentResult :=
  match resultsSection (page st) with
  | ResultCard r _ _ => Some r
  | NoResult => None
  end.

(** Every quiz is stored under its own [id]. *)
Definition keyed_by_id (m : gmap string Quiz) : Prop :=
  ∀ k q, m !! k = Some q → id q = k.

(** A quiz without questions (no creation flow saves one). *)
Definition quizEmpty : Quiz :=
  {| id := "EMPTY0"; title := "Nothing"; questions := []; duration := 1 |}.

(** Every event but a click on the confirmation button. *)
Definition not_confirm (e : PageEvent) : bool :=
  match e with
  | OfSession ConfirmBtn => false
  | _ => true
  end.

(** The submitted session of [quizA] under review, at its second
    question. *)
Definition reviewA : App :=
  stateOf (navigateQuestion 1
             (stateOf (reviewAnswersBtnClicked (submitQuiz false false sessionA_wrong)))).

(** A form with one question, the second radio checked. *)
Definition formA : ManualForm :=
  {| manual_title := "Rivers";
     manual_duration := Some 10%Z;
     manual_questions :=
       [{| manual_text := "Which river runs through Paris?";
           manual_option0 := "Loire"; manual_option1 := "Seine";
           manual_option2 := "Rhone"; manual_option3 := "Garonne";
           manual_checked := Some Radio1 |}] |}.

(** The state that saving [formA] over [appA] gives when the draw is
    [0.r1v3rsabc]. *)
Definition createdA : App :=
  saveDataToStorage
    (with_quizzes
       (<["R1V3RS" :=
            {| id := "R1V3RS"; title := "Rivers";
               questions :=
                 [{| question := "Which river runs through Paris?";
                     options := ["Loire"; "Seine"; "Rhone"; "Garonne"];
                     correctAnswer := "Seine"; explanation := None |}];
               duration := 10 |}]> (quizzes appA))
       appA).

(** A question on a programming language: the text of its first option,
    the correct one, is [print(], a double quote, [hi], a double quote and
    [)]. The quiz is saved under the code PRINT1 and a taker starts it. *)
Definition mcqPrint : MCQ :=
  {| question := "Which call prints hi?";
     options := ["print(" +:+ String char_quote ("hi" +:+ String char_quote ")");
                 "print(hi)"; "print hi"; "hi"];
     correctAnswer := "print(" +:+ String char_quote ("hi" +:+ String char_quote ")");
     explanation := None |}.

Definition quizPrint : Quiz :=
  {| id := "PRINT1"; title := "Printing"; questions := [mcqPrint]; duration := 5 |}.

Definition sessionPrint : App :=
  stateOf (handleStudentLogin 0 0 "print1" "Ann" "17" "ann@example.org"
             (with_quizzes {["PRINT1" := quizPrint]}
                (with_professors defaultProfessors (freshApp ∅)))).

(** A question on HTML whose options are character references, the first
    one being correct, and a session on it. *)
Definition mcqAmp : MCQ :=
  {| question := "Which reference stands for the ampersand?";
     options := ["&amp;"; "&lt;"; "&gt;"; "&apos;"];
     correctAnswer := "&amp;";
     explanation := None |}.

Definition quizAmp : Quiz :=
  {| id := "AMP001"; title := "References"; questions := [mcqAmp]; duration := 5 |}.

Definition sessionAmp : App :=
  stateOf (handleStudentLogin 0 0 "amp001" "Ann" "17" "ann@example.org"
             (with_quizzes {["AMP001" := quizAmp]}
                (with_professors defaultProfessors (freshApp ∅)))).

(** ** Everything the application does *)

(** The handlers of the page, one constructor per handler with what the
    page and the browser hand it. [LoginAs] is the [loginAsProfessor] of
    the constructor; [CreateQuiz] is [createAndSaveQuiz], which the three
    creation flows end in. *)
Inductive Action :=
| Register (email password : string)
| Login (email password : string)
| LoginAs (email : string)
| Logout
| CreateQuiz (draws : list string) (title : string) (questions : list MCQ) (duration : Z)
| StudentLogin (now0 now1 : Z) (codeInput name roll email : string)
| OnPage (e : PageEvent).

(** A creation whose list of draws is used up stands for no call. *)
Definition perform (a : Action) (st : App) : App :=
  match a with
  | Register email password => handleProfessorRegister email password st
  | Login email password => handleProfessorLogin email password st
  | LoginAs email => loginAsProfessor email st
  | Logout => logout st
  | CreateQuiz draws title questions duration =>
      default st (createAndSaveQuiz draws title questions duration st)
  | StudentLogin now0 now1 codeInput name roll email =>
      stateOf (handleStudentLogin now0 now1 codeInput name roll email st)
  | OnPage e => handlePage e st
  end.

(** ** Scoring *)

Lemma strict_eq_true (a : option Answer) (c : Option) :
  strict_eq a c = true ↔ a = Some (Some c).
Proof.
  destruct a as [[s|]|]; simpl.
  - rewrite String.eqb_eq. split; [intros ->; reflexivity | intros [= ->]; reflexivity].
  - split; intros [=].
  - split; intros [=].
Qed.

Lemma matches_at_middle (pre : list MCQ) (q : MCQ) (qs : list MCQ) (answers : list Answer) :
  matches_at (pre ++ q :: qs) answers (length pre)
  ↔ answers !! length pre = Some (Some (correctAnswer q)).
Proof. unfold matches_at. by rewrite list_lookup_middle. Qed.

(** The loop adds to [score] the number of exact matches among the
    positions it still has to visit. *)
Lemma scoreFrom_counts (qs pre : list MCQ) (answers : list Answer) (score : Z) :
  scoreFrom (length pre) qs answers score
  = (score + Z.of_nat (length (filter (matches_at (pre ++ qs) answers)
                                 (seq (length pre) (length qs)))))%Z.
Proof.
  revert pre score. induction qs as [|q qs IH]; intros pre score; simpl.
  - lia.
  - specialize (IH (pre ++ [q])). rewrite length_app in IH. simpl in IH.
    rewrite Nat.add_1_r, <- app_assoc in IH. simpl in IH. rewrite IH.
    destruct (strict_eq (answers !! length pre) (correctAnswer q)) eqn:E.
    + apply strict_eq_true in E.
      rewrite filter_cons_True by (by apply matches_at_middle). simpl. lia.
    + rewrite filter_cons_False; [lia|].
      rewrite matches_at_middle, <- strict_eq_true, E. discriminate.
Qed.

Lemma computeScore_exactMatches (quiz : Quiz) (answers : list Answer) :
  computeScore quiz answers = Z.of_nat (exactMatches (questions quiz) answers).
Proof.
  unfold computeScore, exactMatches.
  pose proof (scoreFrom_counts (questions quiz) [] answers 0) as H.
  simpl in H. rewrite H. lia.
Qed.

Lemma computeScore_bounds (quiz : Quiz) (answers : list Answer) :
  (0 ≤ computeScore quiz answers ≤ Z.of_nat (length (questions quiz)))%Z.
Proof.
  rewrite computeScore_exactMatches. unfold exactMatches.
  pose proof (length_filter (matches_at (questions quiz) answers)
                (seq 0 (length (questions quiz)))) as H.
  rewrite length_seq in H. lia.
Qed.

(** What [submitQuiz] appends to [results] in a session on [quiz]. *)
Lemma submitQuiz_results (cheated timedOut : bool) (st : App) (quiz : Quiz) :
  activeQuiz st = Some quiz →
  ∃ r, results (submitQuiz cheated timedOut st) = results st ++ [r]
       ∧ resultsSection (page (submitQuiz cheated timedOut st)) = ResultCard r cheated timedOut
       ∧ quizId r = id quiz
       ∧ score r = (if cheated then 0%Z else computeScore quiz (studentAnswers st))
       ∧ total r = Z.of_nat (length (questions quiz))
       ∧ answers r = studentAnswers st.
Proof.
  intros Hq. unfold submitQuiz. rewrite Hq. simpl. eexists. repeat split.
Qed.

(** C1. For every quiz and every answers sequence of the quiz's length, the
    score that a submission (manual or on time-out) records is the number
    of positions whose answer is the very string [correctAnswer] of the
    question at that position, a number between 0 and the number of
    questions; the total recorded is the number of questions. *)
Theorem score_is_exact_match_count (quiz : Quiz) (answers : list Answer)
    (timedOut : bool) (st : App) :
  length answers = length (questions quiz) →
  activeQuiz st = Some quiz →
  studentAnswers st = answers →
  ∃ r, results (submitQuiz false timedOut st) = results st ++ [r]
       ∧ score r = Z.of_nat (exactMatches (questions quiz) answers)
       ∧ (0 ≤ score r ≤ Z.of_nat (length (questions quiz)))%Z
       ∧ total r = Z.of_nat (length (questions quiz)).
Proof.
  intros _ Hq Ha.
  destruct (submitQuiz_results false timedOut st quiz Hq) as (r & Hr & _ & _ & Hs & Ht & _).
  exists r. rewrite Hs, Ha. split; [done|]. split; [apply computeScore_exactMatches|].
  split; [apply computeScore_bounds | done].
Qed.

(** Scenario A: correct answers Paris and 42, recorded answers Paris and
    41. *)
Lemma scenario_A_score :
  studentAnswers sessionA_wrong = [Some "Paris"; Some "41"]
  ∧ ∃ r, results (submitQuiz false false sessionA_wrong) = results sessionA_wrong ++ [r]
         ∧ score r = 1%Z ∧ total r = 2%Z.
Proof.
  split; [vm_compute; reflexivity|].
  destruct (score_is_exact_match_count quizA [Some "Paris"; Some "41"] false
              sessionA_wrong)
    as (r & Hr & Hs & _ & Ht); [vm_compute; reflexivity..|].
  exists r. split; [exact Hr|]. split; [rewrite Hs | rewrite Ht]; vm_compute; reflexivity.
Defined.

(** ** Finalisation *)

(** Without an active quiz [submitQuiz] returns at its first line. *)
Lemma submitQuiz_inactive (cheated timedOut : bool) (st : App) :
  activeQuiz st = None → submitQuiz cheated timedOut st = st.
Proof. intros H. unfold submitQuiz. by rewrite H. Qed.

(** A submission leaves no active quiz, no armed interval and no
    anti-cheating listener. *)
Lemma submitQuiz_disarms (cheated timedOut : bool) (st : App) (quiz : Quiz) :
  activeQuiz st = Some quiz →
  activeQuiz (submitQuiz cheated timedOut st) = None
  ∧ quizTimerInterval (submitQuiz cheated timedOut st) = None
  ∧ antiCheating (submitQuiz cheated timedOut st) = false
  ∧ studentAnswers (submitQuiz cheated timedOut st) = []
  ∧ currentQuestionIndex (submitQuiz cheated timedOut st) = 0%Z.
Proof. intros H. unfold submitQuiz. rewrite H. simpl. done. Qed.

(** C2. A session that ends on the cheated path (a [visibilitychange] to
    hidden while the listener is installed, or any call of [submitQuiz]
    with [cheated] set) records a result of score 0 and announces it as an
    integrity violation, whatever the recorded answers are. *)
Theorem integrity_violation_scores_zero (st : App) (quiz : Quiz) (timedOut : bool) :
  activeQuiz st = Some quiz →
  antiCheating st = true →
  visibilitychange true st = submitQuiz true false st
  ∧ (∃ r, results (visibilitychange true st) = results st ++ [r]
          ∧ score r = 0%Z
          ∧ resultsSection (page (visibilitychange true st)) = ResultCard r true false)
  ∧ (∃ r, results (submitQuiz true timedOut st) = results st ++ [r] ∧ score r = 0%Z)
  ∧ announced true timedOut = IntegrityViolation.
Proof.
  intros Hq Hac. unfold visibilitychange, visibilityChangeHandler. rewrite Hac.
  split; [done|]. split; [|split; [|done]].
  - destruct (submitQuiz_results true false st quiz Hq) as (r & Hr & Hp & _ & Hs & _).
    by exists r.
  - destruct (submitQuiz_results true timedOut st quiz Hq) as (r & Hr & _ & _ & Hs & _).
    by exists r.
Qed.

(** Both answers of [quizA] right, then the document is hidden. *)
Lemma all_correct_yet_zero :
  exactMatches (questions quizA) (studentAnswers sessionA_right) = 2
  ∧ ∃ r, results (visibilitychange true sessionA_right) = results sessionA_right ++ [r]
         ∧ score r = 0%Z.
Proof.
  split; [vm_compute; reflexivity|].
  destruct (integrity_violation_scores_zero sessionA_right quizA false)
    as (_ & (r & Hr & Hs & _) & _); [vm_compute; reflexivity..|].
  exists r. split; [exact Hr | exact Hs].
Defined.

(** C5. The result recorded on an integrity violation holds the answers
    the taker had selected, unchanged, and is the result an honest
    submission of the same session would have recorded with its score
    replaced by 0: no other field differs. *)
Theorem violation_keeps_answers (st : App) (quiz : Quiz) :
  activeQuiz st = Some quiz →
  antiCheating st = true →
  ∃ r r', results (visibilitychange true st) = results st ++ [r]
          ∧ results (submitQuiz false false st) = results st ++ [r']
          ∧ answers r = studentAnswers st
          ∧ score r = 0%Z
          ∧ r = zeroed r'.
Proof.
  intros Hq Hac. unfold visibilitychange, visibilityChangeHandler. rewrite Hac.
  unfold submitQuiz. rewrite Hq. simpl. eexists. eexists. repeat split.
Qed.

(** Scenario C: one option picked, then the document is hidden. *)
Lemma scenario_C_answers_kept :
  studentAnswers sessionA_first = [Some "Paris"; None]
  ∧ ∃ r, results (visibilitychange true sessionA_first) = [r]
         ∧ answers r = [Some "Paris"; None]
         ∧ score r = 0%Z.
Proof.
  split; [vm_compute; reflexivity|].
  destruct (violation_keeps_answers sessionA_first quizA)
    as (r & r' & Hr & _ & Ha & Hs & _); [vm_compute; reflexivity..|].
  exists r. split; [exact Hr|]. split; [exact Ha | exact Hs].
Defined.

(** Once idle, no event of a session adds a result or replaces the one
    shown. *)
Lemma handle_idle (e : SessionEvent) (st : App) :
  idle st →
  idle (handle e st)
  ∧ results (handle e st) = results st
  ∧ resultsSection (page (handle e st)) = resultsSection (page st).
Proof.
  intros (Ha & Hr & Ht & Hc). unfold idle.
  destruct e as [now|hidden|d|i| | |]; simpl.
  - unfold tick. by rewrite Ht.
  - unfold visibilitychange. by rewrite Hc.
  - unfold navigateQuestion. by rewrite Ha.
  - unfold selectOption. destruct (quizContainer (page st)) as [|radios|]; [done| |done].
    by destruct (radios !! i) as [[v b]|].
  - unfold submitQuizBtnClicked. by rewrite Hr.
  - unfold confirmSubmissionBtnClicked. by rewrite submitQuiz_inactive.
  - done.
Qed.

Lemma run_idle (es : list SessionEvent) (st : App) :
  idle st →
  idle (run es st)
  ∧ results (run es st) = results st
  ∧ resultsSection (page (run es st)) = resultsSection (page st).
Proof.
  revert st. induction es as [|e es IH]; intros st Hi; [done|].
  destruct (handle_idle e st Hi) as (Hi' & Hr & Hp).
  destruct (IH (handle e st) Hi') as (Hi'' & Hr' & Hp').
  unfold run in *. simpl. by rewrite Hr', Hp'.
Qed.

(** X28. What the guard of [submitQuiz] gives. A submission appends
    exactly one result and shows it; a further call of [submitQuiz] on the
    state it leaves, whatever the flags, changes nothing at all. The same
    holds for the events that call it: on that state a click on the
    confirmation button only closes the dialog, and neither the timer nor
    a [visibilitychange] does anything. When no review was under way, no
    run of session events (none of which starts a review) adds a result or
    replaces the one shown. *)
Theorem submit_is_idempotent (cheated timedOut cheated' timedOut' : bool)
    (st : App) (quiz : Quiz) :
  activeQuiz st = Some quiz →
  (∃ r, results (submitQuiz cheated timedOut st) = results st ++ [r]
        ∧ resultsSection (page (submitQuiz cheated timedOut st))
          = ResultCard r cheated timedOut)
  ∧ submitQuiz cheated' timedOut' (submitQuiz cheated timedOut st)
    = submitQuiz cheated timedOut st
  ∧ confirmSubmissionBtnClicked (submitQuiz cheated timedOut st)
    = closeConfirmationModal (submitQuiz cheated timedOut st)
  ∧ (∀ now, tick now (submitQuiz cheated timedOut st) = submitQuiz cheated timedOut st)
  ∧ (∀ hidden, visibilitychange hidden (submitQuiz cheated timedOut st)
               = submitQuiz cheated timedOut st)
  ∧ (reviewingResult st = None →
     ∀ es, results (run es (submitQuiz cheated timedOut st))
           = results (submitQuiz cheated timedOut st)
           ∧ resultsSection (page (run es (submitQuiz cheated timedOut st)))
             = resultsSection (page (submitQuiz cheated timedOut st))).
Proof.
  intros Hq.
  destruct (submitQuiz_disarms cheated timedOut st quiz Hq) as (Ha & Ht & Hc & _).
  destruct (submitQuiz_results cheated timedOut st quiz Hq) as (r & Hr & Hp & _).
  split; [by exists r|].
  split; [by apply submitQuiz_inactive|].
  split; [unfold confirmSubmissionBtnClicked; by apply submitQuiz_inactive|].
  split; [intros now; unfold tick; by rewrite Ht|].
  split; [intros hidden; unfold visibilitychange; by rewrite Hc|].
  intros Hrev es. apply run_idle. repeat split; try done.
  unfold submitQuiz. rewrite Hq. simpl. exact Hrev.
Qed.

(** A forced submission after a manual one. *)
Lemma submit_twice_sessionA :
  activeQuiz sessionA_wrong = Some quizA
  ∧ submitQuiz true false (submitQuiz false false sessionA_wrong)
    = submitQuiz false false sessionA_wrong.
Proof.
  split; [vm_compute; reflexivity|].
  destruct (submit_is_idempotent false false true false sessionA_wrong quizA)
    as (_ & H & _); [vm_compute; reflexivity | exact H].
Defined.

(** C4. The claim fails on the code. The guard of [submitQuiz] is the
    active quiz, which [startReviewMode] sets again, and a forced
    submission does not close the confirmation dialog. The taker of
    [sessionA_wrong] clicks the submit button and the time runs out with
    the dialog open: the session is finalised, with one result, no quiz
    active and the dialog still shown. The taker then starts the review
    from the results page and clicks the confirmation button: [submitQuiz]
    goes through a second time and appends a second result for the same
    quiz, with no answers, score 0 and no identity. *)
Theorem confirm_after_review_submits_again :
  results (run [SubmitBtn; Tick 60001] sessionA_wrong)
  = [{| quizId := "ABC123"; studentName := Some "Ann"; studentRoll := Some "17";
        studentEmail := Some "ann@example.org"; score := 1; total := 2;
        answers := [Some "Paris"; Some "41"] |}]
  ∧ activeQuiz (run [SubmitBtn; Tick 60001] sessionA_wrong) = None
  ∧ resultsSection (page (run [SubmitBtn; Tick 60001] sessionA_wrong))
    = ResultCard
        {| quizId := "ABC123"; studentName := Some "Ann"; studentRoll := Some "17";
           studentEmail := Some "ann@example.org"; score := 1; total := 2;
           answers := [Some "Paris"; Some "41"] |} false true
  ∧ confirmationModal (page (run [SubmitBtn; Tick 60001] sessionA_wrong)) = true
  ∧ results (runPage [ReviewAnswersBtn; OfSession ConfirmBtn]
               (run [SubmitBtn; Tick 60001] sessionA_wrong))
    = [{| quizId := "ABC123"; studentName := Some "Ann"; studentRoll := Some "17";
          studentEmail := Some "ann@example.org"; score := 1; total := 2;
          answers := [Some "Paris"; Some "41"] |};
       {| quizId := "ABC123"; studentName := None; studentRoll := None;
          studentEmail := None; score := 0; total := 2; answers := [] |}].
Proof. repeat split; vm_compute; reflexivity. Qed.

(** C6. In an active session a firing of the interval that finds no time
    left submits with the time-out flag: one result is appended, it is
    announced as a time-out, the interval is cleared, and a later firing
    changes nothing. *)
Theorem tick_after_deadline_times_out (now endTime : Z) (st : App) (quiz : Quiz) :
  activeQuiz st = Some quiz →
  quizTimerInterval st = Some endTime →
  (endTime - now ≤ 0)%Z →
  tick now st = submitQuiz false true st
  ∧ (∃ r, results (tick now st) = results st ++ [r]
          ∧ resultsSection (page (tick now st)) = ResultCard r false true)
  ∧ announced false true = Timeout
  ∧ quizTimerInterval (tick now st) = None
  ∧ (∀ now', tick now' (tick now st) = tick now st).
Proof.
  intros Hq Ht Hle.
  assert (tick now st = submitQuiz false true st) as ->.
  { unfold tick, updateTimer. rewrite Ht. by case_decide. }
  destruct (submitQuiz_disarms false true st quiz Hq) as (_ & Ht' & _).
  destruct (submitQuiz_results false true st quiz Hq) as (r & Hr & Hp & _).
  split; [done|]. split; [by exists r|]. split; [done|]. split; [done|].
  intros now'. unfold tick. by rewrite Ht'.
Qed.

(** Scenario B: one minute allowed, the first firing comes at 60001 ms. *)
Lemma scenario_B_timeout :
  duration quizA = 1%Z
  ∧ quizTimerInterval sessionA = Some 60000%Z
  ∧ ∃ r, results (tick 60001 sessionA) = [r]
         ∧ resultsSection (page (tick 60001 sessionA)) = ResultCard r false true.
Proof.
  split; [reflexivity|]. split; [vm_compute; reflexivity|].
  destruct (tick_after_deadline_times_out 60001 60000 sessionA quizA)
    as (_ & (r & Hr & Hp) & _); [vm_compute; reflexivity|vm_compute; reflexivity|lia|].
  exists r. split; [exact Hr | exact Hp].
Defined.

(** ** Navigation *)

Lemma at_index_in_range {A : Type} (l : list A) (i : Z) :
  (0 ≤ i < Z.of_nat (length l))%Z → ∃ x, at_index l i = Some x.
Proof.
  intros H. unfold at_index. rewrite decide_True by lia.
  apply lookup_lt_is_Some. lia.
Qed.

(** A request within the range moves the index and renders the question
    anew; nothing else changes. *)
Lemma navigateQuestion_accepts (direction : Z) (st : App) (quiz : Quiz) :
  activeQuiz st = Some quiz →
  (0 ≤ currentQuestionIndex st + direction < Z.of_nat (length (questions quiz)))%Z →
  ∃ c, navigateQuestion direction st
       = Normal (with_page (with_quizContainer c)
                   (with_currentQuestionIndex (currentQuestionIndex st + direction) st)).
Proof.
  intros Hq Hr. unfold navigateQuestion. rewrite Hq.
  destruct (Z.leb_spec 0 (currentQuestionIndex st + direction)); [|lia].
  destruct (Z.ltb_spec (currentQuestionIndex st + direction)
              (Z.of_nat (length (questions quiz)))); [|lia].
  destruct (at_index_in_range (questions quiz) _ Hr) as [q Hat].
  simpl. destruct (reviewingResult st) as [result|] eqn:Hrev.
  - unfold renderReviewQuestion. simpl. rewrite Hq, Hrev, Hat. eauto.
  - unfold renderQuestion. simpl. rewrite Hq, Hat. eauto.
Qed.

(** A request outside the range is dropped. *)
Lemma navigateQuestion_rejects (direction : Z) (st : App) (quiz : Quiz) :
  activeQuiz st = Some quiz →
  ¬ (0 ≤ currentQuestionIndex st + direction < Z.of_nat (length (questions quiz)))%Z →
  navigateQuestion direction st = Normal st.
Proof.
  intros Hq Hr. unfold navigateQuestion. rewrite Hq.
  destruct (Z.leb_spec 0 (currentQuestionIndex st + direction)); [|done].
  destruct (Z.ltb_spec (currentQuestionIndex st + direction)
              (Z.of_nat (length (questions quiz)))); [lia|done].
Qed.

(** One request keeps the index within the questions. *)
Lemma navigateQuestion_in_range (direction : Z) (st : App) (quiz : Quiz) :
  activeQuiz st = Some quiz →
  (0 ≤ currentQuestionIndex st < Z.of_nat (length (questions quiz)))%Z →
  ∃ st', navigateQuestion direction st = Normal st'
         ∧ activeQuiz st' = Some quiz
         ∧ (0 ≤ currentQuestionIndex st' < Z.of_nat (length (questions quiz)))%Z.
Proof.
  intros Hq Hi.
  destruct (decide (0 ≤ currentQuestionIndex st + direction
                    < Z.of_nat (length (questions quiz)))%Z) as [Hr|Hr].
  - destruct (navigateQuestion_accepts direction st quiz Hq Hr) as [c ->].
    eexists. split; [reflexivity|]. simpl. done.
  - rewrite (navigateQuestion_rejects direction st quiz Hq Hr). eauto.
Qed.

Lemma navigateAll_in_range (ds : list Z) (st : App) (quiz : Quiz) :
  activeQuiz st = Some quiz →
  (0 ≤ currentQuestionIndex st < Z.of_nat (length (questions quiz)))%Z →
  ∃ st', navigateAll ds st = Normal st'
         ∧ activeQuiz st' = Some quiz
         ∧ (0 ≤ currentQuestionIndex st' < Z.of_nat (length (questions quiz)))%Z.
Proof.
  revert st. induction ds as [|d ds IH]; intros st Hq Hi; simpl.
  - eauto.
  - destruct (navigateQuestion_in_range d st quiz Hq Hi) as (st1 & -> & Hq1 & Hi1).
    simpl. by apply IH.
Qed.

(** C3. In a session, [navigateQuestion] moves the index by the requested
    amount when the new index is that of a question, and then only the
    index and the question shown change; otherwise it returns normally
    with the state untouched. So stepping back from the first question and
    stepping forward from the last one, however often, change nothing, and
    no run of requests takes the index out of the questions. *)
Theorem navigate_rejects_out_of_range (direction : Z) (st : App) (quiz : Quiz) :
  activeQuiz st = Some quiz →
  ((0 ≤ currentQuestionIndex st + direction < Z.of_nat (length (questions quiz)))%Z →
   ∃ c, navigateQuestion direction st
        = Normal (with_page (with_quizContainer c)
                    (with_currentQuestionIndex (currentQuestionIndex st + direction) st)))
  ∧ (¬ (0 ≤ currentQuestionIndex st + direction < Z.of_nat (length (questions quiz)))%Z →
     navigateQuestion direction st = Normal st)
  ∧ (currentQuestionIndex st = 0%Z → navigateQuestion (-1) st = Normal st)
  ∧ (currentQuestionIndex st = (Z.of_nat (length (questions quiz)) - 1)%Z →
     ∀ n, navigateAll (replicate n 1%Z) st = Normal st)
  ∧ ((0 ≤ currentQuestionIndex st < Z.of_nat (length (questions quiz)))%Z →
     ∀ ds, ∃ st', navigateAll ds st = Normal st'
                  ∧ (0 ≤ currentQuestionIndex st' < Z.of_nat (length (questions quiz)))%Z).
Proof.
  intros Hq. split; [by apply navigateQuestion_accepts|].
  split; [by apply navigateQuestion_rejects|].
  split; [intros H0; apply (navigateQuestion_rejects _ _ quiz Hq); lia|].
  split.
  - intros Hlast n. induction n as [|n IH]; simpl; [done|].
    rewrite (navigateQuestion_rejects 1 st quiz Hq) by lia. simpl. exact IH.
  - intros Hi ds.
    destruct (navigateAll_in_range ds st quiz Hq Hi) as (st' & H1 & _ & H2). eauto.
Qed.

(** Scenario D: a step back from the first question. *)
Lemma scenario_D_first_question :
  currentQuestionIndex sessionA = 0%Z
  ∧ navigateQuestion (-1) sessionA = Normal sessionA.
Proof.
  split; [vm_compute; reflexivity|].
  apply (navigate_rejects_out_of_range (-1) sessionA quizA);
    vm_compute; reflexivity.
Defined.

(** ** Starting a session *)

(** The timer started before its deadline leaves the session as it is and
    arms the interval. *)
Lemma startTimer_before_deadline (now0 now1 d : Z) (st : App) :
  (now1 < now0 + d * 60 * 1000)%Z →
  startTimer now0 now1 d st
  = with_quizTimerInterval (Some (now0 + d * 60 * 1000)%Z) (stopTimer st).
Proof.
  intros H. unfold startTimer, updateTimer. by rewrite decide_False by lia.
Qed.

(** Whatever the clock, [startTimer] on a session either leaves the quiz
    active or has submitted it. *)
Lemma startTimer_activeQuiz (now0 now1 d : Z) (st : App) :
  activeQuiz (startTimer now0 now1 d st) = activeQuiz st
  ∧ currentQuestionIndex (startTimer now0 now1 d st) = currentQuestionIndex st
  ∨ activeQuiz (startTimer now0 now1 d st) = None.
Proof.
  unfold startTimer, updateTimer. case_decide; simpl; [|by left].
  unfold submitQuiz. simpl. destruct (activeQuiz st) eqn:E; simpl; right; [done | exact E].
Qed.

(** A quiz without questions makes [startQuiz] raise while rendering,
    with the session already set up. *)
Lemma startQuiz_empty_raises (now0 now1 : Z) (quiz : Quiz) (st : App) :
  questions quiz = [] →
  (now1 < now0 + duration quiz * 60 * 1000)%Z →
  ∃ st', startQuiz now0 now1 quiz st = Thrown st' ∧ activeQuiz st' = Some quiz.
Proof.
  intros He Ht. unfold startQuiz. rewrite startTimer_before_deadline by done.
  unfold renderQuestion. simpl. rewrite He. simpl. eauto.
Qed.

(** C9. For a quiz with at least one question [startQuiz] returns
    normally. When the first reading of the timer is before the deadline
    (which is how a quiz of positive duration starts), the state it returns
    has the quiz active, index 0, one unanswered cell per question, the
    interval armed for the moment of the start plus [duration] minutes, and
    the anti-cheating listeners installed. *)
Theorem startQuiz_initialises (now0 now1 : Z) (quiz : Quiz) (st : App) :
  questions quiz ≠ [] →
  (∃ st', startQuiz now0 now1 quiz st = Normal st')
  ∧ ((now1 < now0 + duration quiz * 60 * 1000)%Z →
     ∃ st', startQuiz now0 now1 quiz st = Normal st'
            ∧ activeQuiz st' = Some quiz
            ∧ currentQuestionIndex st' = 0%Z
            ∧ studentAnswers st' = replicate (length (questions quiz)) None
            ∧ length (studentAnswers st') = length (questions quiz)
            ∧ quizTimerInterval st' = Some (now0 + duration quiz * 60 * 1000)%Z
            ∧ antiCheating st' = true).
Proof.
  intros Hne. split.
  - unfold startQuiz.
    set (s0 := installAntiCheating _).
    destruct (startTimer_activeQuiz now0 now1 (duration quiz) s0) as [[Ha Hi]|Ha];
      unfold renderQuestion; rewrite Ha.
    + rewrite Hi. subst s0. simpl. destruct (questions quiz) as [|q qs]; [done|].
      simpl. eauto.
    + simpl. eauto.
  - intros Ht. unfold startQuiz. rewrite startTimer_before_deadline by done.
    unfold renderQuestion. simpl.
    destruct (questions quiz) as [|q qs] eqn:E; [done|]. simpl.
    eexists. split; [reflexivity|]. simpl. rewrite length_replicate. done.
Qed.

(** [quizA] started at time 0. *)
Lemma startQuiz_quizA :
  questions quizA ≠ []
  ∧ ∃ st', startQuiz 0 0 quizA appA = Normal st'
           ∧ studentAnswers st' = [None; None]
           ∧ quizTimerInterval st' = Some 60000%Z.
Proof.
  split; [discriminate|].
  destruct (startQuiz_initialises 0 0 quizA appA) as [_ H]; [discriminate|].
  destruct H as (st' & H1 & _ & _ & H2 & _ & H3 & _); [reflexivity|].
  exists st'. split; [exact H1|]. split; [exact H2 | exact H3].
Defined.

(** ** Options are told apart by their text *)

(** [arr[i] = v] followed by [arr[i]] reads [v]. *)
Lemma set_index_lookup (l : list Answer) (i : Z) (v : Answer) :
  (0 ≤ i)%Z → set_index l i v !! Z.to_nat i = Some v.
Proof.
  intros Hi. unfold set_index. rewrite decide_True by done. case_decide.
  - by apply list_lookup_insert_eq.
  - rewrite lookup_app_r by lia.
    rewrite lookup_app_r by (rewrite length_replicate; lia).
    rewrite length_replicate.
    by replace (Z.to_nat i - length l - (Z.to_nat i - length l)) with 0 by lia.
Qed.

(** The parser leaves a plain text as it is. *)
Lemma is_plain_char_inv (c : ascii) :
  is_plain_char c = true →
  Ascii.eqb c char_nul = false ∧ Ascii.eqb c char_cr = false
  ∧ Ascii.eqb c char_quote = false ∧ Ascii.eqb c "&" = false.
Proof.
  unfold is_plain_char. intros H%negb_true_iff.
  apply orb_false_iff in H as [H _]. apply orb_false_iff in H as [H Hamp].
  apply orb_false_iff in H as [H Hquote]. apply orb_false_iff in H as [Hnul Hcr].
  done.
Qed.

Lemma normalizeNewlines_plain (s : string) :
  html_plain s = true → normalizeNewlines s = s.
Proof.
  unfold html_plain. induction s as [|c s IH]; [done|]. simpl.
  intros [Hc Hs]%andb_prop. destruct (is_plain_char_inv c Hc) as (_ & -> & _).
  by rewrite IH.
Qed.

Lemma attributeValueState_plain (s : string) (fuel : nat) :
  html_plain s = true → (String.length s ≤ fuel)%nat → attributeValueState fuel s = s.
Proof.
  unfold html_plain. revert fuel. induction s as [|c s IH]; intros fuel.
  - by destruct fuel.
  - simpl. intros [Hc Hs]%andb_prop Hfuel.
    destruct fuel as [|fuel]; [lia|]. simpl.
    destruct (is_plain_char_inv c Hc) as (-> & _ & -> & ->).
    rewrite IH; [done..|lia].
Qed.

Lemma attributeValue_plain (s : string) :
  html_plain s = true → attributeValue s = s.
Proof.
  intros H. unfold attributeValue. rewrite normalizeNewlines_plain by done.
  by apply attributeValueState_plain.
Qed.

Lemma forallb_lookup {A : Type} (p : A → bool) (l : list A) (i : nat) (x : A) :
  forallb p l = true → l !! i = Some x → p x = true.
Proof.
  revert i. induction l as [|y l IH]; intros i; [done|]. simpl.
  intros [Hy Hl]%andb_prop. destruct i as [|i]; simpl.
  - by intros [= <-].
  - by apply IH.
Qed.

Lemma plain_question_option (q : MCQ) (i : nat) (o : Option) :
  plain_question q = true → options q !! i = Some o → attributeValue o = o.
Proof.
  intros [_ H]%andb_prop Ho. apply attributeValue_plain.
  by apply (forallb_lookup html_plain (options q) i).
Qed.

(** The inputs of a plain question carry the texts of its options. *)
Lemma plain_radios (q : MCQ) (recorded : option Answer) :
  plain_question q = true →
  (λ option, (attributeValue option, strict_eq recorded option)) <$> options q
  = (λ option, (option, strict_eq recorded option)) <$> options q.
Proof.
  intros Hp. apply list_fmap_ext. intros i o Ho.
  by rewrite (plain_question_option q i o).
Qed.

(** X29. Where the markup holds the texts as written, options are
    identified by their text. Let the question shown be a [plain_question] that
    lists the text [o] at positions [i] and [j]. Picking position [i]
    records the text [o] at the question's index; picking position [j]
    leads to the very same state. The recorded answer makes the question
    an exact match for scoring exactly when [o] is the text of
    [correctAnswer]. In review, for any question, the items at [i] and
    [j] are equal, carry the text [o], are marked correct exactly when [o]
    is the text of [correctAnswer], and selected exactly when the reviewed
    answer is [o]. *)
Theorem options_identified_by_text (st : App) (quiz : Quiz) (q : MCQ)
    (i j : nat) (o : Option) :
  activeQuiz st = Some quiz →
  (0 ≤ currentQuestionIndex st)%Z →
  questions quiz !! Z.to_nat (currentQuestionIndex st) = Some q →
  options q !! i = Some o →
  options q !! j = Some o →
  (plain_question q = true →
   ∃ shown, renderQuestion st = Normal shown
     ∧ studentAnswers (selectOption i shown)
       = set_index (studentAnswers st) (currentQuestionIndex st) (Some o)
     ∧ selectOption j shown = selectOption i shown
     ∧ (matches_at (questions quiz) (studentAnswers (selectOption i shown))
          (Z.to_nat (currentQuestionIndex st))
        ↔ o = correctAnswer q))
  ∧ (∀ result, ∃ shown items it,
       renderReviewQuestion (with_reviewingResult (Some result) st) = Normal shown
       ∧ quizContainer (page shown) = ReviewView items
       ∧ items !! i = Some it ∧ items !! j = Some it
       ∧ item_text it = o
       ∧ (item_correct it = true ↔ o = correctAnswer q)
       ∧ (item_selected it = true
          ↔ at_index (answers result) (currentQuestionIndex st) = Some (Some o))).
Proof.
  intros Hq Hi Hlk Hoi Hoj.
  assert (at_index (questions quiz) (currentQuestionIndex st) = Some q) as Hat.
  { unfold at_index. by rewrite decide_True. }
  split.
  - intros Hplain. unfold renderQuestion. rewrite Hq, Hat.
    rewrite plain_radios by done. eexists. split; [reflexivity|].
    unfold selectOption. simpl. rewrite !list_lookup_fmap, Hoi, Hoj. simpl.
    split; [done|]. split; [done|].
    unfold matches_at. rewrite Hlk, set_index_lookup by done.
    split; [by intros [= ->] | by intros ->].
  - intros result. unfold renderReviewQuestion. simpl. rewrite Hq, Hat.
    eexists. eexists. eexists. split; [reflexivity|]. simpl.
    split; [reflexivity|]. rewrite !list_lookup_fmap, Hoi, Hoj. simpl.
    split; [reflexivity|]. split; [reflexivity|]. split; [reflexivity|].
    split; [apply String.eqb_eq | apply strict_eq_true].
Qed.

(** The text Yes stands at positions 0 and 2 of [mcqDup]. *)
Lemma duplicate_option_either_position :
  options mcqDup !! 0 = Some "Yes" ∧ options mcqDup !! 2 = Some "Yes"
  ∧ plain_question mcqDup = true
  ∧ ∃ shown, renderQuestion sessionDup = Normal shown
             ∧ selectOption 2 shown = selectOption 0 shown
             ∧ computeScore quizDup (studentAnswers (selectOption 0 shown)) = 1%Z
             ∧ computeScore quizDup (studentAnswers (selectOption 2 shown)) = 1%Z.
Proof.
  split; [reflexivity|]. split; [reflexivity|]. split; [vm_compute; reflexivity|].
  destruct (options_identified_by_text sessionDup quizDup mcqDup 0 2 "Yes")
    as [Hshown _]; [reflexivity|simpl; lia|reflexivity..|].
  destruct Hshown as (shown & Hs & Ha & Hj & _); [vm_compute; reflexivity|].
  exists shown. split; [exact Hs|]. split; [exact Hj|].
  rewrite Hj, Ha. split; vm_compute; reflexivity.
Defined.

(** C10. The claim fails on the code for an option whose text HTML does
    not hold as written. The correct option of [mcqPrint] has a double
    quote in its text: the markup of [renderQuestion] ends the [value]
    attribute at that quote, so the input of the option carries the value
    [print(]. A taker who picks this option, the correct one, has [print(]
    recorded, which is the text of no option; the submission scores 0 of
    1, and the review marks the option correct but not selected. *)
Theorem quoted_option_scores_zero :
  options mcqPrint !! 0 = Some (correctAnswer mcqPrint)
  ∧ activeQuiz sessionPrint = Some quizPrint
  ∧ quizContainer (page sessionPrint)
    = QuestionView
        [("print(", false); ("print(hi)", false); ("print hi", false); ("hi", false)]
  ∧ studentAnswers (selectOption 0 sessionPrint) = [Some "print("]
  ∧ results (confirmSubmissionBtnClicked (selectOption 0 sessionPrint))
    = [{| quizId := "PRINT1"; studentName := Some "Ann"; studentRoll := Some "17";
          studentEmail := Some "ann@example.org"; score := 0; total := 1;
          answers := [Some "print("] |}]
  ∧ quizContainer
      (page (stateOf (reviewAnswersBtnClicked
                        (confirmSubmissionBtnClicked (selectOption 0 sessionPrint)))))
    = ReviewView
        [{| item_text := correctAnswer mcqPrint; item_correct := true;
            item_selected := false; item_incorrect := false |};
         {| item_text := "print(hi)"; item_correct := false;
            item_selected := false; item_incorrect := false |};
         {| item_text := "print hi"; item_correct := false;
            item_selected := false; item_incorrect := false |};
         {| item_text := "hi"; item_correct := false;
            item_selected := false; item_incorrect := false |}].
Proof. repeat split; vm_compute; reflexivity. Qed.

(** The same with a character reference in the text: the parser reads the
    option [&amp;] as the value [&], and the pick of the correct option
    scores 0. *)
Lemma character_reference_scores_zero :
  options mcqAmp !! 0 = Some (correctAnswer mcqAmp)
  ∧ quizContainer (page sessionAmp)
    = QuestionView [("&", false); ("<", false); (">", false); ("'", false)]
  ∧ studentAnswers (selectOption 0 sessionAmp) = [Some "&"]
  ∧ results (confirmSubmissionBtnClicked (selectOption 0 sessionAmp))
    = [{| quizId := "AMP001"; studentName := Some "Ann"; studentRoll := Some "17";
          studentEmail := Some "ann@example.org"; score := 0; total := 1;
          answers := [Some "&"] |}].
Proof. repeat split; vm_compute; reflexivity. Qed.

(** ** Persistence round trip *)

Lemma mapM_json_string (l : list string) : mapM json_string (JStr <$> l) = Some l.
Proof. by apply mapM_fmap_Some. Qed.

Lemma mapM_json_answer (l : list Answer) :
  mapM json_answer (answer_to_json <$> l) = Some l.
Proof. apply mapM_fmap_Some. by intros [s|]. Qed.

Lemma json_mcq_to_json (q : MCQ) : json_mcq (mcq_to_json q) = Some q.
Proof.
  destruct q as [qu os c [e|]]; unfold json_mcq, mcq_to_json; simpl;
    by rewrite mapM_json_string.
Qed.

Lemma json_quiz_to_json (q : Quiz) : json_quiz (quiz_to_json q) = Some q.
Proof.
  destruct q as [i t qs d]. unfold json_quiz, quiz_to_json. simpl.
  by rewrite (mapM_fmap_Some json_mcq mcq_to_json qs json_mcq_to_json).
Qed.

Lemma json_result_to_json (r : StudentResult) : json_result (result_to_json r) = Some r.
Proof.
  destruct r as [q [n|] [ro|] [e|] s t a]; unfold json_result, result_to_json; simpl;
    by rewrite mapM_json_answer.
Qed.

Lemma json_results_to_json (l : list StudentResult) :
  json_results (results_to_json l) = Some l.
Proof. apply mapM_fmap_Some, json_result_to_json. Qed.

(** An object written from a map reads back as that map. *)
Lemma json_map_to_json {A : Type} (f : json → option A) (g : A → json)
    (m : gmap string A) :
  (∀ x, f (g x) = Some x) →
  json_map f (JObj (prod_map (λ k, k) g <$> map_to_list m)) = Some m.
Proof.
  intros Hfg. unfold json_map.
  rewrite (mapM_fmap_Some _ (prod_map (λ k, k) g) (map_to_list m)).
  - simpl. f_equal. rewrite <- (list_to_map_to_list m) at 2.
    apply list_to_map_proper.
    + rewrite fmap_reverse, reverse_Permutation. apply NoDup_fst_map_to_list.
    + apply reverse_Permutation.
  - intros [k x]. simpl. by rewrite Hfg.
Qed.

Lemma json_professors_to_json (m : gmap string string) :
  json_professors (professors_to_json m) = Some m.
Proof. by apply json_map_to_json. Qed.

Lemma json_quizzes_to_json (m : gmap string Quiz) :
  json_quizzes (quizzes_to_json m) = Some m.
Proof. apply json_map_to_json, json_quiz_to_json. Qed.

(** What [saveDataToStorage] leaves under the three keys. *)
Lemma saved_professors (st : App) :
  storage (saveDataToStorage st) !! "quizAppProfessors"
  = Some (professors_to_json (professors st)).
Proof.
  simpl. rewrite lookup_insert_ne by done. rewrite lookup_insert_ne by done.
  apply lookup_insert_eq.
Qed.

Lemma saved_quizzes (st : App) :
  storage (saveDataToStorage st) !! "quizAppQuizzes"
  = Some (quizzes_to_json (quizzes st)).
Proof. simpl. rewrite lookup_insert_ne by done. apply lookup_insert_eq. Qed.

Lemma saved_results (st : App) :
  storage (saveDataToStorage st) !! "quizAppResults"
  = Some (results_to_json (results st)).
Proof. simpl. apply lookup_insert_eq. Qed.

Lemma size_pos_non_empty {A : Type} (m : gmap string A) : m ≠ ∅ → 0 < size m.
Proof. intros H. apply map_size_non_empty_iff in H. lia. Qed.

(** Loading over a storage that was just saved from [src], into an
    application [st] that shares that storage. *)
Lemma load_saved (src st : App) :
  professors src ≠ ∅ →
  storage st = storage (saveDataToStorage src) →
  loadDataFromStorage st
  = Some (with_results (results src)
            (with_quizzes (quizzes src) (with_professors (professors src) st))).
Proof.
  intros Hne Hs. unfold loadDataFromStorage, loadProfessors.
  rewrite Hs, saved_professors, json_professors_to_json. simpl.
  rewrite decide_True by (by apply size_pos_non_empty). simpl.
  unfold loadQuizzes. simpl. rewrite Hs, saved_quizzes, json_quizzes_to_json. simpl.
  unfold loadResults. simpl. rewrite Hs, saved_results, json_results_to_json. done.
Qed.

(** C8. Load after save is the identity. Every state that
    [saveDataToStorage] is called on has a professor, since the load of
    the constructor leaves one and no handler takes one away
    ([loadDataFromStorage_professors], [actions_professors]). For such a
    state, saving and loading again gives back the same professors,
    quizzes and results: loading in the application that saved changes
    nothing, and loading into a newly constructed application over the
    saved storage reproduces the three records. Every quiz and every
    result written to the layout reads back as itself. *)
Theorem load_after_save (st : App) :
  professors st ≠ ∅ →
  loadDataFromStorage (saveDataToStorage st) = Some (saveDataToStorage st)
  ∧ (∃ st', loadDataFromStorage (freshApp (storage (saveDataToStorage st))) = Some st'
            ∧ professors st' = professors st
            ∧ quizzes st' = quizzes st
            ∧ results st' = results st)
  ∧ (∀ q, json_quiz (quiz_to_json q) = Some q)
  ∧ (∀ r, json_result (result_to_json r) = Some r).
Proof.
  intros Hne. split; [|split; [|split]].
  - rewrite (load_saved st (saveDataToStorage st) Hne eq_refl). by destruct st.
  - rewrite (load_saved st (freshApp (storage (saveDataToStorage st))) Hne eq_refl).
    eexists. split; [reflexivity|]. done.
  - exact json_quiz_to_json.
  - exact json_result_to_json.
Qed.

Lemma appA_professors_non_empty : professors appA ≠ ∅.
Proof. apply insert_non_empty. Qed.

(** The repository holding [quizA], saved and loaded by a new application. *)
Lemma load_after_save_appA :
  professors appA ≠ ∅
  ∧ ∃ st', loadDataFromStorage (freshApp (storage (saveDataToStorage appA))) = Some st'
           ∧ quizzes st' = {["ABC123" := quizA]}.
Proof.
  split; [exact appA_professors_non_empty|].
  destruct (load_after_save appA appA_professors_non_empty)
    as (_ & (st' & H1 & _ & H2 & _) & _).
  exists st'. split; [exact H1 | exact H2].
Defined.

(** What a load leaves as professors is never empty: the stored mapping
    when it has a key, the seeded default otherwise. *)
Lemma loadDataFromStorage_professors (st st' : App) :
  loadDataFromStorage st = Some st' → professors st' ≠ ∅.
Proof.
  unfold loadDataFromStorage. intros H.
  destruct (loadProfessors st) as [st1|] eqn:H1; [|done]. simpl in H.
  destruct (loadQuizzes st1) as [st2|] eqn:H2; [|done]. simpl in H.
  assert (professors st1 ≠ ∅) as Hne.
  { unfold loadProfessors in H1.
    destruct (storage st !! "quizAppProfessors") as [j|].
    - destruct (json_professors j) as [m|]; [|done]. simpl in H1.
      case_decide as Hm; injection H1 as <-; simpl.
      + intros ->. rewrite map_size_empty in Hm. lia.
      + apply insert_non_empty.
    - injection H1 as <-. simpl. apply insert_non_empty. }
  assert (professors st2 = professors st1) as H21.
  { unfold loadQuizzes in H2. destruct (storage st1 !! "quizAppQuizzes") as [j|].
    - destruct (json_quizzes j); [|done]. by injection H2 as <-.
    - by injection H2 as <-. }
  assert (professors st' = professors st2) as H32.
  { unfold loadResults in H. destruct (storage st2 !! "quizAppResults") as [j|].
    - destruct (json_results j); [|done]. by injection H as <-.
    - by injection H as <-. }
  by rewrite H32, H21.
Qed.

(** ** Quiz codes *)

Lemma upper_ascii_code_char (c : ascii) :
  is_radix36_digit c = true → is_code_char (upper_ascii c) = true.
Proof. destruct c as [[] [] [] [] [] [] [] []]; vm_compute; congruence. Qed.

Lemma toUpperCase_code (s : string) :
  string_forall is_radix36_digit s = true →
  string_forall is_code_char (toUpperCase s) = true.
Proof.
  induction s as [|c s IH]; simpl; [done|].
  intros [Hc Hs]%andb_prop. by rewrite upper_ascii_code_char, IH.
Qed.

Lemma toUpperCase_length (s : string) :
  String.length (toUpperCase s) = String.length s.
Proof. induction s as [|c s IH]; simpl; [done | by rewrite IH]. Qed.

Lemma substring_forall (p : ascii → bool) (from len : nat) (s : string) :
  string_forall p s = true → string_forall p (String.substring from len s) = true.
Proof.
  revert from len. induction s as [|c s IH]; intros from len H.
  - by destruct from, len.
  - simpl in H. apply andb_prop in H as [Hc Hs].
    destruct from as [|from]; [destruct len as [|len]|]; simpl; [done| |by apply IH].
    by rewrite Hc, (IH 0 len).
Qed.

Lemma substring_length (from len : nat) (s : string) :
  String.length (String.substring from len s) = min len (String.length s - from).
Proof.
  revert from len. induction s as [|c s IH]; intros from len.
  - destruct from, len; simpl; lia.
  - destruct from as [|from]; [destruct len as [|len]|]; simpl; [done| |apply IH].
    rewrite (IH 0 len). lia.
Qed.

(** The loop ends with a code no stored quiz has, made from one of the
    draws. *)
Lemma newQuizIdLoop_free (draws : list string) (qs : gmap string Quiz) (i : string) :
  newQuizIdLoop draws qs = Some i →
  qs !! i = None ∧ ∃ r, r ∈ draws ∧ i = toUpperCase (js_substring 2 8 r).
Proof.
  induction draws as [|r rest IH]; simpl; [done|].
  destruct (qs !! toUpperCase (js_substring 2 8 r)) eqn:E.
  - intros H. destruct (IH H) as (Hn & r' & Hr' & Hi).
    split; [done|]. exists r'. split; [by right | done].
  - intros [= <-]. split; [done|]. exists r. split; [by left | done].
Qed.

(** The loop ends as soon as a draw gives a code that is free. *)
Lemma newQuizIdLoop_ends (draws : list string) (qs : gmap string Quiz) (r : string) :
  r ∈ draws →
  qs !! toUpperCase (js_substring 2 8 r) = None →
  is_Some (newQuizIdLoop draws qs).
Proof.
  intros Hin Hfree. induction draws as [|r' rest IH]; [by apply elem_of_nil in Hin|].
  simpl. destruct (qs !! toUpperCase (js_substring 2 8 r')) eqn:E; [|eauto].
  apply elem_of_cons in Hin as [->|Hin]; [congruence | by apply IH].
Qed.

(** X26. A code made from a text of [toString(36)] consists of characters
    [0-9A-Z] and has as many of them as the text has digits after [0.],
    up to six. *)
Lemma quiz_code_shape (r : string) :
  is_radix36_text r = true →
  string_forall is_code_char (toUpperCase (js_substring 2 8 r)) = true
  ∧ String.length (toUpperCase (js_substring 2 8 r)) = min 6 (String.length r - 2).
Proof.
  intros Hr. split; [|by rewrite toUpperCase_length; apply substring_length].
  destruct r as [|c0 [|c1 ds]]; [done..|].
  unfold is_radix36_text in Hr.
  destruct (Ascii.eqb_spec c0 "0"); [subst c0 | by destruct c0 as [[] [] [] [] [] [] [] []]].
  destruct (Ascii.eqb_spec c1 "."); [subst c1 | by destruct c1 as [[] [] [] [] [] [] [] []]].
  apply andb_prop in Hr as [_ Hd].
  apply toUpperCase_code. unfold js_substring. simpl. by apply substring_forall.
Qed.

(** X27. Creation stores the new quiz under a code that no stored quiz had, and
    touches no other quiz. *)
Lemma createAndSaveQuiz_fresh (draws : list string) (t : string) (qs : list MCQ)
    (d : Z) (st st' : App) :
  createAndSaveQuiz draws t qs d st = Some st' →
  ∃ i, quizzes st !! i = None
       ∧ quizzes st' = <[i := {| id := i; title := t; questions := qs; duration := d |}]>
                         (quizzes st)
       ∧ (∀ k q, quizzes st !! k = Some q → k ≠ i ∧ quizzes st' !! k = Some q).
Proof.
  unfold createAndSaveQuiz. destruct (newQuizIdLoop draws (quizzes st)) as [i|] eqn:E;
    simpl; [|done].
  intros [= <-]. apply newQuizIdLoop_free in E as [Hfree _].
  exists i. split; [done|]. split; [done|].
  intros k q Hk. assert (k ≠ i) by congruence. split; [done|].
  simpl. by rewrite lookup_insert_ne.
Qed.

(** C7, where the code parts from it. [Math.random()] may return [0.5],
    which [toString(36)] writes [0.i]: the quiz is then saved under the
    one-character code [I]. It may return [0], written [0]: the code is
    then empty, and [handleStudentLogin] turns an empty code away before
    looking it up, so that quiz cannot be taken. *)
Lemma short_quiz_code :
  is_radix36_text "0.i" = true
  ∧ newQuizIdLoop ["0.i"] ∅ = Some "I"
  ∧ String.length "I" ≠ 6
  ∧ is_radix36_text "0" = true
  ∧ newQuizIdLoop ["0"] ∅ = Some EmptyString
  ∧ ∀ now0 now1 name roll email st,
      handleStudentLogin now0 now1 EmptyString name roll email st
      = Normal (showLoginError "Please fill in all fields." st).
Proof. repeat split; done. Qed.

(** ** The invariant of a session *)

Lemma set_index_length (l : list Answer) (i : Z) (v : Answer) :
  (0 ≤ i < Z.of_nat (length l))%Z → length (set_index l i v) = length l.
Proof.
  intros Hi. unfold set_index. rewrite decide_True by lia.
  rewrite decide_True by lia. apply length_insert.
Qed.

Lemma submitQuiz_session_ok (cheated timedOut : bool) (st : App) :
  session_ok st → session_ok (submitQuiz cheated timedOut st).
Proof.
  intros [Hr Hs]. unfold submitQuiz.
  destruct (activeQuiz st) as [quiz|] eqn:Hq; [|by split; [|rewrite Hq]].
  by split.
Qed.

(** A started session is in order. *)
Lemma startQuiz_session_ok (now0 now1 : Z) (quiz : Quiz) (st : App) :
  reviewingResult st = None →
  questions quiz ≠ [] →
  (now1 < now0 + duration quiz * 60 * 1000)%Z →
  session_ok (stateOf (startQuiz now0 now1 quiz st)).
Proof.
  intros Hr Hne Ht. unfold startQuiz. rewrite startTimer_before_deadline by done.
  unfold renderQuestion. simpl.
  destruct (questions quiz) as [|q qs] eqn:E; [done|]. simpl.
  split; [done|]. simpl. rewrite E. simpl. rewrite length_replicate.
  repeat split; try lia; by eexists.
Qed.

(** Every event of a session keeps it in order. *)
Lemma handle_session_ok (e : SessionEvent) (st : App) :
  session_ok st → session_ok (handle e st).
Proof.
  intros Hok. destruct e as [now|hidden|d|i| | |]; simpl.
  - unfold tick. destruct (quizTimerInterval st) eqn:Et; [|done].
    unfold updateTimer. case_decide; [by apply submitQuiz_session_ok | done].
  - unfold visibilitychange, visibilityChangeHandler.
    destruct (antiCheating st) eqn:Ec; [|done].
    destruct hidden; [by apply submitQuiz_session_ok | done].
  - unfold navigateQuestion.
    destruct (activeQuiz st) as [quiz|] eqn:Hq; [|done].
    destruct (Z.leb_spec 0 (currentQuestionIndex st + d)); [|done].
    destruct (Z.ltb_spec (currentQuestionIndex st + d)
                (Z.of_nat (length (questions quiz)))); [|done].
    destruct Hok as [Hr Hs]. rewrite Hq in Hs. destruct Hs as (Hac & Ht & Hi & Hl).
    simpl. rewrite Hr. unfold renderQuestion. simpl. rewrite Hq.
    destruct (at_index_in_range (questions quiz) (currentQuestionIndex st + d))
      as [q ->]; [lia|].
    simpl. split; [done|]. simpl. by rewrite Hq.
  - unfold selectOption.
    destruct (quizContainer (page st)) as [|radios|]; [done| |done].
    destruct (radios !! i) as [[v b]|]; [|done].
    destruct Hok as [Hr Hs]. split; [done|]. simpl.
    destruct (activeQuiz st) as [quiz|]; [|done].
    destruct Hs as (Hac & Ht & Hi & Hl).
    by rewrite set_index_length by lia.
  - destruct Hok as [Hr Hs]. unfold submitQuizBtnClicked. rewrite Hr. by split.
  - unfold confirmSubmissionBtnClicked. apply submitQuiz_session_ok.
    destruct Hok as [Hr Hs]. by split.
  - destruct Hok as [Hr Hs]. by split.
Qed.

(** From its start on, whatever the taker and the browser do, a session is
    in order: in particular the index never leaves the questions and the
    answers keep the length of the quiz. *)
Lemma run_session_ok (es : list SessionEvent) (st : App) :
  session_ok st → session_ok (run es st).
Proof.
  revert st. induction es as [|e es IH]; intros st Hok; [done|].
  apply (IH (handle e st)). by apply handle_session_ok.
Qed.

(** ** Accounts *)

Lemma is_empty_string_false (s : string) : s ≠ "" → is_empty_string s = false.
Proof. by destruct s. Qed.

Lemma is_empty_string_true (s : string) : is_empty_string s = true → s = "".
Proof. by destruct s. Qed.

(** What a successful registration leaves. *)
Lemma handleProfessorRegister_new (email password : string) (st : App) :
  email ≠ "" →
  password ≠ "" →
  professorAt (professors st) email = NoValue →
  handleProfessorRegister email password st
  = loginAsProfessor email
      (saveDataToStorage (with_professors (<[email := password]> (professors st)) st)).
Proof.
  intros He Hp Hn. unfold handleProfessorRegister.
  by rewrite !is_empty_string_false, Hn.
Qed.

Lemma handleProfessorLogin_stored (email password : string) (st : App) :
  professors st !! email = Some password →
  password ≠ "" →
  handleProfessorLogin email password st = loginAsProfessor email st.
Proof.
  intros Hs Hp. unfold handleProfessorLogin, professorAt. rewrite Hs.
  by rewrite is_empty_string_false, String.eqb_refl.
Qed.

Lemma handleProfessorLogin_wrong (email password : string) (st : App) :
  ¬ (professors st !! email = Some password ∧ password ≠ "") →
  handleProfessorLogin email password st
  = showLoginError "Invalid email or password." st.
Proof.
  intros Hn. unfold handleProfessorLogin, professorAt.
  destruct (professors st !! email) as [stored|] eqn:Hs; [|by case_bool_decide].
  destruct (is_empty_string stored) eqn:Ee; [done|]. simpl.
  destruct (String.eqb_spec stored password) as [->|]; [|done].
  exfalso. apply Hn. split; [done|]. intros ->. discriminate.
Qed.

(** X1. A professor is logged in exactly on the password stored under the
    email, and only when that password is not empty; in every other case
    (no account, another password, an email that is only a name inherited
    from the prototype) the login error is shown and nothing else
    changes. *)
Theorem login_needs_stored_password (email password : string) (st : App) :
  (professors st !! email = Some password ∧ password ≠ "" →
   handleProfessorLogin email password st = loginAsProfessor email st
   ∧ currentProfessor (handleProfessorLogin email password st) = Some email)
  ∧ (¬ (professors st !! email = Some password ∧ password ≠ "") →
     handleProfessorLogin email password st
     = showLoginError "Invalid email or password." st
     ∧ currentProfessor (handleProfessorLogin email password st) = currentProfessor st).
Proof.
  split.
  - intros [Hs Hp]. by rewrite handleProfessorLogin_stored.
  - intros Hn. by rewrite handleProfessorLogin_wrong.
Qed.

(** X2. Registering under an email that reads no value (no account, and
    no name inherited from the prototype) with a password stores the
    account, saves it, and logs the professor in; after a logout the same
    credentials log in again, and no other password does. *)
Theorem register_then_login (email password : string) (st : App) :
  email ≠ "" →
  password ≠ "" →
  professorAt (professors st) email = NoValue →
  professors (handleProfessorRegister email password st)
  = <[email := password]> (professors st)
  ∧ currentProfessor (handleProfessorRegister email password st) = Some email
  ∧ storage (handleProfessorRegister email password st) !! "quizAppProfessors"
    = Some (professors_to_json (<[email := password]> (professors st)))
  ∧ currentProfessor
      (handleProfessorLogin email password
         (logout (handleProfessorRegister email password st)))
    = Some email
  ∧ (∀ other, other ≠ password →
       currentProfessor
         (handleProfessorLogin email other
            (logout (handleProfessorRegister email password st)))
       = None).
Proof.
  intros He Hp Hn. rewrite handleProfessorRegister_new by done.
  split; [done|]. split; [done|].
  split; [apply (saved_professors (with_professors _ st))|].
  split.
  - rewrite handleProfessorLogin_stored; [done| |done].
    simpl. apply lookup_insert_eq.
  - intros other Ho. rewrite handleProfessorLogin_wrong; [done|].
    simpl. rewrite lookup_insert_eq. intros [[= ->] _]. done.
Qed.

(** X3. An account whose password is not empty is never overwritten:
    registering again under its email only shows an error. *)
Theorem register_keeps_existing (email stored password : string) (st : App) :
  professors st !! email = Some stored →
  stored ≠ "" →
  ∃ message, handleProfessorRegister email password st = showLoginError message st
             ∧ professors (handleProfessorRegister email password st) = professors st
             ∧ storage (handleProfessorRegister email password st) = storage st.
Proof.
  intros Hs Hne. unfold handleProfessorRegister.
  destruct (is_empty_string email || is_empty_string password); [by eexists|].
  unfold professorAt. rewrite Hs. simpl. rewrite is_empty_string_false by done.
  simpl. by eexists.
Qed.

(** X4. A registered account survives a reload: a new application over
    the storage left by the registration loads the account, and its
    credentials log in there. *)
Theorem registered_account_reloads (email password : string) (st : App) :
  email ≠ "" →
  password ≠ "" →
  professorAt (professors st) email = NoValue →
  ∃ st', loadDataFromStorage
           (freshApp (storage (handleProfessorRegister email password st)))
         = Some st'
         ∧ professors st' = <[email := password]> (professors st)
         ∧ quizzes st' = quizzes st
         ∧ results st' = results st
         ∧ currentProfessor (handleProfessorLogin email password st') = Some email.
Proof.
  intros He Hp Hn. rewrite handleProfessorRegister_new by done.
  rewrite (load_saved (with_professors (<[email := password]> (professors st)) st)
             (freshApp _)); [|apply insert_non_empty|reflexivity].
  eexists. split; [reflexivity|]. simpl. split; [done|]. split; [done|].
  split; [done|]. rewrite handleProfessorLogin_stored; [done| |done].
  simpl. apply lookup_insert_eq.
Qed.

(** A new account on the repository holding [quizA]. *)
Lemma register_then_login_ada :
  professorAt (professors appA) "ada@example.org" = NoValue
  ∧ currentProfessor
      (handleProfessorLogin "ada@example.org" "s3cret"
         (logout (handleProfessorRegister "ada@example.org" "s3cret" appA)))
    = Some "ada@example.org".
Proof.
  split; [vm_compute; reflexivity|].
  destruct (register_then_login "ada@example.org" "s3cret" appA)
    as (_ & _ & _ & H & _); [done | done | vm_compute; reflexivity | exact H].
Defined.

(** The seeded professor registers again with another password. *)
Lemma register_keeps_seeded_professor :
  professors appA !! "professor@test.com" = Some "password"
  ∧ ∃ message,
      handleProfessorRegister "professor@test.com" "other" appA
      = showLoginError message appA.
Proof.
  split; [vm_compute; reflexivity|].
  destruct (register_keeps_existing "professor@test.com" "password" "other" appA)
    as (message & H & _); [vm_compute; reflexivity | done |].
  exists message. exact H.
Defined.

Lemma registered_account_reloads_ada :
  professorAt (professors appA) "ada@example.org" = NoValue
  ∧ ∃ st', loadDataFromStorage
             (freshApp (storage (handleProfessorRegister "ada@example.org" "s3cret" appA)))
           = Some st'
           ∧ currentProfessor (handleProfessorLogin "ada@example.org" "s3cret" st')
             = Some "ada@example.org".
Proof.
  split; [vm_compute; reflexivity|].
  destruct (registered_account_reloads "ada@example.org" "s3cret" appA)
    as (st' & Hl & _ & _ & _ & Hc); [done | done | vm_compute; reflexivity |].
  exists st'. split; [exact Hl | exact Hc].
Defined.

(** ** More on persistence *)

(** Loading reads three keys and nothing else. *)
Lemma load_from_keys (st : App) (m : gmap string string) (q : gmap string Quiz)
    (l : list StudentResult) :
  storage st !! "quizAppProfessors" = Some (professors_to_json m) →
  m ≠ ∅ →
  storage st !! "quizAppQuizzes" = Some (quizzes_to_json q) →
  storage st !! "quizAppResults" = Some (results_to_json l) →
  loadDataFromStorage st
  = Some (with_results l (with_quizzes q (with_professors m st))).
Proof.
  intros Hp Hne Hq Hr. unfold loadDataFromStorage, loadProfessors.
  rewrite Hp, json_professors_to_json. simpl.
  rewrite decide_True by (by apply size_pos_non_empty). simpl.
  unfold loadQuizzes. simpl. rewrite Hq, json_quizzes_to_json. simpl.
  unfold loadResults. simpl. by rewrite Hr, json_results_to_json.
Qed.

(** Loading when no professor is stored: the default is seeded and the
    state in memory is saved over whatever the storage held. *)
Lemma load_seeding (st : App) :
  storage st !! "quizAppProfessors" = None
  ∨ storage st !! "quizAppProfessors" = Some (JObj []) →
  loadDataFromStorage st
  = Some (with_results (results st)
            (with_quizzes (quizzes st)
               (saveDataToStorage (with_professors defaultProfessors st)))).
Proof.
  intros H. unfold loadDataFromStorage.
  assert (loadProfessors st
          = Some (saveDataToStorage (with_professors defaultProfessors st))) as ->.
  { unfold loadProfessors. destruct H as [-> | ->]; [done|]. simpl.
    by rewrite decide_False by (rewrite map_size_empty; lia). }
  simpl. unfold loadQuizzes.
  rewrite saved_quizzes, json_quizzes_to_json. simpl.
  unfold loadResults. simpl. rewrite lookup_insert_eq.
  by rewrite json_results_to_json.
Qed.

(** X5. A new application over a storage that holds no professor (the key
    is missing, or holds an object without keys) seeds the default
    professor and saves at once, before it reads the quizzes and results:
    whatever the storage held under those keys is overwritten by the empty
    records, and the application starts without any quiz or result. *)
Theorem load_without_professors_resets (s : gmap string json) :
  s !! "quizAppProfessors" = None ∨ s !! "quizAppProfessors" = Some (JObj []) →
  ∃ st', loadDataFromStorage (freshApp s) = Some st'
         ∧ professors st' = defaultProfessors
         ∧ quizzes st' = ∅
         ∧ results st' = []
         ∧ storage st' !! "quizAppProfessors" = Some (professors_to_json defaultProfessors)
         ∧ storage st' !! "quizAppQuizzes" = Some (JObj [])
         ∧ storage st' !! "quizAppResults" = Some (JArr []).
Proof.
  intros H. rewrite (load_seeding (freshApp s) H). eexists. split; [reflexivity|].
  split; [done|]. split; [done|]. split; [done|].
  split; [apply (saved_professors (with_professors defaultProfessors (freshApp s)))|].
  split.
  - etrans; [apply (saved_quizzes (with_professors defaultProfessors (freshApp s)))|].
    simpl. unfold quizzes_to_json. by rewrite map_to_list_empty.
  - apply (saved_results (with_professors defaultProfessors (freshApp s))).
Qed.

(** The storage saved from [appA], its professors removed: [quizA] is
    stored, and lost by the load. *)
Lemma load_loses_quizA :
  delete "quizAppProfessors" (storage (saveDataToStorage appA)) !! "quizAppQuizzes"
  = Some (quizzes_to_json {["ABC123" := quizA]})
  ∧ ∃ st', loadDataFromStorage
             (freshApp (delete "quizAppProfessors" (storage (saveDataToStorage appA))))
           = Some st'
           ∧ quizzes st' = ∅
           ∧ storage st' !! "quizAppQuizzes" = Some (JObj []).
Proof.
  split; [vm_compute; reflexivity|].
  destruct (load_without_professors_resets
              (delete "quizAppProfessors" (storage (saveDataToStorage appA))))
    as (st' & Hl & _ & Hq & _ & _ & Hs & _); [left; apply lookup_delete_eq|].
  exists st'. split; [exact Hl|]. split; [exact Hq | exact Hs].
Defined.

(** X6. Loading is idempotent: a state that came out of
    [loadDataFromStorage] loads as itself. What the load seeded or read is
    what the storage then holds. *)
Theorem load_is_idempotent (st st' : App) :
  loadDataFromStorage st = Some st' →
  loadDataFromStorage st' = Some st'.
Proof.
  destruct (storage st !! "quizAppProfessors") as [j|] eqn:Hj.
  - destruct (json_professors j) as [m|] eqn:Hm;
      [|by unfold loadDataFromStorage, loadProfessors; rewrite Hj, Hm].
    destruct (decide (0 < size m)) as [Hpos|Hz].
    + (* the stored professors are read *)
      unfold loadDataFromStorage at 1. unfold loadProfessors. rewrite Hj, Hm.
      simpl. rewrite decide_True by done.
      simpl. unfold loadQuizzes, loadResults. simpl.
      destruct (storage st !! "quizAppQuizzes") as [jq|] eqn:Hq; simpl.
      * destruct (json_quizzes jq) as [q|] eqn:Hdq; [|done]. simpl.
        destruct (storage st !! "quizAppResults") as [jr|] eqn:Hr; simpl.
        -- destruct (json_results jr) as [l|] eqn:Hdr; [|done]. simpl.
           intros [= <-]. unfold loadDataFromStorage, loadProfessors. simpl.
           rewrite Hj, Hm. simpl. rewrite decide_True by done. simpl.
           unfold loadQuizzes. simpl. rewrite Hq, Hdq. simpl.
           unfold loadResults. simpl. by rewrite Hr, Hdr.
        -- intros [= <-]. unfold loadDataFromStorage, loadProfessors. simpl.
           rewrite Hj, Hm. simpl. rewrite decide_True by done. simpl.
           unfold loadQuizzes. simpl. rewrite Hq, Hdq. simpl.
           unfold loadResults. simpl. by rewrite Hr.
      * destruct (storage st !! "quizAppResults") as [jr|] eqn:Hr; simpl.
        -- destruct (json_results jr) as [l|] eqn:Hdr; [|done]. simpl.
           intros [= <-]. unfold loadDataFromStorage, loadProfessors. simpl.
           rewrite Hj, Hm. simpl. rewrite decide_True by done. simpl.
           unfold loadQuizzes. simpl. rewrite Hq. simpl.
           unfold loadResults. simpl. by rewrite Hr, Hdr.
        -- intros [= <-]. unfold loadDataFromStorage, loadProfessors. simpl.
           rewrite Hj, Hm. simpl. rewrite decide_True by done. simpl.
           unfold loadQuizzes. simpl. rewrite Hq. simpl.
           unfold loadResults. simpl. by rewrite Hr.
    + (* the stored object has no key: the default is seeded *)
      assert (loadDataFromStorage st
              = Some (with_results (results st)
                        (with_quizzes (quizzes st)
                           (saveDataToStorage (with_professors defaultProfessors st)))))
        as ->.
      { unfold loadDataFromStorage, loadProfessors. rewrite Hj, Hm. simpl.
        rewrite decide_False by done. simpl. unfold loadQuizzes.
        rewrite saved_quizzes, json_quizzes_to_json. simpl.
        unfold loadResults. simpl. rewrite lookup_insert_eq.
        by rewrite json_results_to_json. }
      intros [= <-].
      rewrite (load_from_keys _ defaultProfessors (quizzes st) (results st));
        [done | | apply insert_non_empty | |].
      * apply (saved_professors (with_professors defaultProfessors st)).
      * apply (saved_quizzes (with_professors defaultProfessors st)).
      * apply (saved_results (with_professors defaultProfessors st)).
  - rewrite (load_seeding st) by (by left). intros [= <-].
    rewrite (load_from_keys _ defaultProfessors (quizzes st) (results st));
      [done | | apply insert_non_empty | |].
    + apply (saved_professors (with_professors defaultProfessors st)).
    + apply (saved_quizzes (with_professors defaultProfessors st)).
    + apply (saved_results (with_professors defaultProfessors st)).
Qed.

(** The first load over an empty storage, and a second one. *)
Lemma load_twice_empty_storage :
  ∃ st', loadDataFromStorage (freshApp ∅) = Some st'
         ∧ loadDataFromStorage st' = Some st'.
Proof.
  eexists. split; [apply load_seeding; by left|].
  apply (load_is_idempotent (freshApp ∅)). apply load_seeding. by left.
Defined.

(** X7. A submitted result survives a reload: [submitQuiz] saves before it
    returns, so a new application over the storage it leaves loads the
    results with the new one at the end (the professors not being empty),
    and the taker's identity is no longer in the storage. *)
Theorem submitted_result_reloads (cheated timedOut : bool) (st : App) (quiz : Quiz) :
  activeQuiz st = Some quiz →
  professors st ≠ ∅ →
  ∃ r st', results (submitQuiz cheated timedOut st) = results st ++ [r]
           ∧ loadDataFromStorage (freshApp (storage (submitQuiz cheated timedOut st)))
             = Some st'
           ∧ results st' = results st ++ [r]
           ∧ quizzes st' = quizzes st
           ∧ professors st' = professors st
           ∧ storage (submitQuiz cheated timedOut st) !! "currentStudentInfo" = None.
Proof.
  intros Hq Hne.
  destruct (submitQuiz_results cheated timedOut st quiz Hq) as (r & Hr & _).
  exists r.
  assert (∃ base, storage (submitQuiz cheated timedOut st)
                  = delete "currentStudentInfo"
                      (storage (saveDataToStorage (with_results (results st ++ [r]) base)))
                  ∧ professors base = professors st ∧ quizzes base = quizzes st)
    as (base & Hs & Hbp & Hbq).
  { revert Hr. unfold submitQuiz. rewrite Hq. simpl.
    intros [= <-]%app_inv_head. eexists (uninstallAntiCheating (stopTimer st)).
    done. }
  rewrite (load_from_keys _ (professors st) (quizzes st) (results st ++ [r])).
  - eexists. split; [done|]. split; [reflexivity|]. split; [done|].
    split; [done|]. split; [done|]. rewrite Hs. apply lookup_delete_eq.
  - simpl. rewrite Hs, lookup_delete_ne by done.
    rewrite saved_professors. simpl. by rewrite Hbp.
  - done.
  - simpl. rewrite Hs, lookup_delete_ne by done.
    rewrite saved_quizzes. simpl. by rewrite Hbq.
  - simpl. rewrite Hs, lookup_delete_ne by done. by rewrite saved_results.
Qed.

(** The session of [quizA] with one wrong answer, submitted and reloaded. *)
Lemma submitted_result_reloads_sessionA :
  activeQuiz sessionA_wrong = Some quizA
  ∧ ∃ r st', loadDataFromStorage
               (freshApp (storage (submitQuiz false false sessionA_wrong)))
             = Some st'
             ∧ results st' = results sessionA_wrong ++ [r].
Proof.
  split; [vm_compute; reflexivity|].
  destruct (submitted_result_reloads false false sessionA_wrong quizA)
    as (r & st' & _ & Hl & Hr & _);
    [vm_compute; reflexivity | |].
  { replace (professors sessionA_wrong) with defaultProfessors
      by (vm_compute; reflexivity).
    apply insert_non_empty. }
  exists r, st'. split; [exact Hl | exact Hr].
Defined.

(** ** More on sessions *)

(** No event of a session swaps the active quiz for another one. *)
Lemma handle_activeQuiz (e : SessionEvent) (st : App) :
  activeQuiz (handle e st) = activeQuiz st ∨ activeQuiz (handle e st) = None.
Proof.
  assert (∀ c t s, activeQuiz (submitQuiz c t s) = activeQuiz s
                   ∨ activeQuiz (submitQuiz c t s) = None) as Hsub.
  { intros c t s. unfold submitQuiz. destruct (activeQuiz s) eqn:E; [by right | by left]. }
  destruct e as [now|hidden|d|i| | |]; simpl.
  - unfold tick. destruct (quizTimerInterval st); [|by left].
    unfold updateTimer. case_decide; [apply Hsub | by left].
  - unfold visibilitychange, visibilityChangeHandler.
    destruct (antiCheating st); [|by left]. destruct hidden; [apply Hsub | by left].
  - unfold navigateQuestion. destruct (activeQuiz st) as [quiz|] eqn:Hq; [|by left].
    destruct (_ && _); [|by left]. simpl.
    destruct (reviewingResult st) as [r|] eqn:Hr.
    + unfold renderReviewQuestion. simpl. rewrite Hq, Hr.
      destruct (at_index _ _); by left.
    + unfold renderQuestion. simpl. rewrite Hq. destruct (at_index _ _); by left.
  - unfold selectOption. destruct (quizContainer (page st)) as [|radios|]; [by left| |by left].
    destruct (radios !! i) as [[v b]|]; by left.
  - unfold submitQuizBtnClicked, endReviewMode.
    destruct (reviewingResult st); [by right | by left].
  - unfold confirmSubmissionBtnClicked.
    destruct (Hsub false false (closeConfirmationModal st)) as [H|H]; [by left | by right].
  - by left.
Qed.

Lemma run_activeQuiz (es : list SessionEvent) (st : App) :
  activeQuiz (run es st) = activeQuiz st ∨ activeQuiz (run es st) = None.
Proof.
  revert st. induction es as [|e es IH]; intros st; [by left|].
  change (run (e :: es) st) with (run es (handle e st)).
  destruct (IH (handle e st)) as [H|H]; [|by right].
  rewrite H. apply handle_activeQuiz.
Qed.

(** The state a quiz with questions starts in, before its deadline. *)
Lemma startQuiz_started (now0 now1 : Z) (quiz : Quiz) (st : App) :
  questions quiz ≠ [] →
  (now1 < now0 + duration quiz * 60 * 1000)%Z →
  ∃ st', startQuiz now0 now1 quiz st = Normal st'
         ∧ activeQuiz st' = Some quiz
         ∧ quizTimerInterval st' = Some (now0 + duration quiz * 60 * 1000)%Z
         ∧ results st' = results st
         ∧ storage st' = storage st
         ∧ quizzes st' = quizzes st.
Proof.
  intros Hne Ht. unfold startQuiz. rewrite startTimer_before_deadline by done.
  unfold renderQuestion. simpl.
  destruct (questions quiz) as [|q qs] eqn:E; [done|]. simpl.
  eexists. split; [reflexivity|]. done.
Qed.

(** X8. From the start of a quiz with questions, started before its
    deadline outside of a review, whatever the taker and the browser then
    do, the application either has that quiz active or none; and while it
    is active the index is that of one of its questions, there is one
    answer cell per question, the interval is armed and the anti-cheating
    listeners are installed. *)
Theorem session_stays_in_order (now0 now1 : Z) (quiz : Quiz) (st : App)
    (es : list SessionEvent) :
  reviewingResult st = None →
  questions quiz ≠ [] →
  (now1 < now0 + duration quiz * 60 * 1000)%Z →
  (activeQuiz (run es (stateOf (startQuiz now0 now1 quiz st))) = Some quiz
   ∨ activeQuiz (run es (stateOf (startQuiz now0 now1 quiz st))) = None)
  ∧ (activeQuiz (run es (stateOf (startQuiz now0 now1 quiz st))) = Some quiz →
     (0 ≤ currentQuestionIndex (run es (stateOf (startQuiz now0 now1 quiz st)))
      < Z.of_nat (length (questions quiz)))%Z
     ∧ length (studentAnswers (run es (stateOf (startQuiz now0 now1 quiz st))))
       = length (questions quiz)
     ∧ is_Some (quizTimerInterval (run es (stateOf (startQuiz now0 now1 quiz st))))
     ∧ antiCheating (run es (stateOf (startQuiz now0 now1 quiz st))) = true).
Proof.
  intros Hr Hne Ht.
  pose proof (startQuiz_session_ok now0 now1 quiz st Hr Hne Ht) as Hok.
  destruct (startQuiz_started now0 now1 quiz st Hne Ht) as (st0 & Hst0 & Hq0 & _).
  rewrite Hst0 in *. simpl in *.
  pose proof (run_session_ok es st0 Hok) as [_ Hrun].
  split.
  - destruct (run_activeQuiz es st0) as [H|H]; [left; by rewrite H | by right].
  - intros Hq. rewrite Hq in Hrun. destruct Hrun as (Hac & Hti & Hi & Hl). done.
Qed.

(** [quizA] started at time 0, then an answer, two steps forward and a
    firing of the interval. *)
Lemma session_stays_in_order_quizA :
  questions quizA ≠ []
  ∧ (activeQuiz (run [SelectOption 1; Navigate 1; Navigate 1; Tick 100]
                   (stateOf (startQuiz 0 0 quizA appA))) = Some quizA
     ∨ activeQuiz (run [SelectOption 1; Navigate 1; Navigate 1; Tick 100]
                     (stateOf (startQuiz 0 0 quizA appA))) = None).
Proof.
  split; [done|].
  destruct (session_stays_in_order 0 0 quizA appA
              [SelectOption 1; Navigate 1; Navigate 1; Tick 100]) as [H _];
    [vm_compute; reflexivity | done | vm_compute; reflexivity | exact H].
Defined.

(** An event that keeps the session leaves the quiz active and adds no
    result. *)
Lemma handle_keeps_session (endTime : Z) (e : SessionEvent) (st : App) (quiz : Quiz) :
  session_ok st →
  activeQuiz st = Some quiz →
  quizTimerInterval st = Some endTime →
  keeps_session endTime e = true →
  activeQuiz (handle e st) = Some quiz
  ∧ quizTimerInterval (handle e st) = Some endTime
  ∧ results (handle e st) = results st
  ∧ storage (handle e st) = storage st.
Proof.
  intros [Hr Hs] Hq Ht Hk. rewrite Hq in Hs. destruct Hs as (Hac & _ & Hi & Hl).
  destruct e as [now|hidden|d|i| | |]; simpl in *.
  - apply Z.ltb_lt in Hk. unfold tick, updateTimer. rewrite Ht.
    by rewrite decide_False by lia.
  - destruct hidden; [done|]. unfold visibilitychange, visibilityChangeHandler.
    by rewrite Hac.
  - destruct (decide (0 ≤ currentQuestionIndex st + d
                      < Z.of_nat (length (questions quiz)))%Z) as [Hin|Hout].
    + destruct (navigateQuestion_accepts d st quiz Hq Hin) as [c ->]. done.
    + by rewrite (navigateQuestion_rejects d st quiz Hq Hout).
  - unfold selectOption. destruct (quizContainer (page st)) as [|radios|]; [done| |done].
    by destruct (radios !! i) as [[v b]|].
  - unfold submitQuizBtnClicked. by rewrite Hr.
  - done.
  - done.
Qed.

(** A run of events that keep the session leaves the quiz active and adds
    no result. *)
Lemma run_keeps_session (endTime : Z) (es : list SessionEvent)
    (st : App) (quiz : Quiz) :
  session_ok st →
  activeQuiz st = Some quiz →
  quizTimerInterval st = Some endTime →
  forallb (keeps_session endTime) es = true →
  activeQuiz (run es st) = Some quiz
  ∧ quizTimerInterval (run es st) = Some endTime
  ∧ results (run es st) = results st
  ∧ storage (run es st) = storage st.
Proof.
  revert st. induction es as [|e es IH]; intros st Hok Hq Ht Hall; [done|].
  simpl in Hall. apply andb_prop in Hall as [He Hes].
  destruct (handle_keeps_session endTime e st quiz Hok Hq Ht He) as (Hq' & Ht' & Hr' & Hs').
  destruct (IH (handle e st) (handle_session_ok e st Hok) Hq' Ht' Hes)
    as (Hq'' & Ht'' & Hr'' & Hs'').
  change (run (e :: es) st) with (run es (handle e st)).
  by rewrite Hr'', Hs'', Hr', Hs'.
Qed.

(** X9. A session ends on purpose only: as long as no click confirms the
    submission, no firing of the interval comes at or after the deadline
    and the document does not become hidden, the quiz stays active, no
    result is added and the storage is not written, whatever else
    happens. *)
Theorem session_ends_only_on_purpose (endTime : Z) (es : list SessionEvent)
    (st : App) (quiz : Quiz) :
  session_ok st →
  activeQuiz st = Some quiz →
  quizTimerInterval st = Some endTime →
  forallb (keeps_session endTime) es = true →
  activeQuiz (run es st) = Some quiz
  ∧ quizTimerInterval (run es st) = Some endTime
  ∧ results (run es st) = results st
  ∧ storage (run es st) = storage st.
Proof. apply run_keeps_session. Qed.

Lemma sessionA_ok : session_ok sessionA.
Proof.
  unfold session_ok. split; [vm_compute; reflexivity|].
  replace (activeQuiz sessionA) with (Some quizA) by (vm_compute; reflexivity).
  split; [vm_compute; reflexivity|]. split.
  - replace (quizTimerInterval sessionA) with (Some 60000%Z) by (vm_compute; reflexivity).
    by eexists.
  - replace (currentQuestionIndex sessionA) with 0%Z by (vm_compute; reflexivity).
    replace (studentAnswers sessionA) with [@None string; None]
      by (vm_compute; reflexivity).
    simpl. split; [lia | done].
Qed.

(** The taker of [sessionA] answers, opens and closes the confirmation
    dialog, steps on; the interval fires a millisecond before the deadline
    and the document becomes visible. *)
Lemma sessionA_goes_on :
  forallb (keeps_session 60000)
    [SelectOption 1; SubmitBtn; CancelBtn; Navigate 1; Tick 59999;
     VisibilityChange false] = true
  ∧ activeQuiz
      (run [SelectOption 1; SubmitBtn; CancelBtn; Navigate 1; Tick 59999;
            VisibilityChange false] sessionA) = Some quizA
  ∧ results
      (run [SelectOption 1; SubmitBtn; CancelBtn; Navigate 1; Tick 59999;
            VisibilityChange false] sessionA) = results sessionA.
Proof.
  split; [reflexivity|].
  destruct (session_ends_only_on_purpose 60000
              [SelectOption 1; SubmitBtn; CancelBtn; Navigate 1; Tick 59999;
               VisibilityChange false] sessionA quizA)
    as (H1 & _ & H2 & _);
    [exact sessionA_ok | vm_compute; reflexivity | vm_compute; reflexivity
    | reflexivity |].
  split; [exact H1 | exact H2].
Defined.

(** Writing an answer into a cell that exists replaces that cell. *)
Lemma set_index_insert (l : list (option string)) (i : Z) (v : option string) :
  (0 ≤ i < Z.of_nat (length l))%Z → set_index l i v = <[Z.to_nat i := v]> l.
Proof.
  intros Hi. unfold set_index. rewrite decide_True by lia. by rewrite decide_True by lia.
Qed.

(** A request within the range, outside a review, shows the question at
    the new index with the answer recorded for it checked. *)
Lemma navigateQuestion_shows (direction : Z) (st : App) (quiz : Quiz) (q : MCQ) :
  activeQuiz st = Some quiz →
  reviewingResult st = None →
  (0 ≤ currentQuestionIndex st + direction < Z.of_nat (length (questions quiz)))%Z →
  questions quiz !! Z.to_nat (currentQuestionIndex st + direction) = Some q →
  navigateQuestion direction st
  = Normal (with_page
              (with_quizContainer
                 (QuestionView
                    ((λ option,
                       (attributeValue option,
                        strict_eq (at_index (studentAnswers st)
                                     (currentQuestionIndex st + direction)) option))
                       <$> options q)))
              (with_currentQuestionIndex (currentQuestionIndex st + direction) st)).
Proof.
  intros Hq Hr Hin Hlk. unfold navigateQuestion. rewrite Hq.
  destruct (Z.leb_spec 0 (currentQuestionIndex st + direction)); [|lia].
  destruct (Z.ltb_spec (currentQuestionIndex st + direction)
              (Z.of_nat (length (questions quiz)))); [|lia].
  simpl. rewrite Hr. unfold renderQuestion. simpl. rewrite Hq.
  unfold at_index at 1. rewrite decide_True by lia. by rewrite Hlk.
Qed.

(** X10. An answer survives navigation. In a session showing a question
    whose markup holds the texts as written ([plain_question]), picking
    the option at position [i] replaces the answer cell of that question
    and no other; stepping to another question and back changes no cell,
    and the question is then shown again with exactly the options of the
    picked text checked. *)
Theorem answer_survives_navigation (st shown : App) (quiz : Quiz) (q : MCQ)
    (i : nat) (o : Option) (d : Z) :
  session_ok st →
  activeQuiz st = Some quiz →
  renderQuestion st = Normal shown →
  questions quiz !! Z.to_nat (currentQuestionIndex st) = Some q →
  plain_question q = true →
  options q !! i = Some o →
  (0 ≤ currentQuestionIndex st + d < Z.of_nat (length (questions quiz)))%Z →
  ∃ away back,
    navigateQuestion d (selectOption i shown) = Normal away
    ∧ navigateQuestion (- d) away = Normal back
    ∧ currentQuestionIndex back = currentQuestionIndex st
    ∧ studentAnswers back
      = <[Z.to_nat (currentQuestionIndex st) := Some o]> (studentAnswers st)
    ∧ (∀ j, j ≠ Z.to_nat (currentQuestionIndex st) →
            studentAnswers back !! j = studentAnswers st !! j)
    ∧ quizContainer (page back)
      = QuestionView ((λ option, (option, String.eqb o option)) <$> options q).
Proof.
  intros [Hr Hs] Hq Hshown Hlk Hplain Ho Hin. rewrite Hq in Hs.
  destruct Hs as (_ & _ & Hi & Hl).
  assert (at_index (questions quiz) (currentQuestionIndex st) = Some q) as Hat.
  { unfold at_index. rewrite decide_True by lia. done. }
  revert Hshown. unfold renderQuestion. rewrite Hq, Hat.
  rewrite plain_radios by done. intros [= <-].
  assert (selectOption i
            (with_page
               (with_quizContainer
                  (QuestionView
                     ((λ option,
                        (option,
                         strict_eq (at_index (studentAnswers st)
                                      (currentQuestionIndex st)) option))
                        <$> options q))) st)
          = with_studentAnswers
              (<[Z.to_nat (currentQuestionIndex st) := Some o]> (studentAnswers st))
              (with_page
                 (with_quizContainer
                    (QuestionView
                       ((λ option,
                          (option,
                           strict_eq (at_index (studentAnswers st)
                                        (currentQuestionIndex st)) option))
                          <$> options q))) st)) as ->.
  { unfold selectOption. simpl. rewrite list_lookup_fmap, Ho. simpl.
    unfold optionChanged. simpl. by rewrite set_index_insert by lia. }
  match goal with |- context [navigateQuestion d ?s] => set (sel := s) end.
  destruct (navigateQuestion_accepts d sel quiz Hq Hin) as [c Haway].
  eexists. eexists. split; [exact Haway|]. subst sel. simpl.
  split.
  - erewrite navigateQuestion_shows; [reflexivity|done|done| |]; simpl.
    + lia.
    + by replace (currentQuestionIndex st + d + - d)%Z
        with (currentQuestionIndex st) by lia.
  - simpl. split; [lia|]. split; [done|].
    split; [intros j Hj; by rewrite list_lookup_insert_ne|].
    replace (currentQuestionIndex st + d + - d)%Z
      with (currentQuestionIndex st) by lia.
    rewrite plain_radios by done.
    unfold at_index. rewrite decide_True by lia.
    rewrite list_lookup_insert_eq by lia. done.
Qed.

(** The first answer of [sessionA], a step forward and a step back. *)
Lemma answer_survives_navigation_sessionA :
  renderQuestion sessionA = Normal sessionA
  ∧ plain_question mcqParis = true
  ∧ ∃ away back,
      navigateQuestion 1 (selectOption 1 sessionA) = Normal away
      ∧ navigateQuestion (-1) away = Normal back
      ∧ studentAnswers back = [Some "Paris"; None].
Proof.
  split; [vm_compute; reflexivity|]. split; [vm_compute; reflexivity|].
  destruct (answer_survives_navigation sessionA sessionA quizA mcqParis 1 "Paris" 1)
    as (away & back & H1 & H2 & _ & H3 & _);
    [exact sessionA_ok | vm_compute; reflexivity | vm_compute; reflexivity
    | vm_compute; reflexivity | vm_compute; reflexivity | reflexivity
    | by vm_compute |].
  exists away, back. split; [exact H1|]. split; [exact H2|].
  rewrite H3. vm_compute. reflexivity.
Defined.

(** Without a string in any cell the loop finds no match. *)
Lemma scoreFrom_unanswered (n i : nat) (qs : list MCQ) (score : Z) :
  scoreFrom i qs (replicate n None) score = score.
Proof.
  revert i score. induction qs as [|q qs IH]; intros i score; simpl; [done|].
  rewrite IH. destruct (replicate n None !! i) as [a|] eqn:E; [|done].
  by apply lookup_replicate in E as [-> _].
Qed.

(** X11. A quiz started when its time is already up (a duration of zero or
    less, or a clock that has passed the deadline at the first reading of
    the timer) is submitted inside [startQuiz]: a result of score 0 with
    every answer unanswered is recorded as a time-out, no quiz is active
    afterwards, and yet the interval is armed and the quiz view, not the
    results view, is the one shown. *)
Theorem startQuiz_after_deadline (now0 now1 : Z) (quiz : Quiz) (st : App) :
  (now0 + duration quiz * 60 * 1000 ≤ now1)%Z →
  ∃ r st', startQuiz now0 now1 quiz st = Normal st'
           ∧ activeQuiz st' = None
           ∧ results st' = results st ++ [r]
           ∧ score r = 0%Z
           ∧ answers r = replicate (length (questions quiz)) None
           ∧ resultsSection (page st') = ResultCard r false true
           ∧ quizTimerInterval st' = Some (now0 + duration quiz * 60 * 1000)%Z
           ∧ antiCheating st' = false
           ∧ currentView (page st') = "student-quiz-section".
Proof.
  intros Hlate. unfold startQuiz, startTimer, updateTimer.
  rewrite decide_True by lia. unfold submitQuiz. simpl.
  eexists. eexists. split; [reflexivity|]. simpl.
  split; [done|]. split; [done|]. split; [|done].
  apply scoreFrom_unanswered.
Qed.

(** [quizA], one minute long, started with a clock that reads the
    deadline at the timer's first look. *)
Lemma startQuiz_after_deadline_quizA :
  (0 + duration quizA * 60 * 1000 ≤ 60000)%Z
  ∧ ∃ r st', startQuiz 0 60000 quizA appA = Normal st'
             ∧ activeQuiz st' = None
             ∧ results st' = results appA ++ [r]
             ∧ score r = 0%Z.
Proof.
  split; [by vm_compute|].
  destruct (startQuiz_after_deadline 0 60000 quizA appA)
    as (r & st' & H1 & H2 & H3 & H4 & _); [by vm_compute|].
  exists r, st'. split; [exact H1|]. split; [exact H2|]. split; [exact H3 | exact H4].
Defined.

(** X12. A quiz without questions, started before its deadline, makes
    [startQuiz] raise while it renders: by then the quiz is active, the
    listeners are installed and the interval is armed, and the view has not
    been switched. The interval is still live: its first firing at or after
    the deadline records a result of score 0 out of 0. *)
Theorem startQuiz_without_questions (now0 now1 : Z) (quiz : Quiz) (st : App) :
  questions quiz = [] →
  (now1 < now0 + duration quiz * 60 * 1000)%Z →
  ∃ st', startQuiz now0 now1 quiz st = Thrown st'
         ∧ activeQuiz st' = Some quiz
         ∧ antiCheating st' = true
         ∧ quizTimerInterval st' = Some (now0 + duration quiz * 60 * 1000)%Z
         ∧ currentView (page st') = currentView (page st)
         ∧ ∀ now, (now0 + duration quiz * 60 * 1000 ≤ now)%Z →
             ∃ r, results (tick now st') = results st ++ [r]
                  ∧ score r = 0%Z ∧ total r = 0%Z ∧ answers r = [].
Proof.
  intros He Ht. unfold startQuiz. rewrite startTimer_before_deadline by done.
  unfold renderQuestion. simpl. rewrite He. simpl.
  eexists. split; [reflexivity|]. simpl. split; [done|]. split; [done|].
  split; [done|]. split; [done|].
  intros now Hnow. unfold tick, updateTimer. simpl.
  rewrite decide_True by lia. unfold submitQuiz, computeScore. simpl. rewrite He.
  eexists. split; [reflexivity|]. simpl. done.
Qed.

Lemma startQuiz_quizEmpty :
  questions quizEmpty = []
  ∧ ∃ st', startQuiz 0 0 quizEmpty appA = Thrown st'
           ∧ activeQuiz st' = Some quizEmpty.
Proof.
  split; [reflexivity|].
  destruct (startQuiz_without_questions 0 0 quizEmpty appA)
    as (st' & H1 & H2 & _); [reflexivity | by vm_compute |].
  exists st'. split; [exact H1 | exact H2].
Defined.

(** X13. Asking to submit and then cancelling changes nothing: outside a
    review and with the dialog closed, a click on the submit button
    followed by a click on the cancel button gives back the very state,
    answers, index, timer and page included. *)
Theorem cancel_undoes_request (st : App) :
  reviewingResult st = None →
  confirmationModal (page st) = false →
  confirmationModal (page (submitQuizBtnClicked st)) = true
  ∧ cancelSubmissionBtnClicked (submitQuizBtnClicked st) = st.
Proof.
  intros Hr Hm. unfold submitQuizBtnClicked. rewrite Hr.
  split; [done|].
  destruct st as [cp pr qz rs aq sa ci ti rr so ac [cv qc rsec cm le]].
  simpl in *. by subst.
Qed.

Lemma cancel_undoes_request_sessionA :
  confirmationModal (page sessionA) = false
  ∧ cancelSubmissionBtnClicked (submitQuizBtnClicked sessionA) = sessionA.
Proof.
  split; [vm_compute; reflexivity|].
  destruct (cancel_undoes_request sessionA) as [_ H];
    [vm_compute; reflexivity | vm_compute; reflexivity | exact H].
Defined.

(** ** Review *)

(** Navigation writes the index and the question shown, nothing else. *)
Lemma navigateQuestion_frame (direction : Z) (st : App) :
  results (stateOf (navigateQuestion direction st)) = results st
  ∧ storage (stateOf (navigateQuestion direction st)) = storage st
  ∧ quizzes (stateOf (navigateQuestion direction st)) = quizzes st
  ∧ professors (stateOf (navigateQuestion direction st)) = professors st
  ∧ studentAnswers (stateOf (navigateQuestion direction st)) = studentAnswers st
  ∧ activeQuiz (stateOf (navigateQuestion direction st)) = activeQuiz st
  ∧ reviewingResult (stateOf (navigateQuestion direction st)) = reviewingResult st
  ∧ quizTimerInterval (stateOf (navigateQuestion direction st)) = quizTimerInterval st
  ∧ antiCheating (stateOf (navigateQuestion direction st)) = antiCheating st
  ∧ resultsSection (page (stateOf (navigateQuestion direction st)))
    = resultsSection (page st).
Proof.
  unfold navigateQuestion. destruct (activeQuiz st) as [quiz|] eqn:Hq; [|done].
  destruct (_ && _); [|done]. simpl.
  destruct (reviewingResult st) as [r|] eqn:Hr.
  - unfold renderReviewQuestion. simpl. rewrite Hq, Hr. by destruct (at_index _ _).
  - unfold renderQuestion. simpl. rewrite Hq. by destruct (at_index _ _).
Qed.

(** The review started from a result writes the active quiz, the result
    under review, the index, the question shown and the view. *)
Lemma startReviewMode_frame (r : StudentResult) (st : App) :
  results (stateOf (startReviewMode r st)) = results st
  ∧ storage (stateOf (startReviewMode r st)) = storage st
  ∧ quizzes (stateOf (startReviewMode r st)) = quizzes st
  ∧ professors (stateOf (startReviewMode r st)) = professors st
  ∧ quizTimerInterval (stateOf (startReviewMode r st)) = quizTimerInterval st
  ∧ antiCheating (stateOf (startReviewMode r st)) = antiCheating st
  ∧ resultsSection (page (stateOf (startReviewMode r st))) = resultsSection (page st)
  ∧ (reviewingResult (stateOf (startReviewMode r st)) = Some r
     ∨ stateOf (startReviewMode r st) = st).
Proof.
  unfold startReviewMode. destruct (quizzes st !! quizId r) as [quiz|]; [|by repeat split; try right].
  unfold renderReviewQuestion. simpl.
  destruct (at_index _ _); simpl; repeat split; by left.
Qed.

Lemma handlePage_at_rest (e : PageEvent) (st : App) :
  at_rest st →
  not_confirm e = true →
  at_rest (handlePage e st)
  ∧ results (handlePage e st) = results st
  ∧ storage (handlePage e st) = storage st
  ∧ quizzes (handlePage e st) = quizzes st
  ∧ professors (handlePage e st) = professors st
  ∧ shownResult (handlePage e st) = shownResult st.
Proof.
  intros (Ht & Hc & Hrev) Hn. unfold at_rest, shownResult.
  destruct e as [[now|hidden|d|i| | |]|]; simpl in *; try done.
  - unfold tick. by rewrite Ht.
  - unfold visibilitychange. by rewrite Hc.
  - destruct (navigateQuestion_frame d st)
      as (-> & -> & -> & -> & _ & Ha & -> & -> & -> & ->).
    rewrite Ha. done.
  - unfold selectOption. destruct (quizContainer (page st)) as [|radios|]; [done| |done].
    by destruct (radios !! i) as [[v b]|].
  - unfold submitQuizBtnClicked, endReviewMode.
    destruct (reviewingResult st) as [r|] eqn:Hr; [|simpl; by rewrite Hr].
    destruct Hrev as (c & t & Hcard). simpl. by rewrite Hcard.
  - unfold reviewAnswersBtnClicked.
    destruct (resultsSection (page st)) as [|r c t] eqn:Hcard; simpl.
    + by rewrite Hcard.
    + destruct (startReviewMode_frame r st)
        as (-> & -> & -> & -> & -> & -> & Hsec & [Hrr | Hsame]).
      * rewrite Hrr, Hsec, Hcard. repeat split; eauto.
      * rewrite Hsec, Hcard, Hsame. done.
Qed.

(** X14. A review changes no record. With no session in place, whatever
    is clicked or fired short of the confirmation button (starting a
    review, walking through it, going back, starting it again), the
    results, the quizzes, the professors and the storage stay as they
    are, and the results page keeps the same result. *)
Theorem review_changes_no_record (es : list PageEvent) (st : App) :
  at_rest st →
  forallb not_confirm es = true →
  results (runPage es st) = results st
  ∧ storage (runPage es st) = storage st
  ∧ quizzes (runPage es st) = quizzes st
  ∧ professors (runPage es st) = professors st
  ∧ shownResult (runPage es st) = shownResult st.
Proof.
  revert st. induction es as [|e es IH]; intros st Hrest Hall; [done|].
  simpl in Hall. apply andb_prop in Hall as [He Hes].
  destruct (handlePage_at_rest e st Hrest He) as (Hrest' & H1 & H2 & H3 & H4 & H5).
  change (runPage (e :: es) st) with (runPage es (handlePage e st)).
  destruct (IH (handlePage e st) Hrest' Hes) as (-> & -> & -> & -> & ->).
  done.
Qed.

(** After a submission made outside a review nothing of the session is in
    place. *)
Lemma submitQuiz_at_rest (cheated timedOut : bool) (st : App) (quiz : Quiz) :
  activeQuiz st = Some quiz →
  reviewingResult st = None →
  at_rest (submitQuiz cheated timedOut st).
Proof.
  intros Hq Hr. unfold at_rest, submitQuiz. rewrite Hq. simpl. by rewrite Hr.
Qed.

(** The submitted session of [quizA] is reviewed, walked through, left
    and reviewed again, while a stray firing of the interval comes in. *)
Lemma review_changes_no_record_sessionA :
  forallb not_confirm
    [ReviewAnswersBtn; OfSession (Navigate 1); OfSession (SelectOption 0);
     OfSession (Tick 999999); OfSession SubmitBtn; ReviewAnswersBtn] = true
  ∧ results
      (runPage
         [ReviewAnswersBtn; OfSession (Navigate 1); OfSession (SelectOption 0);
          OfSession (Tick 999999); OfSession SubmitBtn; ReviewAnswersBtn]
         (submitQuiz false false sessionA_wrong))
    = results (submitQuiz false false sessionA_wrong).
Proof.
  split; [reflexivity|].
  destruct (review_changes_no_record
              [ReviewAnswersBtn; OfSession (Navigate 1); OfSession (SelectOption 0);
               OfSession (Tick 999999); OfSession SubmitBtn; ReviewAnswersBtn]
              (submitQuiz false false sessionA_wrong)) as (H & _);
    [|reflexivity|exact H].
  apply (submitQuiz_at_rest false false sessionA_wrong quizA); vm_compute; reflexivity.
Defined.

(** X15. Review and back. From the results page showing a result whose
    quiz is stored, the review button makes that quiz active at its first
    question with the result under review; the button back to the results
    then leaves no quiz active, nothing under review, and shows the same
    result again, but announced as a plain submission whatever ended the
    session. When the quiz of the result is not stored, the review button
    does nothing. *)
Theorem review_and_back (st : App) (r : StudentResult) (c t : bool) :
  resultsSection (page st) = ResultCard r c t →
  (quizzes st !! quizId r = None → reviewAnswersBtnClicked st = Normal st)
  ∧ (∀ quiz, quizzes st !! quizId r = Some quiz →
       activeQuiz (stateOf (reviewAnswersBtnClicked st)) = Some quiz
       ∧ reviewingResult (stateOf (reviewAnswersBtnClicked st)) = Some r
       ∧ currentQuestionIndex (stateOf (reviewAnswersBtnClicked st)) = 0%Z
       ∧ activeQuiz (submitQuizBtnClicked (stateOf (reviewAnswersBtnClicked st))) = None
       ∧ reviewingResult (submitQuizBtnClicked (stateOf (reviewAnswersBtnClicked st)))
         = None
       ∧ resultsSection (page (submitQuizBtnClicked (stateOf (reviewAnswersBtnClicked st))))
         = ResultCard r false false
       ∧ currentView (page (submitQuizBtnClicked (stateOf (reviewAnswersBtnClicked st))))
         = "results-section"
       ∧ results (submitQuizBtnClicked (stateOf (reviewAnswersBtnClicked st)))
         = results st).
Proof.
  intros Hcard. unfold reviewAnswersBtnClicked. rewrite Hcard.
  unfold startReviewMode. split; [by intros ->|].
  intros quiz ->. unfold renderReviewQuestion. simpl.
  destruct (at_index (questions quiz) 0) as [q|]; simpl; done.
Qed.

(** The result of [sessionA_right], ended by a hidden document, reviewed
    and left: the card no longer says why the session ended. *)
Lemma review_and_back_sessionA :
  resultsSection (page (visibilitychange true sessionA_right))
  = ResultCard
      {| quizId := "ABC123"; studentName := Some "Ann"; studentRoll := Some "17";
         studentEmail := Some "ann@example.org"; score := 0; total := 2;
         answers := [Some "Paris"; Some "42"] |} true false
  ∧ resultsSection
      (page (submitQuizBtnClicked
               (stateOf (reviewAnswersBtnClicked (visibilitychange true sessionA_right)))))
    = ResultCard
        {| quizId := "ABC123"; studentName := Some "Ann"; studentRoll := Some "17";
           studentEmail := Some "ann@example.org"; score := 0; total := 2;
           answers := [Some "Paris"; Some "42"] |} false false.
Proof.
  split; [vm_compute; reflexivity|].
  destruct (review_and_back (visibilitychange true sessionA_right)
              {| quizId := "ABC123"; studentName := Some "Ann"; studentRoll := Some "17";
                 studentEmail := Some "ann@example.org"; score := 0; total := 2;
                 answers := [Some "Paris"; Some "42"] |} true false) as [_ H].
  - vm_compute; reflexivity.
  - destruct (H quizA) as (_ & _ & _ & _ & _ & Hc & _); [vm_compute; reflexivity|].
    exact Hc.
Defined.

(** X16. What a review marks. With the quiz's question at the index and
    the reviewed answer for it, [renderReviewQuestion] lists one item per
    option, in order and with the option's text. When the answer is the
    correct text, no item is marked incorrect and the selected items are
    the correct ones; when it is another text, exactly the items of that
    text are marked incorrect, none of them correct; when the question was
    left unanswered, no item is selected or marked incorrect. *)
Theorem review_marks (st : App) (quiz : Quiz) (result : StudentResult) (q : MCQ) :
  activeQuiz st = Some quiz →
  reviewingResult st = Some result →
  at_index (questions quiz) (currentQuestionIndex st) = Some q →
  ∃ shown items,
    renderReviewQuestion st = Normal shown
    ∧ quizContainer (page shown) = ReviewView items
    ∧ item_text <$> items = options q
    ∧ (at_index (answers result) (currentQuestionIndex st) = Some (Some (correctAnswer q)) →
       Forall (λ it, item_incorrect it = false ∧ item_selected it = item_correct it) items)
    ∧ (∀ w, at_index (answers result) (currentQuestionIndex st) = Some (Some w) →
            w ≠ correctAnswer q →
            Forall (λ it, (item_incorrect it = true ↔ item_text it = w)
                          ∧ (item_incorrect it = true → item_correct it = false)
                          ∧ (item_correct it = true ↔ item_text it = correctAnswer q))
              items)
    ∧ (at_index (answers result) (currentQuestionIndex st) = Some None
       ∨ at_index (answers result) (currentQuestionIndex st) = None →
       Forall (λ it, item_selected it = false ∧ item_incorrect it = false) items).
Proof.
  intros Hq Hr Hat. unfold renderReviewQuestion. rewrite Hq, Hr, Hat.
  eexists. eexists. split; [reflexivity|]. simpl. split; [reflexivity|].
  split.
  { rewrite <- list_fmap_compose. by rewrite <- (list_fmap_id (options q)) at 2. }
  split; [|split].
  - intros ->. apply Forall_fmap, Forall_true. intros o. simpl.
    rewrite (String.eqb_sym (correctAnswer q) o).
    by destruct (String.eqb o (correctAnswer q)).
  - intros w -> Hw. apply Forall_fmap, Forall_true. intros o. simpl.
    destruct (String.eqb_spec w o) as [->|Hwo];
      destruct (String.eqb_spec o (correctAnswer q)) as [Hoc|Hoc]; simpl;
      split; try split; try done; try (split; congruence).
  - intros [-> | ->]; apply Forall_fmap, Forall_true; by intros o.
Qed.

(** The second question of [quizA] under review, answered 41. *)
Lemma review_marks_reviewA :
  at_index (questions quizA) (currentQuestionIndex reviewA) = Some mcq42
  ∧ ∃ shown items, renderReviewQuestion reviewA = Normal shown
                   ∧ quizContainer (page shown) = ReviewView items
                   ∧ item_text <$> items = ["40"; "41"; "42"; "43"].
Proof.
  split; [vm_compute; reflexivity|].
  destruct (review_marks reviewA quizA
              {| quizId := "ABC123"; studentName := Some "Ann"; studentRoll := Some "17";
                 studentEmail := Some "ann@example.org"; score := 1; total := 2;
                 answers := [Some "Paris"; Some "41"] |} mcq42)
    as (shown & items & H1 & H2 & H3 & _); [vm_compute; reflexivity..|].
  exists shown, items. split; [exact H1|]. split; [exact H2 | exact H3].
Defined.

(** ** More on quiz creation *)

Lemma upper_ascii_idempotent (c : ascii) : upper_ascii (upper_ascii c) = upper_ascii c.
Proof. destruct c as [[] [] [] [] [] [] [] []]; vm_compute; reflexivity. Qed.

Lemma toUpperCase_idempotent (s : string) : toUpperCase (toUpperCase s) = toUpperCase s.
Proof.
  induction s as [|c s IH]; simpl; [done|]. by rewrite upper_ascii_idempotent, IH.
Qed.

(** The loop skips the draws whose code is taken. *)
Lemma newQuizIdLoop_skips (pre post : list string) (r : string) (qs : gmap string Quiz) :
  Forall (λ r', is_Some (qs !! toUpperCase (js_substring 2 8 r'))) pre →
  qs !! toUpperCase (js_substring 2 8 r) = None →
  newQuizIdLoop (pre ++ r :: post) qs = Some (toUpperCase (js_substring 2 8 r)).
Proof.
  intros Hpre Hfree. induction Hpre as [|r' pre [q Hq] _ IH]; simpl.
  - by rewrite Hfree.
  - by rewrite Hq.
Qed.

Lemma keyed_by_id_insert (m : gmap string Quiz) (q : Quiz) :
  keyed_by_id m → keyed_by_id (<[id q := q]> m).
Proof.
  intros Hm k q'. rewrite lookup_insert. case_decide; [by intros [= <-]|apply Hm].
Qed.

(** X17. Creation retries until a code is free. When the codes of the
    first draws are all taken and the next draw gives a free one, the quiz
    is stored under that code with the code as its [id]; every quiz stored
    before is still stored, the quizzes are saved, and if every quiz was
    stored under its own [id] this still holds. *)
Theorem creation_retries_until_free (pre post : list string) (r title : string)
    (questions : list MCQ) (duration : Z) (st : App) :
  Forall (λ r', is_Some (quizzes st !! toUpperCase (js_substring 2 8 r'))) pre →
  quizzes st !! toUpperCase (js_substring 2 8 r) = None →
  ∃ st', createAndSaveQuiz (pre ++ r :: post) title questions duration st = Some st'
         ∧ quizzes st'
           = <[toUpperCase (js_substring 2 8 r) :=
                 {| id := toUpperCase (js_substring 2 8 r); title := title;
                    questions := questions; duration := duration |}]> (quizzes st)
         ∧ (∀ k q, quizzes st !! k = Some q → quizzes st' !! k = Some q)
         ∧ storage st' !! "quizAppQuizzes" = Some (quizzes_to_json (quizzes st'))
         ∧ (keyed_by_id (quizzes st) → keyed_by_id (quizzes st')).
Proof.
  intros Hpre Hfree. unfold createAndSaveQuiz.
  rewrite (newQuizIdLoop_skips pre post r (quizzes st) Hpre Hfree). simpl.
  eexists. split; [reflexivity|]. split; [done|]. split; [|split].
  - intros k q Hk. simpl. rewrite lookup_insert_ne; [done|]. congruence.
  - rewrite saved_quizzes. done.
  - intros Hkeyed. simpl.
    apply (keyed_by_id_insert (quizzes st)
             {| id := toUpperCase (js_substring 2 8 r); title := title;
                questions := questions; duration := duration |} Hkeyed).
Qed.

(** The first draw gives the code of [quizA], the second a free one. *)
Lemma creation_retries_appA :
  is_Some (quizzes appA !! toUpperCase (js_substring 2 8 "0.abc123zzz"))
  ∧ ∃ st', createAndSaveQuiz ["0.abc123zzz"; "0.k3v9qa71x"] "Second" [mcq42] 5 appA
           = Some st'
           ∧ quizzes st' !! "K3V9QA" = Some {| id := "K3V9QA"; title := "Second";
                                               questions := [mcq42]; duration := 5 |}
           ∧ quizzes st' !! "ABC123" = Some quizA.
Proof.
  split; [exists quizA; vm_compute; reflexivity|].
  destruct (creation_retries_until_free ["0.abc123zzz"] [] "0.k3v9qa71x" "Second"
              [mcq42] 5 appA) as (st' & H1 & H2 & H3 & _).
  - constructor; [|constructor]. exists quizA. vm_compute. reflexivity.
  - vm_compute. reflexivity.
  - exists st'. split; [exact H1|]. split.
    + rewrite H2. apply lookup_insert_eq.
    + apply H3. vm_compute. reflexivity.
Defined.

(** ** Quizzes written by hand *)

Lemma manualCorrect_listed (f : ManualQuestion) (r : Radio) :
  manualCorrect f r ∈ manualOptions f.
Proof. destruct r; unfold manualOptions; simpl; set_solver. Qed.

Lemma manualMCQs_well_formed (fs : list ManualQuestion) (qs : list MCQ) :
  manualMCQs fs = Some qs →
  length qs = length fs ∧ Forall well_formed_manual qs.
Proof.
  revert qs. induction fs as [|f fs IH]; intros qs; simpl.
  - by intros [= <-].
  - destruct (manual_checked f) as [r|]; [|done].
    destruct (is_empty_string (manual_text f)) eqn:Et; [done|].
    destruct (is_empty_string (manual_option0 f)) eqn:E0; [done|].
    destruct (is_empty_string (manual_option1 f)) eqn:E1; [done|].
    destruct (is_empty_string (manual_option2 f)) eqn:E2; [done|].
    destruct (is_empty_string (manual_option3 f)) eqn:E3; [done|]. simpl.
    destruct (manualMCQs fs) as [qs'|]; [|done]. simpl. intros [= <-].
    destruct (IH qs' eq_refl) as [Hl Hf]. split; [simpl; by rewrite Hl|].
    constructor; [|done]. unfold well_formed_manual. simpl.
    split; [by intros H; rewrite H in Et|]. split; [done|].
    split; [|split; [apply manualCorrect_listed | done]].
    unfold manualOptions.
    repeat constructor; intros H; rewrite H in *; discriminate.
Qed.

(** X18. A quiz saved from the form is well formed. When [saveManualQuiz]
    saves, the quiz is stored under a code that was free, with that code as
    its [id] and the form's title, which is not empty; its duration is at
    least one minute; it has one question per block of the form and at
    least one; each question has a text, four options none of which is
    empty, a correct answer that is one of its options, and no
    explanation. *)
Theorem manual_quiz_is_well_formed (draws : list string) (form : ManualForm)
    (st st' : App) :
  saveManualQuiz draws form st = Created st' →
  ∃ code quiz,
    quizzes st !! code = None
    ∧ quizzes st' = <[code := quiz]> (quizzes st)
    ∧ id quiz = code
    ∧ title quiz = manual_title form
    ∧ title quiz ≠ ""
    ∧ (1 ≤ duration quiz)%Z
    ∧ questions quiz ≠ []
    ∧ length (questions quiz) = length (manual_questions form)
    ∧ Forall well_formed_manual (questions quiz).
Proof.
  unfold saveManualQuiz.
  destruct (manualMCQs (manual_questions form)) as [qs|] eqn:Hqs; [|done].
  destruct (manual_duration form) as [d|]; [|done].
  destruct (is_empty_string (manual_title form)) eqn:Et; [done|].
  destruct (Nat.eqb_spec (length qs) 0) as [|Hlen]; [done|].
  destruct (Z.eqb_spec d 0) as [|Hd0]; [done|].
  destruct (Z.ltb_spec d 1) as [|Hd1]; [done|]. simpl.
  unfold createAndSaveQuiz.
  destruct (newQuizIdLoop draws (quizzes st)) as [code|] eqn:Hcode; [|done].
  simpl. intros [= <-].
  apply newQuizIdLoop_free in Hcode as [Hfree _].
  destruct (manualMCQs_well_formed _ _ Hqs) as [Hl Hwf].
  eexists. eexists. split; [exact Hfree|]. split; [reflexivity|]. simpl.
  split; [done|]. split; [done|].
  split; [by intros H; rewrite H in Et|]. split; [done|].
  split; [by destruct qs|]. done.
Qed.

(** [formA] saved over [appA]. *)
Lemma manual_quiz_formA :
  saveManualQuiz ["0.r1v3rsabc"] formA appA = Created createdA
  ∧ ∃ code quiz, quizzes createdA = <[code := quiz]> (quizzes appA)
                 ∧ Forall well_formed_manual (questions quiz).
Proof.
  split; [vm_compute; reflexivity|].
  destruct (manual_quiz_is_well_formed ["0.r1v3rsabc"] formA appA createdA)
    as (code & quiz & _ & Hq & _ & _ & _ & _ & _ & _ & Hwf); [vm_compute; reflexivity|].
  exists code, quiz. split; [exact Hq | exact Hwf].
Defined.

(** ** From the login to the result *)

(** A login with all fields filled in and the code of a stored quiz
    stores the taker's identity and starts the quiz. *)
Lemma handleStudentLogin_starts (now0 now1 : Z) (typed name roll email : string)
    (st : App) (quiz : Quiz) :
  toUpperCase typed ≠ "" → name ≠ "" → roll ≠ "" → email ≠ "" →
  quizzes st !! toUpperCase typed = Some quiz →
  handleStudentLogin now0 now1 typed name roll email st
  = startQuiz now0 now1 quiz
      (with_storage
         (<["currentStudentInfo" :=
              JObj [("name", JStr name); ("roll", JStr roll); ("email", JStr email)]]>
            (storage st))
         st).
Proof.
  intros Hc Hn Hr He Hq. unfold handleStudentLogin.
  by rewrite !is_empty_string_false, Hq.
Qed.

(** X19. A created quiz can be taken, if its code is not empty. After
    [createAndSaveQuiz] the quiz is stored under a code that upper-casing
    leaves as it is. If the code is not empty, a login that types it in
    any letter case with all fields filled in starts that quiz; if the code
    is empty, no login reaches the quiz: every code that upper-cases to it
    is turned away as a missing field. *)
Theorem created_quiz_can_be_taken (draws : list string) (title : string)
    (questions : list MCQ) (duration : Z) (st st' : App) :
  createAndSaveQuiz draws title questions duration st = Some st' →
  ∃ code,
    quizzes st' !! code
    = Some {| id := code; title := title; questions := questions; duration := duration |}
    ∧ toUpperCase code = code
    ∧ (code ≠ "" →
       ∀ now0 now1 typed name roll email,
         toUpperCase typed = code → name ≠ "" → roll ≠ "" → email ≠ "" →
         handleStudentLogin now0 now1 typed name roll email st'
         = startQuiz now0 now1
             {| id := code; title := title; questions := questions;
                duration := duration |}
             (with_storage
                (<["currentStudentInfo" :=
                     JObj [("name", JStr name); ("roll", JStr roll);
                           ("email", JStr email)]]> (storage st'))
                st'))
    ∧ (code = "" →
       ∀ now0 now1 typed name roll email,
         toUpperCase typed = code →
         handleStudentLogin now0 now1 typed name roll email st'
         = Normal (showLoginError "Please fill in all fields." st')).
Proof.
  unfold createAndSaveQuiz.
  destruct (newQuizIdLoop draws (quizzes st)) as [code|] eqn:Hcode; [|done].
  simpl. intros [= <-].
  apply newQuizIdLoop_free in Hcode as (_ & r & _ & ->).
  eexists. split; [apply lookup_insert_eq|].
  split; [apply toUpperCase_idempotent|]. split.
  - intros Hne now0 now1 typed name roll email Ht Hn Hr He.
    apply handleStudentLogin_starts; try done; rewrite Ht; [done|].
    apply lookup_insert_eq.
  - intros Hempty now0 now1 typed name roll email Ht.
    unfold handleStudentLogin. by rewrite Ht, Hempty.
Qed.

(** The quiz of [createdA]. *)
Lemma created_quiz_can_be_taken_createdA :
  createAndSaveQuiz ["0.r1v3rsabc"] "Rivers"
    [{| question := "Which river runs through Paris?";
        options := ["Loire"; "Seine"; "Rhone"; "Garonne"];
        correctAnswer := "Seine"; explanation := None |}] 10 appA
  = Some createdA
  ∧ ∃ code,
      quizzes createdA !! code
      = Some {| id := code; title := "Rivers";
                questions :=
                  [{| question := "Which river runs through Paris?";
                      options := ["Loire"; "Seine"; "Rhone"; "Garonne"];
                      correctAnswer := "Seine"; explanation := None |}];
                duration := 10 |}
      ∧ toUpperCase code = code.
Proof.
  split; [vm_compute; reflexivity|].
  destruct (created_quiz_can_be_taken ["0.r1v3rsabc"] "Rivers"
              [{| question := "Which river runs through Paris?";
                  options := ["Loire"; "Seine"; "Rhone"; "Garonne"];
                  correctAnswer := "Seine"; explanation := None |}] 10 appA createdA)
    as (code & Hq & Hu & _); [vm_compute; reflexivity|].
  exists code. split; [exact Hq | exact Hu].
Defined.

(** What a submission records about the taker. *)
Lemma submitQuiz_identity (cheated timedOut : bool) (st : App) (quiz : Quiz)
    (name roll email : string) :
  activeQuiz st = Some quiz →
  storage st !! "currentStudentInfo"
  = Some (JObj [("name", JStr name); ("roll", JStr roll); ("email", JStr email)]) →
  ∃ r, results (submitQuiz cheated timedOut st) = results st ++ [r]
       ∧ quizId r = id quiz
       ∧ studentName r = Some name
       ∧ studentRoll r = Some roll
       ∧ studentEmail r = Some email
       ∧ total r = Z.of_nat (length (questions quiz))
       ∧ storage (submitQuiz cheated timedOut st) !! "currentStudentInfo" = None.
Proof.
  intros Hq Hinfo. unfold submitQuiz. rewrite Hq. unfold studentInfo. simpl.
  rewrite Hinfo. eexists. split; [reflexivity|]. simpl.
  repeat split. apply lookup_delete_eq.
Qed.

(** X20. The result carries the identity given at the login. After a
    login that starts a quiz with questions before its deadline, and
    whatever the taker does short of ending the session, a confirmed
    submission appends one result to those there were before the login:
    it names the quiz by its [id] and holds the name, roll number and
    email typed at the login and the number of questions as total; the
    identity is then removed from the storage. *)
Theorem result_records_login_identity (now0 now1 : Z)
    (typed name roll email : string) (st : App) (quiz : Quiz)
    (es : list SessionEvent) :
  toUpperCase typed ≠ "" → name ≠ "" → roll ≠ "" → email ≠ "" →
  quizzes st !! toUpperCase typed = Some quiz →
  reviewingResult st = None →
  questions quiz ≠ [] →
  (now1 < now0 + duration quiz * 60 * 1000)%Z →
  forallb (keeps_session (now0 + duration quiz * 60 * 1000)) es = true →
  ∃ r,
    results
      (confirmSubmissionBtnClicked
         (run es (stateOf (handleStudentLogin now0 now1 typed name roll email st))))
    = results st ++ [r]
    ∧ quizId r = id quiz
    ∧ studentName r = Some name
    ∧ studentRoll r = Some roll
    ∧ studentEmail r = Some email
    ∧ total r = Z.of_nat (length (questions quiz))
    ∧ storage
        (confirmSubmissionBtnClicked
           (run es (stateOf (handleStudentLogin now0 now1 typed name roll email st))))
      !! "currentStudentInfo" = None.
Proof.
  intros Hc Hn Hr He Hq Hrev Hne Ht Hes.
  rewrite (handleStudentLogin_starts now0 now1 typed name roll email st quiz) by done.
  set (st0 := with_storage _ st).
  pose proof (startQuiz_session_ok now0 now1 quiz st0 Hrev Hne Ht) as Hok.
  destruct (startQuiz_started now0 now1 quiz st0 Hne Ht)
    as (s & Hs & Hqs & Hts & Hrs & Hss & _).
  rewrite Hs in *. simpl in Hok |- *.
  destruct (run_keeps_session _ es s quiz Hok Hqs Hts Hes) as (Hq' & _ & Hr' & Hs').
  destruct (submitQuiz_identity false false (closeConfirmationModal (run es s)) quiz
              name roll email) as (r & H1 & H2); [done| |].
  { simpl. rewrite Hs', Hss. subst st0. simpl. apply lookup_insert_eq. }
  exists r. unfold confirmSubmissionBtnClicked. rewrite H1. simpl.
  rewrite Hr', Hrs. subst st0. simpl. done.
Qed.

(** Ann logs in with the code of [quizA] in lower case, answers both
    questions and confirms. *)
Lemma result_records_identity_ann :
  quizzes appA !! toUpperCase "abc123" = Some quizA
  ∧ ∃ r,
      results
        (confirmSubmissionBtnClicked
           (run [SelectOption 1; Navigate 1; SelectOption 2]
              (stateOf (handleStudentLogin 0 0 "abc123" "Ann" "17" "ann@example.org"
                          appA))))
      = results appA ++ [r]
      ∧ quizId r = "ABC123"
      ∧ studentName r = Some "Ann"
      ∧ studentRoll r = Some "17"
      ∧ studentEmail r = Some "ann@example.org".
Proof.
  split; [vm_compute; reflexivity|].
  destruct (result_records_login_identity 0 0 "abc123" "Ann" "17" "ann@example.org"
              appA quizA [SelectOption 1; Navigate 1; SelectOption 2])
    as (r & H1 & H2 & H3 & H4 & H5 & _);
    [by vm_compute | done | done | done | vm_compute; reflexivity
    | vm_compute; reflexivity | done | by vm_compute | vm_compute; reflexivity |].
  exists r. split; [exact H1|]. split; [exact H2|]. split; [exact H3|].
  split; [exact H4 | exact H5].
Defined.

(** ** The professor's views *)

(** X21. The professor sees a submission. For a session on a quiz that is
    stored under its [id], the table of that quiz shown to the professor
    after the submission is the table shown before with one row added at
    the end, the row of the new result with its roll number, name, email,
    score and total; the tables of the other quizzes are unchanged. *)
Theorem professor_sees_submission (cheated timedOut : bool) (st : App)
    (quiz stored : Quiz) :
  activeQuiz st = Some quiz →
  quizzes st !! id quiz = Some stored →
  ∃ r rows,
    results (submitQuiz cheated timedOut st) = results st ++ [r]
    ∧ renderProfessorResults (id quiz) st = Some (title stored, rows)
    ∧ renderProfessorResults (id quiz) (submitQuiz cheated timedOut st)
      = Some (title stored, rows ++ [resultRow r])
    ∧ row_score (resultRow r)
      = (if cheated then 0%Z else computeScore quiz (studentAnswers st))
    ∧ row_total (resultRow r) = Z.of_nat (length (questions quiz))
    ∧ (∀ other, other ≠ id quiz →
         renderProfessorResults other (submitQuiz cheated timedOut st)
         = renderProfessorResults other st).
Proof.
  intros Hq Hstored.
  destruct (submitQuiz_results cheated timedOut st quiz Hq)
    as (r & Hr & _ & Hid & Hs & Ht & _).
  assert (quizzes (submitQuiz cheated timedOut st) = quizzes st) as Hqz.
  { unfold submitQuiz. by rewrite Hq. }
  exists r. eexists. split; [exact Hr|].
  unfold renderProfessorResults. rewrite Hqz, Hr, Hstored. simpl.
  split; [reflexivity|]. split; [|split; [done|split; [done|]]].
  - rewrite filter_app, fmap_app. do 3 f_equal.
    by rewrite filter_cons_True by done.
  - intros other Hne. destruct (quizzes st !! other); [|done]. simpl.
    rewrite filter_app, filter_cons_False by congruence.
    by rewrite filter_nil, app_nil_r.
Qed.

(** The session of [quizA] with one wrong answer, as the professor sees
    it after the submission. *)
Lemma professor_sees_sessionA :
  quizzes sessionA_wrong !! id quizA = Some quizA
  ∧ ∃ r rows,
      renderProfessorResults (id quizA) sessionA_wrong = Some (title quizA, rows)
      ∧ renderProfessorResults (id quizA) (submitQuiz false false sessionA_wrong)
        = Some (title quizA, rows ++ [resultRow r]).
Proof.
  split; [vm_compute; reflexivity|].
  destruct (professor_sees_submission false false sessionA_wrong quizA quizA)
    as (r & rows & _ & H1 & H2 & _); [vm_compute; reflexivity..|].
  exists r, rows. split; [exact H1 | exact H2].
Defined.

(** [indexOf] finds the first position of a text that the list holds. *)
Lemma indexOf_first (x : string) (l : list string) (i : nat) :
  l !! i = Some x →
  ∃ first : nat, indexOf x l = Z.of_nat first
                 ∧ (first ≤ i)%nat
                 ∧ l !! first = Some x
                 ∧ ∀ j, (j < first)%nat → l !! j ≠ Some x.
Proof.
  revert i. induction l as [|y l IH]; intros i Hi; [done|]. simpl.
  destruct (String.eqb_spec y x) as [->|Hyx].
  - exists 0. split; [done|]. split; [lia|]. split; [done|]. intros j Hj. lia.
  - destruct i as [|i]; [simpl in Hi; congruence|]. simpl in Hi.
    destruct (IH i Hi) as (first & Hidx & Hle & Hlk & Hmin).
    exists (S first). rewrite Hidx.
    destruct (Z.ltb_spec (Z.of_nat first) 0); [lia|].
    split; [lia|]. split; [lia|]. split; [done|].
    intros [|j] Hj; simpl; [congruence | apply Hmin; lia].
Qed.

(** X22. The letters of the professor's review. Each option of a stored
    quiz is listed with its text and marked correct exactly when the text
    is the correct answer. Its letter is taken from the first position in
    the question that holds the same text: two options of the same text
    carry the same letter, and only in a question without repeated texts
    does every option carry the letter of its own position. *)
Theorem professor_review_letters (shownId : string) (st : App) (quiz : Quiz) :
  quizzes st !! shownId = Some quiz →
  ∃ cards,
    renderProfessorQuizReview shownId st = Some (title quiz, cards)
    ∧ length cards = length (questions quiz)
    ∧ ∀ k q i o,
        questions quiz !! k = Some q →
        options q !! i = Some o →
        ∃ card item (first : nat),
          cards !! k = Some card
          ∧ card_question card = question q
          ∧ card_options card !! i = Some item
          ∧ listed_text item = o
          ∧ (listed_correct item = true ↔ o = correctAnswer q)
          ∧ listed_letter item = (65 + Z.of_nat first)%Z
          ∧ (first ≤ i)%nat
          ∧ options q !! first = Some o
          ∧ (∀ j, (j < first)%nat → options q !! j ≠ Some o)
          ∧ (NoDup (options q) → first = i).
Proof.
  intros Hq. unfold renderProfessorQuizReview. rewrite Hq. simpl.
  eexists. split; [reflexivity|]. split; [by rewrite length_fmap|].
  intros k q i o Hk Ho.
  destruct (indexOf_first o (options q) i Ho) as (first & Hidx & Hle & Hlk & Hmin).
  exists (reviewCard q), (listedOption q o), first.
  split; [by rewrite list_lookup_fmap, Hk|]. split; [done|].
  split; [simpl; by rewrite list_lookup_fmap, Ho|]. split; [done|].
  split; [apply String.eqb_eq|]. split; [simpl; by rewrite Hidx|].
  split; [done|]. split; [done|]. split; [done|].
  intros Hnd. by apply (NoDup_lookup (options q) first i o).
Qed.

(** The question of [quizDup] lists the text Yes at positions 0 and 2. *)
Lemma professor_review_quizDup :
  quizzes sessionDup !! "DUP001" = Some quizDup
  ∧ ∃ cards, renderProfessorQuizReview "DUP001" sessionDup = Some (title quizDup, cards)
             ∧ length cards = 1.
Proof.
  split; [vm_compute; reflexivity|].
  destruct (professor_review_letters "DUP001" sessionDup quizDup)
    as (cards & H1 & H2 & _); [vm_compute; reflexivity|].
  exists cards. split; [exact H1 | exact H2].
Defined.

(** ** More on scoring *)

Lemma length_filter_all {A : Type} (P : A → Prop) `{∀ x, Decision (P x)}
    (l : list A) (n : nat) :
  length l = n → (length (filter P l) = n ↔ Forall P l).
Proof.
  intros <-.
  induction l as [|x l IH]; [by split; [constructor|]|].
  rewrite filter_cons. destruct (decide (P x)) as [Hx|Hx]; simpl.
  - rewrite Forall_cons. split.
    + intros [= Hl]. split; [done | by apply IH].
    + intros [_ Hl]. f_equal. by apply IH.
  - pose proof (length_filter P l). split; [lia|].
    by intros [Hx' _]%Forall_cons.
Qed.

Lemma filter_none {A : Type} (P : A → Prop) `{∀ x, Decision (P x)} (l : list A) :
  filter P l = [] ↔ Forall (λ x, ¬ P x) l.
Proof.
  induction l as [|x l IH]; [by split; [constructor|]|].
  rewrite filter_cons, Forall_cons. destruct (decide (P x)) as [Hx|Hx].
  - split; [done | by intros [Hx' _]].
  - rewrite IH. split; [done | by intros [_ Hl]].
Qed.

(** X23. Full marks and no marks. The score of a quiz is the number of its
    questions exactly when every question is answered with its correct
    text, and it is 0 exactly when no question is. *)
Theorem full_marks_iff_all_correct (quiz : Quiz) (answers : list (option string)) :
  (computeScore quiz answers = Z.of_nat (length (questions quiz))
   ↔ ∀ i q, questions quiz !! i = Some q →
            answers !! i = Some (Some (correctAnswer q)))
  ∧ (computeScore quiz answers = 0%Z
     ↔ ∀ i q, questions quiz !! i = Some q →
              answers !! i ≠ Some (Some (correctAnswer q))).
Proof.
  rewrite computeScore_exactMatches. unfold exactMatches. split.
  - rewrite Nat2Z.inj_iff.
    rewrite (length_filter_all _ _ _ (length_seq (length (questions quiz)) 0)).
    rewrite Forall_seq. unfold matches_at. split.
    + intros H i q Hi. specialize (H i). rewrite Hi in H. apply H.
      apply lookup_lt_Some in Hi. lia.
    + intros H i Hi. destruct (lookup_lt_is_Some_2 (questions quiz) i) as [q Hq]; [lia|].
      rewrite Hq. by apply H.
  - change 0%Z with (Z.of_nat 0). rewrite Nat2Z.inj_iff, length_zero_iff_nil.
    rewrite filter_none, Forall_seq. unfold matches_at. split.
    + intros H i q Hi. specialize (H i). rewrite Hi in H. apply H.
      apply lookup_lt_Some in Hi. lia.
    + intros H i Hi. destruct (lookup_lt_is_Some_2 (questions quiz) i) as [q Hq]; [lia|].
      rewrite Hq. by apply H.
Qed.

(** X24. A submitted result is consistent. From a session in order, any
    submission records a result whose answers are as many as its total,
    the number of questions, and whose score lies between 0 and that
    total. *)
Theorem result_is_consistent (cheated timedOut : bool) (st : App) (quiz : Quiz) :
  session_ok st →
  activeQuiz st = Some quiz →
  ∃ r, results (submitQuiz cheated timedOut st) = results st ++ [r]
       ∧ total r = Z.of_nat (length (questions quiz))
       ∧ Z.of_nat (length (answers r)) = total r
       ∧ (0 ≤ score r ≤ total r)%Z.
Proof.
  intros [_ Hs] Hq. rewrite Hq in Hs. destruct Hs as (_ & _ & _ & Hl).
  destruct (submitQuiz_results cheated timedOut st quiz Hq)
    as (r & Hr & _ & _ & Hsc & Ht & Ha).
  exists r. split; [done|]. split; [done|]. rewrite Ht, Ha, Hl. split; [done|].
  rewrite Hsc. pose proof (computeScore_bounds quiz (studentAnswers st)).
  destruct cheated; lia.
Qed.

Lemma result_is_consistent_sessionA :
  activeQuiz sessionA = Some quizA
  ∧ ∃ r, results (submitQuiz false true sessionA) = results sessionA ++ [r]
         ∧ Z.of_nat (length (answers r)) = total r.
Proof.
  split; [vm_compute; reflexivity|].
  destruct (result_is_consistent false true sessionA quizA)
    as (r & H1 & _ & H2 & _); [exact sessionA_ok | vm_compute; reflexivity |].
  exists r. split; [exact H1 | exact H2].
Defined.

(** X25. A created quiz survives a reload: a new application over the
    storage left by [createAndSaveQuiz] loads the quizzes with the new one
    among them, and the professors (not empty) and results as they
    were. *)
Theorem created_quiz_reloads (draws : list string) (title : string)
    (questions : list MCQ) (duration : Z) (st st' : App) :
  professors st ≠ ∅ →
  createAndSaveQuiz draws title questions duration st = Some st' →
  ∃ loaded code,
    loadDataFromStorage (freshApp (storage st')) = Some loaded
    ∧ quizzes loaded = quizzes st'
    ∧ quizzes loaded !! code
      = Some {| id := code; title := title; questions := questions;
                duration := duration |}
    ∧ professors loaded = professors st
    ∧ results loaded = results st.
Proof.
  intros Hne. unfold createAndSaveQuiz.
  destruct (newQuizIdLoop draws (quizzes st)) as [code|]; [|done]. simpl.
  intros [= <-].
  match goal with |- context [saveDataToStorage ?s] => set (src := s) end.
  rewrite (load_saved src (freshApp (storage (saveDataToStorage src))) Hne eq_refl).
  eexists. exists code. split; [reflexivity|]. simpl.
  split; [done|]. split; [apply lookup_insert_eq | done].
Qed.

Lemma created_quiz_reloads_createdA :
  createAndSaveQuiz ["0.r1v3rsabc"] "Rivers" [mcq42] 10 appA
  = Some (saveDataToStorage
            (with_quizzes
               (<["R1V3RS" := {| id := "R1V3RS"; title := "Rivers";
                                 questions := [mcq42]; duration := 10 |}]>
                  (quizzes appA)) appA))
  ∧ ∃ loaded,
      loadDataFromStorage
        (freshApp
           (storage
              (saveDataToStorage
                 (with_quizzes
                    (<["R1V3RS" := {| id := "R1V3RS"; title := "Rivers";
                                      questions := [mcq42]; duration := 10 |}]>
                       (quizzes appA)) appA))))
      = Some loaded
      ∧ professors loaded = professors appA.
Proof.
  split; [vm_compute; reflexivity|].
  destruct (created_quiz_reloads ["0.r1v3rsabc"] "Rivers" [mcq42] 10 appA
              (saveDataToStorage
                 (with_quizzes
                    (<["R1V3RS" := {| id := "R1V3RS"; title := "Rivers";
                                      questions := [mcq42]; duration := 10 |}]>
                       (quizzes appA)) appA)))
    as (loaded & code & H1 & _ & _ & H2 & _);
    [exact appA_professors_non_empty | vm_compute; reflexivity |].
  exists loaded. split; [exact H1 | exact H2].
Defined.

(** A draw as [toString(36)] writes a typical number, and the code made
    of it. *)
Lemma quiz_code_of_a_draw :
  is_radix36_text "0.4fzyo82mvyr" = true
  ∧ toUpperCase (js_substring 2 8 "0.4fzyo82mvyr") = "4FZYO8"
  ∧ string_forall is_code_char (toUpperCase (js_substring 2 8 "0.4fzyo82mvyr")) = true.
Proof.
  split; [reflexivity|]. split; [reflexivity|].
  destruct (quiz_code_shape "0.4fzyo82mvyr") as [H _]; [reflexivity | exact H].
Defined.

(** A second quiz created over [appA]. *)
Lemma creation_is_fresh_appA :
  createAndSaveQuiz ["0.r1v3rsabc"] "Rivers" [mcq42] 10 appA
  = Some (saveDataToStorage
            (with_quizzes
               (<["R1V3RS" := {| id := "R1V3RS"; title := "Rivers";
                                 questions := [mcq42]; duration := 10 |}]>
                  (quizzes appA)) appA))
  ∧ ∃ i, quizzes appA !! i = None
         ∧ quizzes
             (saveDataToStorage
                (with_quizzes
                   (<["R1V3RS" := {| id := "R1V3RS"; title := "Rivers";
                                     questions := [mcq42]; duration := 10 |}]>
                      (quizzes appA)) appA))
           = <[i := {| id := i; title := "Rivers"; questions := [mcq42];
                       duration := 10 |}]> (quizzes appA).
Proof.
  split; [vm_compute; reflexivity|].
  destruct (createAndSaveQuiz_fresh ["0.r1v3rsabc"] "Rivers" [mcq42] 10 appA
              (saveDataToStorage
                 (with_quizzes
                    (<["R1V3RS" := {| id := "R1V3RS"; title := "Rivers";
                                      questions := [mcq42]; duration := 10 |}]>
                       (quizzes appA)) appA)))
    as (i & H1 & H2 & _); [vm_compute; reflexivity|].
  exists i. split; [exact H1 | exact H2].
Defined.

(** ** Every saved state has a professor *)

Lemma submitQuiz_professors (cheated timedOut : bool) (st : App) :
  professors (submitQuiz cheated timedOut st) = professors st.
Proof. unfold submitQuiz. by destruct (activeQuiz st). Qed.

Lemma startTimer_professors (now0 now1 d : Z) (st : App) :
  professors (startTimer now0 now1 d st) = professors st.
Proof.
  unfold startTimer, updateTimer. simpl. case_decide; [|done].
  by rewrite submitQuiz_professors.
Qed.

Lemma renderQuestion_professors (st : App) :
  professors (stateOf (renderQuestion st)) = professors st.
Proof.
  unfold renderQuestion. destruct (activeQuiz st); [|done].
  by destruct (at_index _ _).
Qed.

Lemma handleStudentLogin_professors (now0 now1 : Z) (codeInput name roll email : string)
    (st : App) :
  professors (stateOf (handleStudentLogin now0 now1 codeInput name roll email st))
  = professors st.
Proof.
  unfold handleStudentLogin. destruct (_ || _); [done|].
  destruct (quizzes st !! toUpperCase codeInput) as [quiz|]; [|done].
  unfold startQuiz.
  match goal with |- context [renderQuestion ?s] => set (st1 := s) end.
  assert (professors st1 = professors st) as H1
    by (subst st1; by rewrite startTimer_professors).
  pose proof (renderQuestion_professors st1) as H2.
  destruct (renderQuestion st1) as [st2|st2]; simpl in *; by rewrite H2.
Qed.

Lemma handlePage_professors (e : PageEvent) (st : App) :
  professors (handlePage e st) = professors st.
Proof.
  destruct e as [[now|hidden|d|i| | |]|]; simpl.
  - unfold tick, updateTimer. destruct (quizTimerInterval st); [|done].
    case_decide; [apply submitQuiz_professors | done].
  - unfold visibilitychange, visibilityChangeHandler.
    destruct (antiCheating st), hidden; try done. apply submitQuiz_professors.
  - by destruct (navigateQuestion_frame d st) as (_ & _ & _ & -> & _).
  - unfold selectOption. destruct (quizContainer (page st)) as [|radios|]; [done| |done].
    by destruct (radios !! i) as [[v b]|].
  - unfold submitQuizBtnClicked, endReviewMode. by destruct (reviewingResult st).
  - unfold confirmSubmissionBtnClicked. by rewrite submitQuiz_professors.
  - done.
  - unfold reviewAnswersBtnClicked.
    destruct (resultsSection (page st)) as [|r c t]; [done|].
    by destruct (startReviewMode_frame r st) as (_ & _ & _ & -> & _).
Qed.

(** No handler empties the professors: the only one that writes them,
    [handleProfessorRegister], adds an account. *)
Lemma perform_professors (a : Action) (st : App) :
  professors st ≠ ∅ → professors (perform a st) ≠ ∅.
Proof.
  intros Hne. destruct a as [e p|e p|e| |draws t qs d|n0 n1 c n r e|e]; simpl.
  - unfold handleProfessorRegister. destruct (_ || _); [done|].
    destruct (truthy _); [done|]. simpl. apply insert_non_empty.
  - unfold handleProfessorLogin. destruct (professorAt _ _); try done.
    by destruct (_ && _).
  - done.
  - done.
  - unfold createAndSaveQuiz. by destruct (newQuizIdLoop draws (quizzes st)).
  - by rewrite handleStudentLogin_professors.
  - by rewrite handlePage_professors.
Qed.

(** From the load of the constructor on, whatever the application does,
    its professors mapping has a key: [saveDataToStorage] never gets an
    empty one. *)
Lemma actions_professors (s : gmap string json) (st0 : App) (actions : list Action) :
  loadDataFromStorage (freshApp s) = Some st0 →
  professors (foldl (λ st a, perform a st) st0 actions) ≠ ∅.
Proof.
  intros Hne%loadDataFromStorage_professors. revert st0 Hne.
  induction actions as [|a actions IH]; intros st0 Hne; [done|].
  simpl. by apply IH, perform_professors.
Qed.
